(** * lichess-autobot: streaming client and game-session orchestrator

    A shallow embedding of the parts of the bot that the specification
    makes claims about:

    - [src/ui/chess_board.py]     : the move-history replay of [ChessBoardWidget];
    - [src/lichess/api_client.py] : the NDJSON read loop of [LichessClient];
    - [src/engine/uci_engine.py]  : the search limits built by [UCIEngine.get_best_move];
    - [src/database/db_manager.py]: statistics, game history and the log;
    - [src/ui/main_window.py]     : the event handlers of [MainWindow].

    Python values are modelled as follows.  A [str] is the list of its code
    points, [bytes] is a list of [byte], a [float] is a binary64 primitive
    float, an [int] is a [Z], [None] is [None].  The [python-chess] package is
    not part of the repository: it is an interface ([ChessRules]) of which the
    standard rules are one instance.  A coroutine is a function of the state
    it finds and of what its environment does at each [await]; it returns the
    state it leaves and the effects it performed, in order. *)

From Stdlib Require Import ZArith NArith List Floats Ascii String Lia
  DecimalString.
From Stdlib.Strings Require Import Byte.
From stdpp Require Import base option list.
Import ListNotations.

Local Open Scope Z_scope.

(** ** Python strings and bytes *)

Module Py.

(** A [str]: a sequence of Unicode code points. *)
Definition str := list N.

(** A literal. *)
Definition of_string (s : string) : str :=
  map N_of_ascii (list_ascii_of_string s).

(** [a == b]. *)
Fixpoint eqb (a b : str) : bool :=
  match a, b with
  | [], [] => true
  | x :: a', y :: b' => (x =? y)%N && eqb a' b'
  | _, _ => false
  end.

(** [s in l] for a list of strings. *)
Definition member (s : str) (l : list str) : bool := existsb (eqb s) l.

(** [a or b] on values that may be [None]: [a] when it is a non-empty
    string, otherwise [b]. *)
Definition or_else (a b : option str) : option str :=
  match a with
  | Some (_ :: _) => a
  | _ => b
  end.

(** [a == b] on values that may be [None]. *)
Definition opt_eqb (a b : option str) : bool :=
  match a, b with
  | None, None => true
  | Some x, Some y => eqb x y
  | _, _ => false
  end.

(** [str.isspace] for one character: the code points for which CPython's
    [Py_UNICODE_ISSPACE] holds. *)
Definition isspace (c : N) : bool :=
  ((9 <=? c) && (c <=? 13) || (28 <=? c) && (c <=? 32)
   || (c =? 133) || (c =? 160) || (c =? 5760)
   || (8192 <=? c) && (c <=? 8202)
   || (c =? 8232) || (c =? 8233) || (c =? 8239) || (c =? 8287)
   || (c =? 12288))%N.

(** [s.split()] with no argument: the maximal runs of non-space
    characters, in order.  [word] is the run being read. *)
Fixpoint split_from (word : str) (s : str) : list str :=
  match s with
  | [] => match word with [] => [] | _ => [word] end
  | c :: rest =>
      if isspace c
      then match word with
           | [] => split_from [] rest
           | _ => word :: split_from [] rest
           end
      else split_from (word ++ [c]) rest
  end.

Definition split (s : str) : list str := split_from [] s.

Fixpoint lstrip (s : str) : str :=
  match s with
  | c :: rest => if isspace c then lstrip rest else s
  | [] => []
  end.

Definition rstrip (s : str) : str := rev (lstrip (rev s)).

(** [s.strip()]. *)
Definition strip (s : str) : str := rstrip (lstrip s).

(** Truth value of a [str]: non-empty. *)
Definition truthy (s : str) : bool :=
  match s with [] => false | _ => true end.

(** Truth value of a string that may be [None]. *)
Definition opt_truthy (s : option str) : bool :=
  match s with Some (_ :: _) => true | _ => false end.

(** [f"{s}"] for a string that may be [None]. *)
Definition format (s : option str) : str :=
  match s with
  | Some s => s
  | None => of_string "None"
  end.

(** [bytes]. *)
Definition bytes := list byte.

Definition continuation (b : N) : bool := ((128 <=? b) && (b <=? 191))%N.

Definition between (lo hi b : N) : bool := ((lo <=? b) && (b <=? hi))%N.

(** [b.decode('utf-8')] with the default strict error handler: [None]
    stands for [UnicodeDecodeError].  Overlong forms, surrogates and code
    points above U+10FFFF are rejected, as CPython does. *)
Fixpoint decode_utf8_N (bs : list N) : option str :=
  match bs with
  | [] => Some []
  | b0 :: rest =>
      if (b0 <=? 127)%N then
        option_map (cons b0) (decode_utf8_N rest)
      else if between 194 223 b0 then
        match rest with
        | b1 :: rest1 =>
            if continuation b1
            then option_map (cons ((b0 - 192) * 64 + (b1 - 128))%N)
                   (decode_utf8_N rest1)
            else None
        | _ => None
        end
      else if between 224 239 b0 then
        match rest with
        | b1 :: b2 :: rest2 =>
            if (if (b0 =? 224)%N then between 160 191 b1
                else if (b0 =? 237)%N then between 128 159 b1
                else continuation b1) && continuation b2
            then option_map
                   (cons ((b0 - 224) * 4096 + (b1 - 128) * 64 + (b2 - 128))%N)
                   (decode_utf8_N rest2)
            else None
        | _ => None
        end
      else if between 240 244 b0 then
        match rest with
        | b1 :: b2 :: b3 :: rest3 =>
            if (if (b0 =? 240)%N then between 144 191 b1
                else if (b0 =? 244)%N then between 128 143 b1
                else continuation b1) && continuation b2 && continuation b3
            then option_map
                   (cons ((b0 - 240) * 262144 + (b1 - 128) * 4096
                          + (b2 - 128) * 64 + (b3 - 128))%N)
                   (decode_utf8_N rest3)
            else None
        | _ => None
        end
      else None
  end.

Definition decode_utf8 (b : bytes) : option str :=
  decode_utf8_N (map Byte.to_N b).

(** The byte string of an ASCII literal. *)
Definition bytes_of_string (s : string) : bytes :=
  map byte_of_ascii (list_ascii_of_string s).

End Py.

Abbreviation py s := (Py.of_string s).

(** ** The [python-chess] interface

    What the repository uses of [chess.Board] and [chess.Move].  None of these
    operations raises, except [Move.from_uci], which raises [ValueError] (here
    [None]) on a string that is not a UCI move. *)

Class ChessRules := {
  Board : Type;
  Move : Type;
  (** [chess.Board()]: the initial position. *)
  new_board : Board;
  (** [chess.Move.from_uci(s)]. *)
  from_uci : Py.str -> option Move;
  (** [move.uci()]. *)
  uci : Move -> Py.str;
  (** [bool(move)]: false for the null move. *)
  move_truthy : Move -> bool;
  (** [move in board.legal_moves]. *)
  is_legal : Board -> Move -> bool;
  (** [board.push(move)]. *)
  push : Board -> Move -> Board;
  (** [board.turn == chess.WHITE]. *)
  white_to_move : Board -> bool;
  (** [board.fullmove_number]. *)
  fullmove_number : Board -> Z;
  (** [board.is_game_over()]. *)
  is_game_over : Board -> bool
}.

(** ** [src/ui/chess_board.py]: [ChessBoardWidget] *)

Module ChessBoardWidget.
Section Widget.
Context `{ChessRules}.

Record t := mk {
  board : Board;                 (* the displayed position *)
  flipped : bool;
  last_move : option Move;
  move_history : list Move;      (* all moves of the game *)
  current_ply : nat;             (* displayed ply, 0 = start *)
  is_viewing_live : bool
}.

(** [__init__]. *)
Definition init : t :=
  {| board := new_board; flipped := false; last_move := None;
     move_history := []; current_ply := 0; is_viewing_live := true |}.

(** The [for move_str in move_list] loop of [set_position_from_moves];
    [move_history] and [temp_board] are the loop's two variables.  A
    [ValueError] from [from_uci] leaves the loop ([break]). *)
Fixpoint parse_moves (move_list : list Py.str)
    (move_history : list Move) (temp_board : Board) : list Move * Board :=
  match move_list with
  | [] => (move_history, temp_board)
  | move_str :: rest =>
      match from_uci move_str with
      | None => (move_history, temp_board)
      | Some move =>
          if is_legal temp_board move
          then parse_moves rest (move_history ++ [move]) (push temp_board move)
          else parse_moves rest move_history temp_board
      end
  end.

(** The [for i, move in enumerate(self.move_history[:ply])] loop of
    [_rebuild_board_at_ply], from index [i]. *)
Fixpoint rebuild_loop (ply : nat) (i : nat) (moves : list Move)
    (board : Board) (last_move : option Move) : Board * option Move :=
  match moves with
  | [] => (board, last_move)
  | move :: rest =>
      rebuild_loop ply (S i) rest (push board move)
        (if (Z.of_nat i =? Z.of_nat ply - 1) then Some move else last_move)
  end.

Definition _rebuild_board_at_ply (ply : nat) (w : t) : t :=
  let '(b, lm) :=
    rebuild_loop ply 0 (firstn ply (move_history w)) new_board None in
  {| board := b; flipped := flipped w; last_move := lm;
     move_history := move_history w; current_ply := current_ply w;
     is_viewing_live := is_viewing_live w |}.

Definition set_position_from_moves (moves_uci : Py.str) (w : t) : t :=
  let move_history :=
    if Py.truthy moves_uci
    then fst (parse_moves (Py.split moves_uci) [] new_board)
    else [] in
  let current_ply :=
    if is_viewing_live w then length move_history else current_ply w in
  _rebuild_board_at_ply current_ply
    {| board := board w; flipped := flipped w; last_move := last_move w;
       move_history := move_history; current_ply := current_ply;
       is_viewing_live := is_viewing_live w |}.

Definition navigate_to_ply (ply : Z) (w : t) : t :=
  let ply := Z.to_nat (Z.max 0 (Z.min ply (Z.of_nat (length (move_history w))))) in
  _rebuild_board_at_ply ply
    {| board := board w; flipped := flipped w; last_move := last_move w;
       move_history := move_history w; current_ply := ply;
       is_viewing_live := (ply =? length (move_history w))%nat |}.

Definition reset (w : t) : t :=
  {| board := new_board; flipped := flipped w; last_move := None;
     move_history := []; current_ply := 0; is_viewing_live := true |}.

Definition set_flipped (f : bool) (w : t) : t :=
  {| board := board w; flipped := f; last_move := last_move w;
     move_history := move_history w; current_ply := current_ply w;
     is_viewing_live := is_viewing_live w |}.

(** [get_live_board]: a fresh board with every move of the history pushed. *)
Definition get_live_board (w : t) : Board :=
  fold_left push (move_history w) new_board.

Definition get_live_ply (w : t) : nat := length (move_history w).

End Widget.
End ChessBoardWidget.

(** ** Python floats and exceptions *)

(** [float(z)] for an [int] that fits 63 bits (clock values do). *)
Definition float_of_Z (z : Z) : float :=
  match z with
  | Z0 => 0%float
  | Zpos _ => PrimFloat.of_uint63 (Uint63.of_Z z)
  | Zneg _ => PrimFloat.opp (PrimFloat.of_uint63 (Uint63.of_Z (- z)))
  end.

(** [min(a, b)]: [b] when [b < a], otherwise [a]. *)
Definition py_min (a b : float) : float := if PrimFloat.ltb b a then b else a.

(** The exceptions that the modelled code meets. *)
Inductive exn :=
| CancelledError                      (* asyncio.CancelledError, a BaseException *)
| LichessAPIError (status_code : Z)   (* a non-200 answer *)
| UnicodeDecodeError
| IntegrityError                      (* sqlite3: NOT NULL constraint *)
| AttributeError
| Exception (text : Py.str).          (* any other [Exception], with [str(e)] *)

(** [isinstance(e, Exception)]: everything but [CancelledError]. *)
Definition is_Exception (e : exn) : bool :=
  match e with CancelledError => false | _ => true end.

(** ** [src/lichess/api_client.py]: [LichessClient._stream_ndjson] *)

Module LichessClient.


(** What one [await response.content.read(1024)] does.  [Chunk []] is the
    empty chunk of a closed stream.  A read that meets the socket timeout
    raises a [ClientError]. *)
Inductive read_result :=
| Chunk (data : Py.bytes)
| ClientError
| ReadCancelled.

(** One turn of the read loop as the environment decides it: the read
    returns at [returns_at] with [result]; when the chunk has been processed
    [time.time()] gives [now]. *)
Record read := {
  returns_at : float;
  result : read_result;
  now : float
}.

(** How the generator leaves its loop. *)
Inductive ending :=
| Stopped          (* [self._stopping] was seen *)
| StreamEnded      (* empty chunk *)
| ReadFailed       (* [aiohttp.ClientError] inside the loop: [break] *)
| Raised (e : exn) (* the generator raises *)
| Reading.         (* suspended in [read]: no further read is listed *)

Section Stream.
Context {J : Type}.
(** [json.loads]; [None] stands for [json.JSONDecodeError]. *)
Variable json_loads : Py.str -> option J.
(** Whether the caller passed a callback; [stream_events] and [stream_game]
    pass [None]. *)
Variable callback : bool.
(** When [request_stop()] or [close()] set [self._stopping], if they did. *)
Variable stop_requested_at : option float.

(** What the generator hands out. *)
Inductive output :=
| Called (data : J)    (* [callback(data)] *)
| Yielded (data : J).  (* [yield data] *)

Record run := {
  outputs : list output;
  how : ending;
  at_time : float
}.

(** [self._stopping] at time [t]. *)
Definition _stopping (t : float) : bool :=
  match stop_requested_at with
  | Some s => PrimFloat.leb s t
  | None => false
  end.

Definition newline : byte := "010"%byte.

(** The complete lines of [buffer] and what is left of it: the result of
    repeating [line, buffer = buffer.split(b'\n', 1)] while a newline is in
    the buffer.  [line] is the line being read. *)
Fixpoint split_lines (line : Py.bytes) (buffer : Py.bytes)
    : list Py.bytes * Py.bytes :=
  match buffer with
  | [] => ([], line)
  | b :: rest =>
      if Byte.eqb b newline
      then let '(lines, remainder) := split_lines [] rest in (line :: lines, remainder)
      else split_lines (line ++ [b]) rest
  end.

(** What the body of the inner loop does with one line. *)
Inductive line_action :=
| Keepalive              (* empty after [strip()] *)
| Dropped                (* [json.JSONDecodeError]: [continue] *)
| Decoded (data : J)
| Undecodable.           (* [line.decode('utf-8')] raises *)

Definition handle_line (line : Py.bytes) : line_action :=
  match Py.decode_utf8 line with
  | None => Undecodable
  | Some text =>
      let line_str := Py.strip text in
      if Py.truthy line_str then
        match json_loads line_str with
        | Some data => Decoded data
        | None => Dropped
        end
      else Keepalive
  end.

(** The inner loop over the complete lines: the outputs, and the exception
    that ended it if one did. *)
Fixpoint process_lines (lines : list Py.bytes) : list output * option exn :=
  match lines with
  | [] => ([], None)
  | line :: rest =>
      match handle_line line with
      | Undecodable => ([], Some UnicodeDecodeError)
      | Keepalive | Dropped => process_lines rest
      | Decoded data =>
          let '(outs, e) := process_lines rest in
          ((if callback then [Called data] else []) ++ Yielded data :: outs, e)
      end
  end.

(** The [while not self._stopping] loop.  [t] is the time at which the loop
    condition is evaluated. *)
Fixpoint read_loop (reads : list read) (buffer : Py.bytes)
    (last_stop_check : float) (t : float) (outs : list output) : run :=
  if _stopping t then {| outputs := outs; how := Stopped; at_time := t |}
  else
    match reads with
    | [] => {| outputs := outs; how := Reading; at_time := t |}
    | r :: rest =>
        match result r with
        | ReadCancelled =>
            {| outputs := outs; how := Raised CancelledError;
               at_time := returns_at r |}
        | ClientError =>
            {| outputs := outs; how := ReadFailed; at_time := returns_at r |}
        | Chunk [] =>
            {| outputs := outs; how := StreamEnded; at_time := returns_at r |}
        | Chunk chunk =>
            let '(lines, buffer') := split_lines [] (buffer ++ chunk) in
            match process_lines lines with
            | (ys, Some e) =>
                {| outputs := outs ++ ys; how := Raised e;
                   at_time := returns_at r |}
            | (ys, None) =>
                if PrimFloat.ltb 2 (now r - last_stop_check)
                then
                  if _stopping (now r)
                  then {| outputs := outs ++ ys; how := Stopped;
                          at_time := now r |}
                  else read_loop rest buffer' (now r) (now r) (outs ++ ys)
                else read_loop rest buffer' last_stop_check (now r) (outs ++ ys)
            end
        end
    end.

(** What the server answers to the GET. *)
Record response := {
  status : Z;
  opened_at : float;       (* [time.time()] when the loop is entered *)
  reads : list read
}.

Definition _stream_ndjson (resp : response) : run :=
  if negb (status resp =? 200)
  then {| outputs := []; how := Raised (LichessAPIError (status resp));
          at_time := opened_at resp |}
  else read_loop (reads resp) [] (opened_at resp) (opened_at resp) [].

(** The records the consumer's [async for] receives. *)
Definition records (r : run) : list J :=
  omap (fun o => match o with Yielded d => Some d | Called _ => None end)
    (outputs r).

End Stream.
End LichessClient.

(** ** [src/engine/uci_engine.py]: [UCIEngine.get_best_move] *)

Module UCIEngine.

(** [chess.engine.Limit]: the keyword arguments that were given. *)
Record Limit := {
  time : option float;
  depth : option Z;
  nodes : option Z;
  white_clock : option float;
  black_clock : option float;
  white_inc : option float;
  black_inc : option float
}.

Definition seconds (ms : Z) : float := (float_of_Z ms / 1000)%float.

(** The limit that [get_best_move] hands to [self.engine.play]. *)
Definition limit_of (time_limit : option float) (depth nodes : option Z)
    (wtime btime winc binc : option Z) : Limit :=
  let limit_kwargs :=
    {| time := time_limit; depth := depth; nodes := nodes;
       white_clock := option_map seconds wtime;
       black_clock := option_map seconds btime;
       white_inc := option_map seconds winc;
       black_inc := option_map seconds binc |} in
  match time_limit, depth, nodes, wtime, btime, winc, binc with
  | None, None, None, None, None, None, None =>
      (* Default to 1 second if no limit specified *)
      {| time := Some 1%float; depth := None; nodes := None;
         white_clock := None; black_clock := None;
         white_inc := None; black_inc := None |}
  | _, _, _, _, _, _, _ => limit_kwargs
  end.

End UCIEngine.

(** ** [src/database/db_manager.py]: [DatabaseManager] *)

Module DatabaseManager.

Inductive LogSeverity := DEBUG | INFO | WARNING | ERROR | CRITICAL.

Inductive game_result := win | loss | draw.

(** A row of [game_history]. *)
Record game_row := {
  row_game_id : Py.str;
  row_opponent : Py.str;
  row_color : Py.str;
  row_result : game_result;
  row_time_control : Py.str;
  row_rated : bool
}.

(** The calls the window makes on [self.db]. *)
Inductive call :=
| log (severity : LogSeverity) (message : Py.str)
| update_statistics (result : game_result)
| add_game (game_id : option Py.str) (opponent color : Py.str)
    (result : game_result) (time_control : Py.str) (rated : bool).

(** The tables. *)
Record t := {
  games_played : Z;
  games_won : Z;
  games_lost : Z;
  games_drawn : Z;
  game_history : list game_row;     (* one row per [game_id] *)
  logs : list (LogSeverity * Py.str)
}.

Definition empty : t :=
  {| games_played := 0; games_won := 0; games_lost := 0; games_drawn := 0;
     game_history := []; logs := [] |}.

(** [INSERT OR REPLACE] on the unique [game_id]. *)
Definition replace_row (row : game_row) (rows : list game_row) : list game_row :=
  filter (fun r => negb (Py.eqb (row_game_id r) (row_game_id row))) rows ++ [row].

(** One call on the tables; [inr] is the exception sqlite raises. *)
Definition execute (c : call) (db : t) : t + exn :=
  match c with
  | log severity message =>
      inl {| games_played := games_played db; games_won := games_won db;
             games_lost := games_lost db; games_drawn := games_drawn db;
             game_history := game_history db;
             logs := logs db ++ [(severity, message)] |}
  | update_statistics result =>
      inl {| games_played := games_played db + 1;
             games_won := games_won db
                          + match result with win => 1 | _ => 0 end;
             games_lost := games_lost db
                           + match result with loss => 1 | _ => 0 end;
             games_drawn := games_drawn db
                            + match result with draw => 1 | _ => 0 end;
             game_history := game_history db; logs := logs db |}
  | add_game None _ _ _ _ _ => inr IntegrityError
  | add_game (Some game_id) opponent color result time_control rated =>
      inl {| games_played := games_played db; games_won := games_won db;
             games_lost := games_lost db; games_drawn := games_drawn db;
             game_history :=
               replace_row
                 {| row_game_id := game_id; row_opponent := opponent;
                    row_color := color; row_result := result;
                    row_time_control := time_control; row_rated := rated |}
                 (game_history db);
             logs := logs db |}
  end.

End DatabaseManager.

(** ** [src/ui/main_window.py]: [MainWindow] *)

Module MainWindow.
Section Window.
Context `{ChessRules}.

(** The ["game"] object of a [gameFinish] event, with the keys the handler
    reads; a missing key is [None]. *)
Record game_event := {
  gameId : option Py.str;
  id : option Py.str;
  status : option Py.str;
  winner : option Py.str;
  opponent_username : option Py.str    (* game["opponent"]["username"] *)
}.

(** A [gameState] record of the game stream. *)
Record state_event := {
  moves : option Py.str;
  state_status : option Py.str;
  wtime : option Z;
  btime : option Z;
  winc : option Z;
  binc : option Z
}.

(** The attributes of the window that the handlers read and write. *)
Record t := {
  is_running : bool;
  stop_after_game : bool;
  current_game_id : option Py.str;
  our_color : option Py.str;
  game_board : option Board;
  white_time_ms : Z;
  black_time_ms : Z;
  chess_board : ChessBoardWidget.t;
  engine : option bool;              (* the [UCIEngine] and its [is_running] *)
  lichess_client : bool;             (* [self.lichess_client is not None] *)
  opening_time_min : float;          (* the four spin boxes, in seconds *)
  opening_time_max : float;
  midgame_time_min : float;
  midgame_time_max : float;
  single_node : bool;                (* [single_node_checkbox.isChecked()] *)
  time_control : option Py.str;      (* [time_control_combo.currentData().name] *)
  rated : bool                       (* [rated_checkbox.isChecked()] *)
}.

(** What the handlers ask of their environment.  The index is the type of
    the answer. *)
Inductive operation : Type -> Type :=
| sleep (seconds : float) : operation unit           (* asyncio.sleep *)
| play (board : Board) (limit : UCIEngine.Limit)
    : operation (option Move)                        (* engine.play(..).move *)
| make_move (game_id : option Py.str) (move : Py.str)
    : operation bool                                 (* POST .../move/{move} *)
| create_seek (time_control : Py.str) (rated : bool) : operation bool
| stream_events : operation nat   (* returns [None]; the answer counts the
                                     events its callbacks were given *)
| confirm_stop : operation bool                      (* the warning dialog *)
| monotonic : operation float                        (* time.monotonic() *)
| random : operation float.                          (* random.random() *)

Inductive status_text :=
| Thinking
| Waiting_for_opponent
| Move_ready (remaining_wait : float)
| Played (move_uci : Py.str) (total_time : float)
| Game_ended (status : Py.str)
| Game_aborted (status : Py.str)
| Seeking (time_control : Py.str).

Inductive signal :=
| game_finished (game : game_event)
| game_state_updated (event : state_event)
| stats_updated
| error_occurred (title : Py.str).

(** Calls on the presentation widgets, which hold no session state. *)
Inductive ui_call :=
| clocks_set_inactive
| move_list_reset
| evaluation_widget_reset
| game_link_label_hide
| move_list_set_moves
| update_captured_pieces
| update_player_displays
| start_evaluation
| stop_buttons_disabled.

Inductive task := stop_bot_async.

(** What a handler does that can be seen from outside, in order. *)
Inductive effect :=
| Status (text : status_text)             (* self._update_status *)
| Emit (s : signal)                       (* self.signals.*.emit *)
| Ui (c : ui_call)
| Db (c : DatabaseManager.call)           (* self.db.* *)
| Sleep (seconds : float)
| EnginePlay (board : Board) (limit : UCIEngine.Limit)
| MakeMove (game_id : option Py.str) (move : Py.str)
| CreateSeek (time_control : Py.str) (rated : bool)
| StreamEvents
| EnsureFuture (task : task).

Definition request {A} (op : operation A) : list effect :=
  match op with
  | sleep seconds => [Sleep seconds]
  | play board limit => [EnginePlay board limit]
  | make_move game_id move => [MakeMove game_id move]
  | create_seek tc rated => [CreateSeek tc rated]
  | stream_events => [StreamEvents]
  | confirm_stop | monotonic | random => []
  end.

(** *** Coroutines *)

Inductive reply (A : Type) :=
| Returns (a : A)
| Raises (e : exn).
Arguments Returns {A} a.
Arguments Raises {A} e.

(** The environment of one run.  Interactions are numbered from 0 in the
    order in which the run makes them: [respond n op] is the answer to the
    [n]-th, and [meanwhile n] is what the other tasks do to the window while
    the run is suspended in it. *)
Record world := {
  respond : forall A, nat -> operation A -> reply A;
  meanwhile : nat -> t -> t
}.

Inductive exit (A : Type) :=
| Return (a : A)
| Raise (e : exn)
| Looping.          (* the simulation of a loop was cut off *)
Arguments Return {A} a.
Arguments Raise {A} e.
Arguments Looping {A}.

Record context := {
  interactions : nat;
  window : t;
  trace : list effect
}.

Definition M (A : Type) : Type := world -> context -> exit A * context.

Definition ret {A} (a : A) : M A := fun _ c => (Return a, c).

Definition raise {A} (e : exn) : M A := fun _ c => (Raise e, c).

Definition looping {A} : M A := fun _ c => (Looping, c).

Definition bind {A B} (m : M A) (k : A -> M B) : M B :=
  fun w c =>
    match m w c with
    | (Return a, c') => k a w c'
    | (Raise e, c') => (Raise e, c')
    | (Looping, c') => (Looping, c')
    end.

(** [try: m  except BaseException as e: ...]: the exception as a value. *)
Definition attempt {A} (m : M A) : M (A + exn) :=
  fun w c =>
    match m w c with
    | (Return a, c') => (Return (inl a), c')
    | (Raise e, c') => (Return (inr e), c')
    | (Looping, c') => (Looping, c')
    end.

Definition get : M t := fun _ c => (Return (window c), c).

Definition modify (f : t -> t) : M unit :=
  fun _ c =>
    (Return tt, {| interactions := interactions c; window := f (window c);
                   trace := trace c |}).

Definition perform (e : effect) : M unit :=
  fun _ c =>
    (Return tt, {| interactions := interactions c; window := window c;
                   trace := trace c ++ [e] |}).

(** A call that answers at once: no other task runs. *)
Definition ask {A} (op : operation A) : M A :=
  fun w c =>
    let c' := {| interactions := S (interactions c); window := window c;
                 trace := trace c ++ request op |} in
    match respond w A (interactions c) op with
    | Returns a => (Return a, c')
    | Raises e => (Raise e, c')
    end.

(** [await op]: the request goes out, the other tasks run, the answer
    comes. *)
Definition await {A} (op : operation A) : M A :=
  fun w c =>
    let c' := {| interactions := S (interactions c);
                 window := meanwhile w (interactions c) (window c);
                 trace := trace c ++ request op |} in
    match respond w A (interactions c) op with
    | Returns a => (Return a, c')
    | Raises e => (Raise e, c')
    end.

Definition run {A} (m : M A) (w : world) (s : t) : exit A * context :=
  m w {| interactions := 0; window := s; trace := [] |}.


#[local] Instance M_ret : MRet M := @ret.
#[local] Instance M_bind : MBind M := fun A B k m => bind m k.

Definition db_log (severity : DatabaseManager.LogSeverity) (message : Py.str)
    : M unit :=
  perform (Db (DatabaseManager.log severity message)).

(** [self.current_game_id = None; self.our_color = None;
    self.game_board = None]. *)
Definition reset_game_state (s : t) : t :=
  {| is_running := is_running s; stop_after_game := stop_after_game s;
     current_game_id := None; our_color := None; game_board := None;
     white_time_ms := white_time_ms s; black_time_ms := black_time_ms s;
     chess_board := chess_board s; engine := engine s;
     lichess_client := lichess_client s;
     opening_time_min := opening_time_min s;
     opening_time_max := opening_time_max s;
     midgame_time_min := midgame_time_min s;
     midgame_time_max := midgame_time_max s;
     single_node := single_node s; time_control := time_control s;
     rated := rated s |}.

Definition set_chess_board (w : ChessBoardWidget.t) (s : t) : t :=
  {| is_running := is_running s; stop_after_game := stop_after_game s;
     current_game_id := current_game_id s; our_color := our_color s;
     game_board := game_board s;
     white_time_ms := white_time_ms s; black_time_ms := black_time_ms s;
     chess_board := w; engine := engine s;
     lichess_client := lichess_client s;
     opening_time_min := opening_time_min s;
     opening_time_max := opening_time_max s;
     midgame_time_min := midgame_time_min s;
     midgame_time_max := midgame_time_max s;
     single_node := single_node s; time_control := time_control s;
     rated := rated s |}.

Definition set_game_board (b : option Board) (s : t) : t :=
  {| is_running := is_running s; stop_after_game := stop_after_game s;
     current_game_id := current_game_id s; our_color := our_color s;
     game_board := b;
     white_time_ms := white_time_ms s; black_time_ms := black_time_ms s;
     chess_board := chess_board s; engine := engine s;
     lichess_client := lichess_client s;
     opening_time_min := opening_time_min s;
     opening_time_max := opening_time_max s;
     midgame_time_min := midgame_time_min s;
     midgame_time_max := midgame_time_max s;
     single_node := single_node s; time_control := time_control s;
     rated := rated s |}.

Definition set_times (white black : Z) (s : t) : t :=
  {| is_running := is_running s; stop_after_game := stop_after_game s;
     current_game_id := current_game_id s; our_color := our_color s;
     game_board := game_board s;
     white_time_ms := white; black_time_ms := black;
     chess_board := chess_board s; engine := engine s;
     lichess_client := lichess_client s;
     opening_time_min := opening_time_min s;
     opening_time_max := opening_time_max s;
     midgame_time_min := midgame_time_min s;
     midgame_time_max := midgame_time_max s;
     single_node := single_node s; time_control := time_control s;
     rated := rated s |}.

(** [_seek_game]. *)
Definition _seek_game : M unit :=
  s ← get;
  if negb (is_running s) || negb (lichess_client s) then mret tt
  else
    match time_control s with
    | None => raise AttributeError                  (* [tc.name] *)
    | Some tc =>
        let rated := rated s in
        perform (Status (Seeking tc));;
        db_log DatabaseManager.INFO
          (py "Creating seek: " ++ tc ++ py ", rated="
           ++ (if rated then py "True" else py "False"));;
        r ← attempt (await (create_seek tc rated));
        match r with
        | inl _ => mret tt
        | inr CancelledError => mret tt
        | inr _ =>
            s ← get;
            if is_running s
            then db_log DatabaseManager.ERROR (py "Seek error");;
                 perform (Emit (error_occurred (py "Seek Failed")))
            else mret tt
        end
    end.

(** [_on_stop_bot]. *)
Definition _on_stop_bot : M unit :=
  s ← get;
  go ← (if Py.opt_truthy (current_game_id s) then ask confirm_stop
        else mret true);
  if negb go then mret tt
  else perform (Ui stop_buttons_disabled);;
       perform (EnsureFuture stop_bot_async).

Definition abort_statuses : list Py.str := [py "aborted"; py "noStart"].

Definition ending_statuses : list Py.str :=
  [py "mate"; py "resign"; py "stalemate"; py "timeout"; py "draw";
   py "outoftime"; py "cheat"; py "variantEnd"].

(** [_on_game_finish]. *)
Definition _on_game_finish (game : game_event) : M unit :=
  let game_id := Py.or_else (gameId game) (id game) in
  let status := default (py "unknown") (status game) in
  db_log DatabaseManager.INFO
    (py "Game finished: " ++ Py.format game_id ++ py " (" ++ status ++ py ")");;
  perform (Emit (game_finished game));;
  (* Check for abort/noStart - don't count in stats *)
  if Py.member status abort_statuses then
    perform (Status (Game_aborted status));;
    perform (Ui clocks_set_inactive);;
    modify reset_game_state;;
    modify (fun s => set_chess_board (ChessBoardWidget.reset (chess_board s)) s);;
    perform (Ui move_list_reset);;
    perform (Ui evaluation_widget_reset);;
    perform (Ui game_link_label_hide);;
    s ← get;
    if is_running s
    then await (sleep 2);; _seek_game
    else mret tt
  else
    s ← get;
    let winner := winner game in
    let result :=
      if Py.opt_eqb winner (our_color s) then DatabaseManager.win
      else match winner with
           | Some _ => DatabaseManager.loss
           | None => DatabaseManager.draw
           end in
    perform (Db (DatabaseManager.update_statistics result));;
    let opponent_name := default (py "Unknown") (opponent_username game) in
    let add :=
      DatabaseManager.add_game game_id opponent_name
        (default (py "unknown") (Py.or_else (our_color s) None))
        result (default (py "unknown") (time_control s)) (rated s) in
    perform (Db add);;
    match DatabaseManager.execute add DatabaseManager.empty with
    | inr e => raise e
    | inl _ =>
        perform (Emit stats_updated);;
        perform (Ui clocks_set_inactive);;
        modify reset_game_state;;
        s ← get;
        if stop_after_game s then
          db_log DatabaseManager.INFO (py "Stopping bot after game as requested");;
          _on_stop_bot
        else if is_running s
        then await (sleep 2);; _seek_game
        else mret tt
    end.

(** [_on_game_aborted]. *)
Definition _on_game_aborted (reason : Py.str) : M unit :=
  db_log DatabaseManager.INFO (py "Game aborted: " ++ reason);;
  perform (Status (Game_aborted reason));;
  perform (Ui clocks_set_inactive);;
  modify reset_game_state;;
  modify (fun s => set_chess_board (ChessBoardWidget.reset (chess_board s)) s);;
  perform (Ui move_list_reset);;
  perform (Ui evaluation_widget_reset);;
  perform (Ui game_link_label_hide);;
  s ← get;
  if is_running s
  then await (sleep 2);; _seek_game
  else mret tt.

(** [random.uniform(a, b)]. *)
Definition uniform (a b : float) : M float :=
  u ← ask random;
  mret (a + (b - a) * u)%float.

(** The think-time range for a move number: the opening spin boxes up to
    move 10, the midgame ones after. *)
Definition think_range (s : t) (move_number : Z) : float * float :=
  if move_number <=? 10
  then (opening_time_min s, opening_time_max s)
  else (midgame_time_min s, midgame_time_max s).

(** If single node mode is enabled (for engines like Maia), use nodes=1. *)
Definition nodes_limit (single_node : bool) : option Z :=
  if single_node then Some 1 else None.

(** The [try] block of [_maybe_make_move]. *)
Definition make_move_body (state : state_event) (board : Board) : M unit :=
  (* Record start time for throttling *)
  think_start_time ← ask monotonic;
  let wtime := default 60000 (wtime state) in
  let btime := default 60000 (btime state) in
  let winc := default 0 (winc state) in
  let binc := default 0 (binc state) in
  let move_number := fullmove_number board in
  s ← get;
  let '(time_min, time_max) := think_range s move_number in
  (* Random target time between min and max for human-like play *)
  target_move_time ← uniform time_min time_max;
  let nodes_limit := nodes_limit (single_node s) in
  move ← match engine s with
         | Some true =>
             await (play board
                      (UCIEngine.limit_of (Some time_max) None nodes_limit
                         (Some wtime) (Some btime) (Some winc) (Some binc)))
         | _ => raise (Exception (py "Engine is not running"))
         end;
  match move with
  | Some move =>
      if move_truthy move then
        let move_uci := uci move in
        db_log DatabaseManager.DEBUG (py "Engine move: " ++ move_uci);;
        (* Throttling: ensure we don't play faster than target_move_time *)
        now ← ask monotonic;
        let elapsed := (now - think_start_time)%float in
        let remaining_wait := (target_move_time - elapsed)%float in
        (if PrimFloat.ltb 0 remaining_wait
         then perform (Status (Move_ready remaining_wait));;
              await (sleep remaining_wait)
         else mret tt);;
        (* Make the move on Lichess *)
        s ← get;
        success ← await (make_move (current_game_id s) move_uci);
        if success : bool then
          now ← ask monotonic;
          perform (Status (Played move_uci (now - think_start_time)%float))
        else
          db_log DatabaseManager.WARNING (py "Move may have failed: " ++ move_uci)
      else db_log DatabaseManager.WARNING (py "Engine returned no move")
  | None => db_log DatabaseManager.WARNING (py "Engine returned no move")
  end.

(** [_maybe_make_move]. *)
Definition _maybe_make_move (state : state_event) : M unit :=
  s ← get;
  match game_board s, engine s with
  | Some board, Some _ =>
      if negb (Py.opt_truthy (current_game_id s)) then mret tt
      else if is_game_over board then mret tt
      else
        let is_white_turn := white_to_move board in
        let is_our_turn :=
          is_white_turn && Py.opt_eqb (our_color s) (Some (py "white"))
          || negb is_white_turn && Py.opt_eqb (our_color s) (Some (py "black")) in
        if negb is_our_turn then perform (Status Waiting_for_opponent)
        else
          perform (Status Thinking);;
          r ← attempt (make_move_body state board);
          match r with
          | inl _ => mret tt
          | inr CancelledError => raise CancelledError
          | inr _ => db_log DatabaseManager.ERROR (py "Error making move")
          end
  | _, _ => mret tt
  end.

(** The board update that [_on_game_state] makes in both of its branches:
    [self.chess_board.set_position_from_moves(moves)] and
    [self.game_board = self.chess_board.get_live_board()]. *)
Definition update_board (moves : Py.str) (s : t) : t :=
  let w := ChessBoardWidget.set_position_from_moves moves (chess_board s) in
  set_game_board (Some (ChessBoardWidget.get_live_board w)) (set_chess_board w s).

(** [_on_game_state]. *)
Definition _on_game_state (event : state_event) : M unit :=
  let moves := default [] (moves event) in
  let status := default (py "started") (state_status event) in
  (* Check for game ending statuses *)
  if Py.member status abort_statuses then _on_game_aborted status
  else if Py.member status ending_statuses then
    (* Game ended - update the board with final moves before returning *)
    modify (update_board moves);;
    perform (Ui move_list_set_moves);;
    perform (Ui update_captured_pieces);;
    perform (Ui update_player_displays);;
    perform (Ui start_evaluation);;
    perform (Status (Game_ended status))
  else
    (* Update times *)
    modify (fun s => set_times (default (white_time_ms s) (wtime event))
                       (default (black_time_ms s) (btime event)) s);;
    (* Update board *)
    modify (update_board moves);;
    perform (Ui move_list_set_moves);;
    perform (Ui update_captured_pieces);;
    perform (Ui update_player_displays);;
    s ← get;
    (if ChessBoardWidget.is_viewing_live (chess_board s)
     then perform (Ui start_evaluation) else mret tt);;
    perform (Emit (game_state_updated event));;
    (* Check if game is still ongoing *)
    if negb (Py.member status [py "started"; py "created"]) then mret tt
    else _maybe_make_move event.

Definition max_reconnect_delay : float := 30%float.

(** One pass through the [try] block of [_run_event_stream]; the value is
    the [reconnect_delay] it leaves. *)
Definition event_stream_try (reconnect_delay : float) : M float :=
  db_log DatabaseManager.DEBUG (py "Starting event stream...");;
  _ ← await stream_events;
  (* If stream ends normally, wait a bit and reconnect *)
  s ← get;
  if is_running s then
    db_log DatabaseManager.WARNING (py "Event stream ended, reconnecting...");;
    await (sleep reconnect_delay);;
    mret (py_min (reconnect_delay * 2)%float max_reconnect_delay)
  else mret reconnect_delay.

(** The [while self.is_running] loop of [_run_event_stream], for at most
    [turns] turns. *)
Fixpoint event_stream_loop (turns : nat) (reconnect_delay : float) : M unit :=
  match turns with
  | O => looping
  | S turns =>
      s ← get;
      if negb (is_running s) then mret tt
      else
        r ← attempt (event_stream_try reconnect_delay);
        match r with
        | inl reconnect_delay => event_stream_loop turns reconnect_delay
        | inr CancelledError => mret tt
        | inr _ =>
            s ← get;
            if is_running s then
              db_log DatabaseManager.ERROR (py "Event stream error");;
              (* Wait before reconnecting *)
              await (sleep reconnect_delay);;
              event_stream_loop turns
                (py_min (reconnect_delay * 2)%float max_reconnect_delay)
            else mret tt
        end
  end.

(** [_run_event_stream], cut off after [turns] turns of its loop. *)
Definition _run_event_stream (turns : nat) : M unit :=
  event_stream_loop turns 1%float.

End Window.

Arguments Returns {A} a.
Arguments Raises {A} e.
Arguments Return {A} a.
Arguments Raise {A} e.
Arguments Looping {A}.

End MainWindow.

(** ** The standard rules of chess

    An instance of [ChessRules]: positions, UCI notation, legal moves and the
    end of the game as [python-chess] implements them for standard chess.
    Squares are numbered from a1 = 0 to h8 = 63. *)

Module StandardChess.

Inductive piece_type := PAWN | KNIGHT | BISHOP | ROOK | QUEEN | KING.

Record piece := {
  kind : piece_type;
  white : bool
}.

(** [chess.Move]. *)
Record move := {
  from_square : Z;
  to_square : Z;
  promotion : option piece_type;
  drop : option piece_type
}.

(** What identifies a position for the repetition rule. *)
Definition key : Type := list (option piece) * bool * list Z * option Z.

(** [chess.Board]. *)
Record board := {
  squares : list (option piece);
  turn : bool;                    (* chess.WHITE is True *)
  castling_rights : list Z;       (* the rooks that may still castle *)
  ep_square : option Z;
  halfmove_clock : Z;
  fullmove : Z;
  earlier : list key              (* the positions of the move stack *)
}.

Definition piece_type_index (k : piece_type) : Z :=
  match k with
  | PAWN => 1 | KNIGHT => 2 | BISHOP => 3 | ROOK => 4 | QUEEN => 5 | KING => 6
  end.

Definition kind_eqb (a b : piece_type) : bool :=
  piece_type_index a =? piece_type_index b.

Definition piece_eqb (a b : option piece) : bool :=
  match a, b with
  | None, None => true
  | Some p, Some q => kind_eqb (kind p) (kind q) && Bool.eqb (white p) (white q)
  | _, _ => false
  end.

Definition square_file (sq : Z) : Z := sq mod 8.
Definition square_rank (sq : Z) : Z := sq / 8.
Definition square (file rank : Z) : Z := rank * 8 + file.
Definition inside (file rank : Z) : bool :=
  (0 <=? file) && (file <=? 7) && (0 <=? rank) && (rank <=? 7).

Definition all_squares : list Z := map Z.of_nat (seq 0 64).

(** [any(f(x) for x in l)]: stops at the first hit. *)
Fixpoint any {A} (f : A -> bool) (l : list A) : bool :=
  match l with
  | [] => false
  | x :: rest => if f x then true else any f rest
  end.

Definition piece_at (sqs : list (option piece)) (sq : Z) : option piece :=
  if (0 <=? sq) && (sq <=? 63) then nth (Z.to_nat sq) sqs None else None.

Definition put (sq : Z) (p : option piece) (sqs : list (option piece))
    : list (option piece) :=
  <[Z.to_nat sq := p]> sqs.

Definition is_piece (sqs : list (option piece)) (sq : Z) (k : piece_type)
    (color : bool) : bool :=
  piece_eqb (piece_at sqs sq) (Some {| kind := k; white := color |}).

Definition occupied (sqs : list (option piece)) (sq : Z) : bool :=
  match piece_at sqs sq with Some _ => true | None => false end.

Definition occupied_by (sqs : list (option piece)) (color : bool) (sq : Z) : bool :=
  match piece_at sqs sq with
  | Some p => Bool.eqb (white p) color
  | None => false
  end.

(** Whether a slide from [(f, r)] in direction [(df, dr)] reaches [(tf, tr)]
    over empty squares. *)
Fixpoint slide (n : nat) (sqs : list (option piece)) (f r df dr tf tr : Z) : bool :=
  match n with
  | O => false
  | S n =>
      let f' := f + df in
      let r' := r + dr in
      if negb (inside f' r') then false
      else if (f' =? tf) && (r' =? tr) then true
      else if occupied sqs (square f' r') then false
      else slide n sqs f' r' df dr tf tr
  end.

(** Whether the piece on [from] attacks [to]. *)
Definition attacks (sqs : list (option piece)) (from to : Z) : bool :=
  match piece_at sqs from with
  | None => false
  | Some p =>
      let f := square_file from in
      let r := square_rank from in
      let tf := square_file to in
      let tr := square_rank to in
      let df := tf - f in
      let dr := tr - r in
      let diagonal := (Z.abs df =? Z.abs dr) && negb (df =? 0) in
      let straight := xorb (df =? 0) (dr =? 0) in
      let reached := slide 7 sqs f r (Z.sgn df) (Z.sgn dr) tf tr in
      match kind p with
      | PAWN => (Z.abs df =? 1) && (dr =? (if white p then 1 else -1))
      | KNIGHT => (Z.abs df =? 1) && (Z.abs dr =? 2)
                  || (Z.abs df =? 2) && (Z.abs dr =? 1)
      | KING => Z.max (Z.abs df) (Z.abs dr) =? 1
      | BISHOP => diagonal && reached
      | ROOK => straight && reached
      | QUEEN => (diagonal || straight) && reached
      end
  end.

(** [is_attacked_by(color, sq)]. *)
Definition is_attacked_by (sqs : list (option piece)) (color : bool) (sq : Z) : bool :=
  any (fun from => if occupied_by sqs color from then attacks sqs from sq else false)
    all_squares.

(** [king(color)]. *)
Definition king (sqs : list (option piece)) (color : bool) : option Z :=
  find (fun sq => is_piece sqs sq KING color) all_squares.

Definition in_check (sqs : list (option piece)) (color : bool) : bool :=
  match king sqs color with
  | Some k => is_attacked_by sqs (negb color) k
  | None => false
  end.

(** The rook with which the king move [m] castles, for a king on its
    original square: the king goes two squares, or onto the rook. *)
Definition castling_rook (b : board) (m : move) : option Z :=
  let home := if turn b then 4 else 60 in
  if is_piece (squares b) (from_square m) KING (turn b) && (from_square m =? home)
  then
    if (to_square m =? home + 2) || (to_square m =? home + 3) then Some (home + 3)
    else if (to_square m =? home - 2) || (to_square m =? home - 4) then Some (home - 4)
    else None
  else None.

(** Whether castling with the rook on [rook] is possible now. *)
Definition may_castle (b : board) (rook : Z) : bool :=
  let sqs := squares b in
  let us := turn b in
  let home := if us then 4 else 60 in
  let a_side := rook <? home in
  let king_to := if a_side then home - 2 else home + 2 in
  let rook_to := if a_side then home - 1 else home + 1 in
  let between := if a_side then [home - 3; home - 2; home - 1]
                 else [home + 1; home + 2] in
  let without_king := put home None sqs in
  let castled := put rook_to (Some {| kind := ROOK; white := us |})
                   (put rook None without_king) in
  if existsb (Z.eqb rook) (castling_rights b)
     && is_piece sqs home KING us
     && is_piece sqs rook ROOK us
     && forallb (fun sq => negb (occupied sqs sq)) between
  then
    negb (is_attacked_by without_king (negb us) home)
    && negb (is_attacked_by without_king (negb us) rook_to)
    && negb (is_attacked_by castled (negb us) king_to)
  else false.

Definition promotes_to (m : move) (kinds : list piece_type) : bool :=
  match promotion m with
  | Some k => existsb (kind_eqb k) kinds
  | None => false
  end.

Definition no_promotion (m : move) : bool :=
  match promotion m with None => true | Some _ => false end.

(** The pawn moves of [generate_pseudo_legal_moves]. *)
Definition pawn_move (b : board) (m : move) : bool :=
  let sqs := squares b in
  let us := turn b in
  let from := from_square m in
  let to := to_square m in
  let df := square_file to - square_file from in
  let dr := square_rank to - square_rank from in
  let forward := if us then 1 else -1 in
  let promotion_ok :=
    if square_rank to =? (if us then 7 else 0)
    then promotes_to m [QUEEN; ROOK; BISHOP; KNIGHT]
    else no_promotion m in
  (Z.abs df =? 1) && (dr =? forward) && occupied_by sqs (negb us) to && promotion_ok
  || (df =? 0) && (dr =? forward) && negb (occupied sqs to) && promotion_ok
  || (df =? 0) && (dr =? 2 * forward)
     && (square_rank from =? (if us then 1 else 6))
     && negb (occupied sqs (from + 8 * forward)) && negb (occupied sqs to)
     && no_promotion m
  || match ep_square b with
     | Some ep =>
         (to =? ep) && (Z.abs df =? 1) && (dr =? forward)
         && negb (occupied sqs to)
         && (square_rank from =? (if us then 4 else 3)) && no_promotion m
     | None => false
     end.

Definition truthy (m : move) : bool :=
  negb (from_square m =? 0) || negb (to_square m =? 0)
  || match promotion m with Some _ => true | None => false end
  || match drop m with Some _ => true | None => false end.

(** The squares after the piece of [m] has moved, castling apart. *)
Definition moved (b : board) (m : move) : list (option piece) :=
  let sqs := squares b in
  let us := turn b in
  match piece_at sqs (from_square m) with
  | None => sqs
  | Some p =>
      let en_passant :=
        kind_eqb (kind p) PAWN
        && match ep_square b with
           | Some ep => (to_square m =? ep)
                        && negb (square_file (from_square m) =? square_file (to_square m))
                        && negb (occupied sqs (to_square m))
           | None => false
           end in
      let sqs := if en_passant
                 then put (to_square m + (if us then -8 else 8)) None sqs
                 else sqs in
      let arriving := match promotion m with
                      | Some k => {| kind := k; white := us |}
                      | None => p
                      end in
      put (to_square m) (Some arriving) (put (from_square m) None sqs)
  end.

(** The squares after castling with the rook on [rook]. *)
Definition castled (b : board) (rook : Z) : list (option piece) :=
  let us := turn b in
  let home := if us then 4 else 60 in
  let a_side := rook <? home in
  put (if a_side then home - 2 else home + 2) (Some {| kind := KING; white := us |})
    (put (if a_side then home - 1 else home + 1) (Some {| kind := ROOK; white := us |})
       (put rook None (put home None (squares b)))).

(** [is_pseudo_legal(m)]. *)
Definition is_pseudo_legal (b : board) (m : move) : bool :=
  let sqs := squares b in
  if negb (truthy m) then false
  else if match drop m with Some _ => true | None => false end then false
  else
    match piece_at sqs (from_square m) with
    | None => false
    | Some p =>
        if negb (Bool.eqb (white p) (turn b)) then false
        else if negb (no_promotion m)
                && (negb (kind_eqb (kind p) PAWN)
                    || negb (square_rank (to_square m) =? (if turn b then 7 else 0)))
        then false
        else if match castling_rook b m with
                | Some rook => no_promotion m && may_castle b rook
                | None => false
                end
        then true
        else if occupied_by sqs (turn b) (to_square m) then false
        else if kind_eqb (kind p) PAWN then pawn_move b m
        else attacks sqs (from_square m) (to_square m)
    end.

Definition castles (b : board) (m : move) : option Z :=
  match castling_rook b m with
  | Some rook => if no_promotion m && may_castle b rook then Some rook else None
  | None => None
  end.

(** [m in board.legal_moves]. *)
Definition is_legal (b : board) (m : move) : bool :=
  if (0 <=? from_square m) && (from_square m <=? 63)
     && (0 <=? to_square m) && (to_square m <=? 63)
  then
    if is_pseudo_legal b m then
      match castles b m with
      | Some _ => true
      | None => negb (in_check (moved b m) (turn b))
      end
    else false
  else false.

(** [any(board.legal_moves)]. *)
Definition any_legal (b : board) : bool :=
  any (fun from =>
    if occupied_by (squares b) (turn b) from then
      any (fun to =>
        any (fun p => is_legal b {| from_square := from; to_square := to;
                                    promotion := p; drop := None |})
          [None; Some QUEEN; Some ROOK; Some BISHOP; Some KNIGHT])
        all_squares
    else false)
    all_squares.

(** [clean_castling_rights()]. *)
Definition clean_castling_rights (b : board) : list Z :=
  filter (fun rook : Z =>
            let color := rook <? 8 in
            existsb (Z.eqb rook) [0; 7; 56; 63]
            && is_piece (squares b) rook ROOK color
            && is_piece (squares b) (if color then 4 else 60) KING color)
    (castling_rights b).

(** [has_legal_en_passant()]. *)
Definition has_legal_en_passant (b : board) : bool :=
  match ep_square b with
  | Some ep =>
      any (fun from =>
             if is_piece (squares b) from PAWN (turn b)
             then is_legal b {| from_square := from; to_square := ep;
                                promotion := None; drop := None |}
             else false)
        all_squares
  | None => false
  end.

Definition key_of (b : board) : key :=
  (squares b, turn b, clean_castling_rights b,
   if has_legal_en_passant b then ep_square b else None).

Definition key_eqb (a b : key) : bool :=
  let '(sa, ta, ca, ea) := a in
  let '(sb, tb, cb, eb) := b in
  forallb (fun sq => piece_eqb (piece_at sa sq) (piece_at sb sq)) all_squares
  && Bool.eqb ta tb
  && forallb (fun r => Bool.eqb (existsb (Z.eqb r) ca) (existsb (Z.eqb r) cb))
       [0; 7; 56; 63]
  && match ea, eb with
     | None, None => true
     | Some x, Some y => x =? y
     | _, _ => false
     end.

(** [board.push(m)]. *)
Definition push (b : board) (m : move) : board :=
  let us := turn b in
  let sqs := squares b in
  let fullmove' := if us then fullmove b else fullmove b + 1 in
  let earlier' := key_of b :: earlier b in
  if negb (truthy m) then
    {| squares := sqs; turn := negb us; castling_rights := clean_castling_rights b;
       ep_square := None; halfmove_clock := halfmove_clock b + 1;
       fullmove := fullmove'; earlier := earlier' |}
  else
    match piece_at sqs (from_square m) with
    | None =>
        {| squares := sqs; turn := negb us;
           castling_rights := clean_castling_rights b;
           ep_square := None; halfmove_clock := halfmove_clock b + 1;
           fullmove := fullmove'; earlier := earlier' |}
    | Some p =>
        let castling := match castling_rook b m with
                        | Some rook => if is_piece sqs rook ROOK us
                                       then Some rook else None
                        | None => None
                        end in
        let capture := occupied_by sqs (negb us) (to_square m) in
        let zeroing := kind_eqb (kind p) PAWN || capture in
        let rights :=
          filter (fun rook : Z =>
                    negb (rook =? from_square m) && negb (rook =? to_square m)
                    && negb (kind_eqb (kind p) KING
                             && Bool.eqb (rook <? 8) us))
            (clean_castling_rights b) in
        let diff := to_square m - from_square m in
        let ep :=
          if kind_eqb (kind p) PAWN then
            if (diff =? 16) && (square_rank (from_square m) =? 1)
            then Some (from_square m + 8)
            else if (diff =? -16) && (square_rank (from_square m) =? 6)
            then Some (from_square m - 8)
            else None
          else None in
        {| squares := match castling with
                      | Some rook => castled b rook
                      | None => moved b m
                      end;
           turn := negb us; castling_rights := rights; ep_square := ep;
           halfmove_clock := if zeroing then 0 else halfmove_clock b + 1;
           fullmove := fullmove'; earlier := earlier' |}
    end.

Definition back_rank (color : bool) : list (option piece) :=
  map (fun k => Some {| kind := k; white := color |})
    [ROOK; KNIGHT; BISHOP; QUEEN; KING; BISHOP; KNIGHT; ROOK].

(** [chess.Board()]. *)
Definition starting_position : board :=
  {| squares := back_rank true
                ++ repeat (Some {| kind := PAWN; white := true |}) 8
                ++ repeat None 32
                ++ repeat (Some {| kind := PAWN; white := false |}) 8
                ++ back_rank false;
     turn := true; castling_rights := [0; 7; 56; 63]; ep_square := None;
     halfmove_clock := 0; fullmove := 1; earlier := [] |}.

Definition count_pieces (b : board) (p : option piece -> Z -> bool) : nat :=
  length (filter (fun sq => p (piece_at (squares b) sq) sq) all_squares).

Definition is_of (kinds : list piece_type) (p : option piece) : bool :=
  match p with
  | Some q => existsb (kind_eqb (kind q)) kinds
  | None => false
  end.

Definition is_color (color : bool) (p : option piece) : bool :=
  match p with
  | Some q => Bool.eqb (white q) color
  | None => false
  end.

(** [has_insufficient_material(color)]. *)
Definition has_insufficient_material (b : board) (color : bool) : bool :=
  let count := count_pieces b in
  if (0 <? count (fun p _ => is_color color p && is_of [PAWN; ROOK; QUEEN] p))%nat
  then false
  else if (0 <? count (fun p _ => is_color color p && is_of [KNIGHT] p))%nat
  then (count (fun p _ => is_color color p) <=? 2)%nat
       && (count (fun p _ => is_color (negb color) p
                             && negb (is_of [KING; QUEEN] p)) =? 0)%nat
  else if (0 <? count (fun p _ => is_color color p && is_of [BISHOP] p))%nat
  then
    let dark sq := Z.even (square_file sq + square_rank sq) in
    ((count (fun p sq => is_of [BISHOP] p && dark sq) =? 0)%nat
     || (count (fun p sq => is_of [BISHOP] p && negb (dark sq)) =? 0)%nat)
    && (count (fun p _ => is_of [PAWN; KNIGHT] p) =? 0)%nat
  else true.

(** [is_game_over()]: checkmate, stalemate, insufficient material, the
    seventy-five-move rule or fivefold repetition. *)
Definition is_game_over (b : board) : bool :=
  if negb (any_legal b) then true
  else if has_insufficient_material b true && has_insufficient_material b false
  then true
  else if 150 <=? halfmove_clock b then true
  else (4 <=? length (filter (key_eqb (key_of b)) (earlier b)))%nat.

(** *** UCI notation *)

(** The index of a square name such as [e4] in [SQUARE_NAMES]. *)
Definition parse_square (file rank : N) : option Z :=
  if ((97 <=? file) && (file <=? 104) && (49 <=? rank) && (rank <=? 56))%N
  then Some (square (Z.of_N file - 97) (Z.of_N rank - 49))
  else None.

(** The index of a lower-case piece letter in [PIECE_SYMBOLS]. *)
Definition parse_piece (c : N) : option piece_type :=
  if (c =? 112)%N then Some PAWN
  else if (c =? 110)%N then Some KNIGHT
  else if (c =? 98)%N then Some BISHOP
  else if (c =? 114)%N then Some ROOK
  else if (c =? 113)%N then Some QUEEN
  else if (c =? 107)%N then Some KING
  else None.

(** [c.lower()], as far as it can give a piece symbol: the capital
    letters, and the Kelvin sign U+212A, whose lower case is [k]. *)
Definition lower (c : N) : N :=
  if ((65 <=? c) && (c <=? 90))%N then (c + 32)%N
  else if (c =? 8490)%N then 107%N
  else c.

Definition plain (from to : Z) (p : option piece_type) : option move :=
  if from =? to then None
  else Some {| from_square := from; to_square := to; promotion := p; drop := None |}.

(** [chess.Move.from_uci]; [None] is its [ValueError]. *)
Definition from_uci (s : Py.str) : option move :=
  if Py.eqb s (py "0000") then
    Some {| from_square := 0; to_square := 0; promotion := None; drop := None |}
  else
    match s with
    | [p; at_sign; f; r] =>
        if (at_sign =? 64)%N then
          match parse_piece (lower p), parse_square f r with
          | Some k, Some sq =>
              Some {| from_square := sq; to_square := sq; promotion := None;
                      drop := Some k |}
          | _, _ => None
          end
        else
          match parse_square p at_sign, parse_square f r with
          | Some from, Some to => plain from to None
          | _, _ => None
          end
    | [f1; r1; f2; r2; p] =>
        match parse_square f1 r1, parse_square f2 r2, parse_piece p with
        | Some from, Some to, Some k => plain from to (Some k)
        | _, _, _ => None
        end
    | _ => None
    end.

Definition square_name (sq : Z) : Py.str :=
  [Z.to_N (square_file sq + 97); Z.to_N (square_rank sq + 49)].

Definition piece_symbol (k : piece_type) : N :=
  match k with
  | PAWN => 112 | KNIGHT => 110 | BISHOP => 98
  | ROOK => 114 | QUEEN => 113 | KING => 107
  end%N.

(** [move.uci()]. *)
Definition uci (m : move) : Py.str :=
  match drop m with
  | Some k => [(piece_symbol k - 32)%N; 64%N] ++ square_name (to_square m)
  | None =>
      match promotion m with
      | Some k => square_name (from_square m) ++ square_name (to_square m)
                  ++ [piece_symbol k]
      | None =>
          if truthy m
          then square_name (from_square m) ++ square_name (to_square m)
          else py "0000"
      end
  end.

#[export] Instance rules : ChessRules :=
  Build_ChessRules board move starting_position from_uci uci truthy
    is_legal push turn fullmove is_game_over.

End StandardChess.

(** * Vocabulary of the specification *)

Module Spec.
Section Replay.
Context `{ChessRules}.

(** The history that a list of move tokens leaves, from the position [b]:
    a token that is a legal move is taken and played, a token that is a move
    but not a legal one is passed over, and the first token that is not a
    move ends the list. *)
Inductive accepts : Board -> list Py.str -> list Move -> Prop :=
| accepts_end b :
    accepts b [] []
| accepts_stop b token rest :
    from_uci token = None ->
    accepts b (token :: rest) []
| accepts_skip b token rest m history :
    from_uci token = Some m -> is_legal b m = false ->
    accepts b rest history ->
    accepts b (token :: rest) history
| accepts_take b token rest m history :
    from_uci token = Some m -> is_legal b m = true ->
    accepts (push b m) rest history ->
    accepts b (token :: rest) (m :: history).

(** The position that replaying a list of tokens from [b] gives. *)
Fixpoint replay_tokens (b : Board) (tokens : list Py.str) : Board :=
  match tokens with
  | [] => b
  | token :: rest =>
      match from_uci token with
      | None => b
      | Some m =>
          if is_legal b m then replay_tokens (push b m) rest
          else replay_tokens b rest
      end
  end.

(** The position that replaying a move list alone from the initial position
    gives. *)
Definition replay (moves_uci : Py.str) : Board :=
  replay_tokens new_board (Py.split moves_uci).

(** The moves that [set_position_from_moves] keeps of a move list. *)
Definition accepted (moves_uci : Py.str) : list Move :=
  fst (ChessBoardWidget.parse_moves (Py.split moves_uci) [] new_board).

End Replay.
End Spec.

Module Observe.
Section Effects.
Context `{ChessRules}.
Import MainWindow.

(** A call of [self.db.update_statistics]. *)
Definition is_statistics_update (e : effect) : bool :=
  match e with
  | Db (DatabaseManager.update_statistics _) => true
  | _ => false
  end.

(** A call of [self.db.add_game]. *)
Definition is_history_record (e : effect) : bool :=
  match e with
  | Db (DatabaseManager.add_game _ _ _ _ _ _) => true
  | _ => false
  end.

(** A call of one of [self.db.log_*]. *)
Definition is_log (e : effect) : bool :=
  match e with
  | Db (DatabaseManager.log _ _) => true
  | _ => false
  end.

(** An effect that is no call of [update_statistics] or [add_game]. *)
Definition keeps_ledger (e : effect) : bool :=
  negb (is_statistics_update e) && negb (is_history_record e).

Definition count (p : effect -> bool) (tr : list effect) : nat :=
  length (filter p tr).

(** Whether a run submitted the move [move_uci] for [game_id]. *)
Definition sent (game_id : option Py.str) (move_uci : Py.str)
    (tr : list effect) : bool :=
  existsb (fun e =>
             match e with
             | MakeMove g m => Py.opt_eqb g game_id && Py.eqb m move_uci
             | _ => false
             end) tr.

(** The seconds of the [asyncio.sleep] calls of a run, in order. *)
Definition sleeps (tr : list effect) : list float :=
  omap (fun e => match e with Sleep d => Some d | _ => None end) tr.

(** The effects of a run, and how it ended. *)
Definition effects {A} (m : M A) (w : world) (s : t) : list effect :=
  trace (snd (run m w s)).

Definition outcome {A} (m : M A) (w : world) (s : t) : exit A :=
  fst (run m w s).

Definition final {A} (m : M A) (w : world) (s : t) : t :=
  window (snd (run m w s)).

End Effects.
End Observe.

Module Scheduler.
Section Scheduler.
Context `{ChessRules}.
Import MainWindow.



(** The configured think-time range of the tier of the move number of [b]:
    the opening range for the moves 1 to 10, the midgame range for the
    later ones. *)
Definition tier (s : t) (b : Board) : float * float :=
  if fullmove_number b <=? 10
  then (opening_time_min s, opening_time_max s)
  else (midgame_time_min s, midgame_time_max s).

(** [max(0, remaining)] as a wait: the effects of waiting [remaining]
    seconds when that is positive, and nothing otherwise. *)
Definition throttle (remaining : float) : list effect :=
  if PrimFloat.ltb 0 remaining
  then [Status (Move_ready remaining); Sleep remaining]
  else [].

End Scheduler.
End Scheduler.

Module Reconnect.

(** The delay before the reconnect that follows the failure number [k],
    counted from 0: 1, 2, 4, 8, 16 and then 30 seconds. *)
Definition backoff (k : nat) : float :=
  match k with
  | 0%nat => 1
  | 1%nat => 2
  | 2%nat => 4
  | 3%nat => 8
  | 4%nat => 16
  | _ => 30
  end%float.

End Reconnect.

Module Ledger.
Section Ledger.
Context `{ChessRules}.
Import MainWindow.

(** The tables after the [self.db] calls of a run, in order; [inr] when one
    of them raised. *)
Fixpoint apply_calls (tr : list effect) (db : DatabaseManager.t)
    : DatabaseManager.t + exn :=
  match tr with
  | [] => inl db
  | Db c :: rest =>
      match DatabaseManager.execute c db with
      | inl db' => apply_calls rest db'
      | inr e => inr e
      end
  | _ :: rest => apply_calls rest db
  end.

End Ledger.
End Ledger.

Module Ndjson.
Section Ndjson.
Context {J : Type}.
Variable json_loads : Py.str -> option J.

(** The record that a raw line carries: the JSON value of its text, when the
    line is UTF-8 text that is not blank and decodes as JSON. *)
Definition record_of (line : Py.bytes) : option J :=
  match Py.decode_utf8 line with
  | Some text =>
      match Py.strip text with
      | [] => None
      | line_str => json_loads line_str
      end
  | None => None
  end.

(** A raw line that is UTF-8 text. *)
Definition is_text (line : Py.bytes) : bool :=
  match Py.decode_utf8 line with Some _ => true | None => false end.

End Ndjson.
End Ndjson.

(** * Scenarios

    Concrete runs under the standard rules, on which the statements below
    are tried. *)

Module Scenario.
Import MainWindow.
#[local] Existing Instance StandardChess.rules.

(** A window in the middle of a bot run: game [abc] has just started, the
    engine runs, the think times are the defaults of the spin boxes. *)
Definition playing (color : string) : t :=
  {| is_running := true; stop_after_game := false;
     current_game_id := Some (py "abc"); our_color := Some (py color);
     game_board := Some StandardChess.starting_position;
     white_time_ms := 600000; black_time_ms := 600000;
     chess_board := ChessBoardWidget.init;
     engine := Some true; lichess_client := true;
     opening_time_min := 1; opening_time_max := 3;
     midgame_time_min := 3; midgame_time_max := 8;
     single_node := false; time_control := Some (py "10+0"); rated := false |}.

(** A [gameState] record of a running game. *)
Definition game_state (moves_uci : string) : state_event :=
  {| moves := Some (py moves_uci); state_status := Some (py "started");
     wtime := Some 600000; btime := Some 600000;
     winc := Some 0; binc := Some 0 |}.

(** The [gameFinish] event of game [abc], lost by checkmate or aborted. *)
Definition game_over (status_name : string) : game_event :=
  {| gameId := Some (py "abc"); id := Some (py "abc");
     status := Some (py status_name); winner := Some (py "black");
     opponent_username := Some (py "opponent") |}.

(** An environment: the engine answers [best], the clock reads [clock n] at
    the interaction [n], the stream of events ends as [events n] says, the
    server accepts a move for a game and answers 404 for no game, and the
    other tasks do [others]. *)
Definition environment (best : option StandardChess.move) (clock : nat -> float)
    (events : nat -> reply nat) (others : nat -> t -> t) : world :=
  {| respond := fun A n op =>
       match op in operation A return reply A with
       | sleep _ => Returns tt
       | play _ _ => Returns best
       | make_move (Some _) _ => Returns true
       | make_move None _ => Raises (LichessAPIError 404)
       | create_seek _ _ => Returns true
       | stream_events => events n
       | confirm_stop => Returns false
       | monotonic => Returns (clock n)
       | random => Returns 0.5%float
       end;
     meanwhile := others |}.

(** Nothing else happens. *)
Definition quiet : world :=
  environment None (fun _ => 0%float) (fun _ => Returns 0%nat) (fun _ s => s).

Definition e2e4 : option StandardChess.move := StandardChess.from_uci (py "e2e4").

(** The clock of a run of [_maybe_make_move] in which the engine answers
    after half a second: it reads 100.0 at the start, 100.5 when the engine
    has answered and 102.0 at the end. *)
Definition half_second (n : nat) : float :=
  match n with
  | 0%nat => 100
  | 3%nat => 100.5
  | _ => 102
  end%float.


(** The same run with nothing happening meanwhile. *)
Definition undisturbed : world :=
  environment e2e4 half_second (fun _ => Returns 0%nat) (fun _ s => s).

(** The first connection of the event stream fails at once; the second
    one delivers three events and then ends. *)
Definition reconnect_with_events : world :=
  environment None (fun _ => 0%float)
    (fun n => match n with
              | 0%nat => Raises (Exception (py "Cannot connect to host"))
              | _ => Returns 3%nat
              end)
    (fun _ s => s).

(** Every connection of the event stream fails at once. *)
Definition always_failing : world :=
  environment None (fun _ => 0%float)
    (fun _ => Raises (Exception (py "Cannot connect to host")))
    (fun _ s => s).

(** The scheduler's turn in the new game: white to move, no move played. *)
Definition first_move : M unit := _maybe_make_move (game_state "").

(** The window after the record with the moves e2e4 e7e5 g1f3. *)
Definition after_three_moves : t :=
  Observe.final (_on_game_state (game_state "e2e4 e7e5 g1f3")) quiet
    (playing "white").


(** The moves of a history in UCI notation. *)
Definition notation (history : list StandardChess.move) : list string :=
  map (fun m => string_of_list_ascii (map ascii_of_N (StandardChess.uci m)))
    history.

(** [json.loads] on the lines of the stream scenarios: the empty object is
    the only JSON text among them. *)
Definition json_loads (text : Py.str) : option Py.str :=
  if Py.eqb text (py "{}") then Some text else None.


(** A connection on which the remote sends a keep-alive every 20 seconds. *)
Definition keep_alive : LichessClient.response :=
  {| LichessClient.status := 200; LichessClient.opened_at := 0;
     LichessClient.reads :=
       [{| LichessClient.returns_at := 20;
           LichessClient.result := LichessClient.Chunk [LichessClient.newline];
           LichessClient.now := 20 |};
        {| LichessClient.returns_at := 40;
           LichessClient.result := LichessClient.Chunk [LichessClient.newline];
           LichessClient.now := 40 |}] |}.

(** The chunk [b'\xff\n{}\n']: a line that is not UTF-8, then the empty
    object. *)
Definition garbled : Py.bytes :=
  [xff; LichessClient.newline] ++ Py.bytes_of_string "{}"
  ++ [LichessClient.newline].

(** The read that returns [garbled] at time 1. *)
Definition garbled_read : LichessClient.read :=
  {| LichessClient.returns_at := 1;
     LichessClient.result := LichessClient.Chunk garbled;
     LichessClient.now := 1 |}.

End Scenario.

(** * The rest of the cited files

    The functions below are those that the handlers above call, or that
    call them: the drawing and the navigation of the board widget, the
    clocks, the captured pieces and the move list that the handlers update,
    the framing of the stream into lines, the settings and the engine
    options of the database, the life of the engine object, and the slot
    that shows the result of a game. *)

(** ** More of Python: integers as text *)

Module PyText.

(** [str(n)] for an [int]. *)
Definition str_int (n : Z) : Py.str :=
  Py.of_string (NilZero.string_of_int (Z.to_int n)).

(** [f"{n:02d}"]: at least two characters, padded with a zero. *)
Definition format_02d (n : Z) : Py.str :=
  if (0 <=? n) && (n <? 10) then py "0" ++ str_int n else str_int n.

(** [s * count]. *)
Definition times (s : Py.str) (count : Z) : Py.str :=
  concat (repeat s (Z.to_nat count)).

End PyText.

(** ** [src/ui/chess_board.py]: [AspectRatioContainer], [SquareWidget] *)

Module AspectRatioContainer.

(** The arguments of [setGeometry]. *)
Record geometry := {
  x : Z;
  y : Z;
  width : Z;
  height : Z
}.

(** [resizeEvent]: the geometry that the child widget is given in a
    container of [self.width()] by [self.height()] pixels. *)
Definition resizeEvent (self_width self_height : Z) : geometry :=
  (* Calculate the largest square that fits *)
  let size := Z.min self_width self_height in
  (* Center the child widget *)
  let x := (self_width - size) / 2 in
  let y := (self_height - size) / 2 in
  {| x := x; y := y; width := size; height := size |}.

End AspectRatioContainer.

Module SquareWidget.

(** [QColor(r, g, b)]. *)
Definition color : Type := Z * Z * Z.

Definition LIGHT_SQUARE : color := (240, 217, 181).
Definition DARK_SQUARE : color := (181, 136, 99).
(** The alpha of the highlight, 100, plays no part in the blend. *)
Definition HIGHLIGHT_COLOR : color := (255, 255, 0).

Record t := {
  row : Z;
  col : Z;
  piece : option Py.str;                  (* a piece symbol *)
  is_highlighted : bool;
  _last_style_key : option (bool * bool);
  is_light : bool;
  background_color : option color         (* of the style sheet, once set *)
}.

Definition key_eqb (a : bool * bool) (b : option (bool * bool)) : bool :=
  match b with
  | Some (l, h) => Bool.eqb (fst a) l && Bool.eqb (snd a) h
  | None => false
  end.

Definition blend (a b : color) : color :=
  let '(r1, g1, b1) := a in
  let '(r2, g2, b2) := b in
  ((r1 + r2) / 2, (g1 + g2) / 2, (b1 + b2) / 2).

Definition _update_style (w : t) : t :=
  let style_key := (is_light w, is_highlighted w) in
  if key_eqb style_key (_last_style_key w) then w
  else
    let bg_color := if is_light w then LIGHT_SQUARE else DARK_SQUARE in
    let bg_color :=
      if is_highlighted w
      then blend bg_color HIGHLIGHT_COLOR   (* Blend highlight with square color *)
      else bg_color in
    {| row := row w; col := col w; piece := piece w;
       is_highlighted := is_highlighted w;
       _last_style_key := Some style_key; is_light := is_light w;
       background_color := Some bg_color |}.

(** [__init__]. *)
Definition init (row col : Z) : t :=
  _update_style
    {| row := row; col := col; piece := None; is_highlighted := false;
       _last_style_key := None;
       is_light := (row + col) mod 2 =? 0;
       background_color := None |}.

Definition set_piece (piece' : option Py.str) (w : t) : t :=
  if match piece', piece w with
     | None, None => true
     | Some a, Some b => Py.eqb a b
     | _, _ => false
     end
  then w  (* No change *)
  else {| row := row w; col := col w; piece := piece';
          is_highlighted := is_highlighted w;
          _last_style_key := _last_style_key w; is_light := is_light w;
          background_color := background_color w |}.

Definition set_highlighted (highlighted : bool) (w : t) : t :=
  if Bool.eqb highlighted (is_highlighted w) then w  (* No change *)
  else
    _update_style
      {| row := row w; col := col w; piece := piece w;
         is_highlighted := highlighted;
         _last_style_key := _last_style_key w; is_light := is_light w;
         background_color := background_color w |}.

End SquareWidget.

(** ** More of the [python-chess] interface: squares and pieces

    [chess.square], [chess.square_file] and [chess.square_rank] are those of
    [StandardChess]. *)

Class ChessPieces `{ChessRules} := {
  (** [move.from_square], [move.to_square]. *)
  move_from_square : Move -> Z;
  move_to_square : Move -> Z;
  (** [board.piece_at(square)], as its [symbol()]; [None] on an empty
      square. *)
  piece_symbol_at : Board -> Z -> option Py.str;
  (** [len(board.pieces(piece_type, color))]; [chess.WHITE] is [true]. *)
  pieces : Board -> StandardChess.piece_type -> bool -> Z
}.

Module StandardPieces.
Import StandardChess.

(** [piece.symbol()]: the letter, in upper case for a white piece. *)
Definition symbol (p : piece) : Py.str :=
  [if white p then (piece_symbol (kind p) - 32)%N else piece_symbol (kind p)].

Definition symbol_at (b : board) (sq : Z) : option Py.str :=
  option_map symbol (piece_at (squares b) sq).

Definition number_of (b : board) (k : piece_type) (color : bool) : Z :=
  Z.of_nat
    (count_pieces b
       (fun p _ => piece_eqb p (Some {| kind := k; white := color |}))).

#[export] Instance pieces : @ChessPieces rules :=
  @Build_ChessPieces rules from_square to_square symbol_at number_of.

End StandardPieces.

(** ** [src/ui/chess_board.py]: the drawing of [ChessBoardWidget] *)

Module ChessBoardDisplay.
Section Display.
Context `{ChessPieces}.

(** The child widgets that [_update_board] writes to: [self.squares], in the
    order in which [_setup_ui] creates them, and the texts of
    [self.file_labels] and [self.rank_labels]. *)
Record t := {
  squares : list SquareWidget.t;
  file_labels : list Py.str;
  rank_labels : list Py.str
}.

Definition range8 : list Z := [0; 1; 2; 3; 4; 5; 6; 7].

(** [chr(n)]. *)
Definition chr (n : Z) : Py.str := [Z.to_N n].

(** [_setup_ui]. *)
Definition _setup_ui : t :=
  {| squares :=
       flat_map (fun row => map (fun col => SquareWidget.init row col) range8)
         range8;
     file_labels := map (fun col => chr (97 + col)) range8;
     rank_labels := map (fun row => PyText.str_int (8 - row)) range8 |}.

(** [if key in self.squares: f(self.squares[key])], the key of a square
    widget being its row and column. *)
Definition at_key (key : Z * Z) (f : SquareWidget.t -> SquareWidget.t)
    (squares : list SquareWidget.t) : list SquareWidget.t :=
  map (fun sq =>
         if (SquareWidget.row sq =? fst key) && (SquareWidget.col sq =? snd key)
         then f sq else sq) squares.

(** [_update_board]. *)
Definition _update_board (w : ChessBoardWidget.t) (d : t) : t :=
  let flipped := ChessBoardWidget.flipped w in
  (* Clear highlights *)
  let squares := map (SquareWidget.set_highlighted false) (squares d) in
  (* Highlight last move *)
  let squares :=
    match ChessBoardWidget.last_move w with
    | Some last_move =>
        if move_truthy last_move then
          let from_sq := move_from_square last_move in
          let to_sq := move_to_square last_move in
          let from_row := 7 - StandardChess.square_rank from_sq in
          let from_col := StandardChess.square_file from_sq in
          let to_row := 7 - StandardChess.square_rank to_sq in
          let to_col := StandardChess.square_file to_sq in
          let '(from_key, to_key) :=
            if flipped
            then ((7 - from_row, 7 - from_col), (7 - to_row, 7 - to_col))
            else ((from_row, from_col), (to_row, to_col)) in
          at_key to_key (SquareWidget.set_highlighted true)
            (at_key from_key (SquareWidget.set_highlighted true) squares)
        else squares
    | None => squares
    end in
  (* Update pieces *)
  let squares :=
    map (fun sq =>
           let row := SquareWidget.row sq in
           let col := SquareWidget.col sq in
           (* Convert visual coordinates to chess coordinates *)
           let chess_row := if flipped then row else 7 - row in
           let chess_col := if flipped then 7 - col else col in
           let square := StandardChess.square chess_col chess_row in
           SquareWidget.set_piece
             (piece_symbol_at (ChessBoardWidget.board w) square) sq)
      squares in
  {| squares := squares;
     (* Update file labels *)
     file_labels :=
       imap (fun col _ =>
               if flipped then chr (104 - Z.of_nat col)
               else chr (97 + Z.of_nat col))
         (file_labels d);
     (* Update rank labels *)
     rank_labels :=
       imap (fun row _ =>
               if flipped then PyText.str_int (Z.of_nat row + 1)
               else PyText.str_int (8 - Z.of_nat row))
         (rank_labels d) |}.

End Display.
End ChessBoardDisplay.

(** ** [src/ui/chess_board.py]: the navigation of [ChessBoardWidget] *)

Module ChessBoardNavigation.
Section Navigation.
Context `{ChessRules}.
Import ChessBoardWidget.

(** [jump_to_live]. *)
Definition jump_to_live (w : t) : t :=
  _rebuild_board_at_ply (length (move_history w))
    {| board := board w; flipped := flipped w; last_move := last_move w;
       move_history := move_history w;
       current_ply := length (move_history w);
       is_viewing_live := true |}.

(** [make_move]. *)
Definition make_move (move : Move) (w : t) : t :=
  if is_legal (board w) move
  then {| board := push (board w) move; flipped := flipped w;
          last_move := Some move; move_history := move_history w;
          current_ply := current_ply w;
          is_viewing_live := is_viewing_live w |}
  else w.

(** [flip]. *)
Definition flip (w : t) : t := set_flipped (negb (flipped w)) w.

(** [get_board]: a copy of the displayed board. *)
Definition get_board (w : t) : Board := board w.

(** [get_displayed_ply]. *)
Definition get_displayed_ply (w : t) : Z := Z.of_nat (current_ply w).

(** The calls that the window makes on [self.chess_board]. *)
Inductive call :=
| Set_position_from_moves (moves_uci : Py.str)
| Navigate_to_ply (ply : Z)
| Jump_to_live
| Reset
| Set_flipped (flipped : bool).

Definition perform (w : t) (c : call) : t :=
  match c with
  | Set_position_from_moves moves_uci => set_position_from_moves moves_uci w
  | Navigate_to_ply ply => navigate_to_ply ply w
  | Jump_to_live => jump_to_live w
  | Reset => reset w
  | Set_flipped f => set_flipped f w
  end.

(** The move that [_rebuild_board_at_ply] marks as the last one at [ply]:
    the move number [ply] of the history, when there is one. *)
Definition move_shown (history : list Move) (ply : nat) : option Move :=
  match ply with
  | O => None
  | S k => history !! k
  end.

(** The widget displays its history: the displayed board is the replay of
    the first [current_ply] moves, the last move is the move number
    [current_ply], and the live view is the view of the last ply. *)
Definition shows_its_history (w : t) : Prop :=
  board w = fold_left push (firstn (current_ply w) (move_history w)) new_board
  /\ last_move w = move_shown (move_history w) (current_ply w)
  /\ (is_viewing_live w = true ->
      current_ply w = length (move_history w) /\ board w = get_live_board w).

End Navigation.
End ChessBoardNavigation.

(** The vocabulary of the statements about the drawing. *)
Module Drawing.
Section Drawing.
Context `{ChessPieces}.

(** Where the square [s] is drawn, as a row and a column of the grid counted
    from the top left: from White's side the first rank is at the bottom
    and the a-file on the left, from Black's side the board is turned by
    180 degrees. *)
Definition cell (flipped : bool) (s : Z) : Z * Z :=
  if flipped
  then (StandardChess.square_rank s, 7 - StandardChess.square_file s)
  else (7 - StandardChess.square_rank s, StandardChess.square_file s).

Definition key (sq : SquareWidget.t) : Z * Z :=
  (SquareWidget.row sq, SquareWidget.col sq).

(** The square of the board whose piece the widget with the key [k] is
    given. *)
Definition square_at (flipped : bool) (k : Z * Z) : Z :=
  StandardChess.square (if flipped then 7 - snd k else snd k)
    (if flipped then fst k else 7 - fst k).

(** The 64 keys of [self.squares]. *)
Definition grid : list (Z * Z) :=
  flat_map (fun row => map (fun col => (row, col)) ChessBoardDisplay.range8)
    ChessBoardDisplay.range8.

(** Whether [s] is a square of the last move of the widget. *)
Definition marked (w : ChessBoardWidget.t) (s : Z) : bool :=
  match ChessBoardWidget.last_move w with
  | Some m =>
      move_truthy m && ((s =? move_from_square m) || (s =? move_to_square m))
  | None => false
  end.

(** The light squares of the chess board: b1, d1, ..., a2, c2, ... *)
Definition light (s : Z) : bool :=
  Z.odd (StandardChess.square_file s + StandardChess.square_rank s).

(** The four background colours. *)
Definition colour (light highlighted : bool) : SquareWidget.color :=
  match light, highlighted with
  | true, false => (240, 217, 181)
  | false, false => (181, 136, 99)
  | true, true => (247, 236, 90)
  | false, true => (218, 195, 49)
  end.

(** The display after the widget has been drawn in the states [earlier], one
    after the other, and then in the state [w]. *)
Definition drawn (earlier : list ChessBoardWidget.t) (w : ChessBoardWidget.t)
    : ChessBoardDisplay.t :=
  ChessBoardDisplay._update_board w
    (fold_left (fun d w' => ChessBoardDisplay._update_board w' d) earlier
       ChessBoardDisplay._setup_ui).

(** What [_update_board] keeps of a display: the 64 square widgets with
    their keys and their own colour, the style that follows the highlight,
    and the eight labels on each side. *)
Definition well_drawn_square (sq : SquareWidget.t) : Prop :=
  SquareWidget.is_light sq
  = ((SquareWidget.row sq + SquareWidget.col sq) mod 2 =? 0)
  /\ SquareWidget._last_style_key sq
     = Some (SquareWidget.is_light sq, SquareWidget.is_highlighted sq)
  /\ SquareWidget.background_color sq
     = Some (colour (SquareWidget.is_light sq) (SquareWidget.is_highlighted sq)).

Definition well_drawn (d : ChessBoardDisplay.t) : Prop :=
  map key (ChessBoardDisplay.squares d) = grid
  /\ Forall well_drawn_square (ChessBoardDisplay.squares d)
  /\ length (ChessBoardDisplay.file_labels d) = 8%nat
  /\ length (ChessBoardDisplay.rank_labels d) = 8%nat.

End Drawing.
End Drawing.

(** ** [src/ui/player_info_widget.py]: [ClockWidget] *)

Module ClockWidget.

Record t := {
  is_top : bool;
  time_ms : Z;
  is_active : bool;
  is_ticking : bool;
  _last_style_state : Py.str;
  timer_running : bool;              (* [self._tick_timer.isActive()] *)
  time_label : Py.str;               (* [self.time_label.text()] *)
  bg_color : option Py.str;          (* of the style sheet, once set *)
  text_color : option Py.str
}.

(** Get a key representing the current style state. *)
Definition _get_style_state (w : t) : Py.str :=
  if negb (is_active w) then py "inactive"
  else if time_ms w <=? 30000 then py "active_low"
  else py "active_ok".

Definition _update_style (force : bool) (w : t) : t :=
  let style_state := _get_style_state w in
  (* Only update if style state changed *)
  if negb force && Py.eqb style_state (_last_style_state w) then w
  else
    let '(bg, text) :=
      if is_active w
      then (if 30000 <? time_ms w then py "#2d5a27" else py "#8b0000",
            py "white")                                   (* Green or red *)
      else (py "#3a3a3a", py "#888888") in
    {| is_top := is_top w; time_ms := time_ms w; is_active := is_active w;
       is_ticking := is_ticking w; _last_style_state := style_state;
       timer_running := timer_running w; time_label := time_label w;
       bg_color := Some bg; text_color := Some text |}.

(** The text that [_update_display] writes for a time. *)
Definition display (time_ms : Z) : Py.str :=
  let total_seconds := time_ms / 1000 in
  let minutes := total_seconds / 60 in
  let seconds := total_seconds mod 60 in
  if time_ms <? 20000 then  (* Show tenths under 20 seconds *)
    let tenths := (time_ms mod 1000) / 100 in
    PyText.format_02d minutes ++ py ":" ++ PyText.format_02d seconds
    ++ py "." ++ PyText.str_int tenths
  else PyText.format_02d minutes ++ py ":" ++ PyText.format_02d seconds.

Definition _update_display (w : t) : t :=
  {| is_top := is_top w; time_ms := time_ms w; is_active := is_active w;
     is_ticking := is_ticking w; _last_style_state := _last_style_state w;
     timer_running := timer_running w; time_label := display (time_ms w);
     bg_color := bg_color w; text_color := text_color w |}.

(** [__init__], with the label and the style of [_setup_ui]. *)
Definition init (is_top : bool) : t :=
  _update_style true
    {| is_top := is_top; time_ms := 0; is_active := false;
       is_ticking := false; _last_style_state := [];
       timer_running := false; time_label := py "--:--";
       bg_color := None; text_color := None |}.

Definition with_time (time_ms' : Z) (w : t) : t :=
  {| is_top := is_top w; time_ms := time_ms'; is_active := is_active w;
     is_ticking := is_ticking w; _last_style_state := _last_style_state w;
     timer_running := timer_running w; time_label := time_label w;
     bg_color := bg_color w; text_color := text_color w |}.

(** [set_time]. *)
Definition set_time (time_ms' : Z) (w : t) : t :=
  let new_time := Z.max 0 time_ms' in
  if new_time =? time_ms w then w  (* No change *)
  else
    (* Style might change if crossing 30s threshold *)
    _update_style false (_update_display (with_time new_time w)).

(** [set_active]. *)
Definition set_active (active : bool) (w : t) : t :=
  if Bool.eqb (is_active w) active then w  (* No change *)
  else
    let ticking :=
      if active && negb (is_ticking w) then true       (* timer start *)
      else if negb active && is_ticking w then false   (* timer stop *)
      else is_ticking w in
    let timer :=
      if active && negb (is_ticking w) then true
      else if negb active && is_ticking w then false
      else timer_running w in
    _update_style false
      {| is_top := is_top w; time_ms := time_ms w; is_active := active;
         is_ticking := ticking; _last_style_state := _last_style_state w;
         timer_running := timer; time_label := time_label w;
         bg_color := bg_color w; text_color := text_color w |}.

(** [_tick], called every 100 ms while the timer runs; the boolean tells
    whether [time_expired] was emitted. *)
Definition _tick (w : t) : t * bool :=
  if is_active w && (0 <? time_ms w) then
    let w := with_time (Z.max 0 (time_ms w - 100)) w in
    (* Will only update if state changed *)
    let w := _update_style false (_update_display w) in
    (w, time_ms w =? 0)
  else (w, false).

(** [reset]. *)
Definition reset (w : t) : t :=
  _update_style false
    {| is_top := is_top w; time_ms := 0; is_active := false;
       is_ticking := false; _last_style_state := _last_style_state w;
       timer_running := false; time_label := py "--:--";
       bg_color := bg_color w; text_color := text_color w |}.

(** The calls that reach a clock: those of the window, and the ticks of
    its timer. *)
Inductive call :=
| Set_time (time_ms : Z)
| Set_active (active : bool)
| Tick
| Reset.

Definition perform (w : t) (c : call) : t :=
  match c with
  | Set_time time_ms => set_time time_ms w
  | Set_active active => set_active active w
  | Tick => fst (_tick w)
  | Reset => reset w
  end.

(** [n] ticks in a row, and how often [time_expired] was emitted. *)
Fixpoint ticks (n : nat) (w : t) : t * nat :=
  match n with
  | O => (w, O)
  | S n =>
      let '(w, expired) := _tick w in
      let '(w, count) := ticks n w in
      (w, ((if expired then 1 else 0) + count)%nat)
  end.

(** The colours of a clock: green while it runs with more than 30 seconds
    left, red while it runs with less, grey while it stands. *)
Definition colours (active : bool) (time_ms : Z) : Py.str * Py.str :=
  if active
  then (if 30000 <? time_ms then py "#2d5a27" else py "#8b0000", py "white")
  else (py "#3a3a3a", py "#888888").

(** The style state of an active flag and a time. *)
Definition style_key (active : bool) (time_ms : Z) : Py.str :=
  if negb active then py "inactive"
  else if time_ms <=? 30000 then py "active_low"
  else py "active_ok".

(** The clock shows what it holds: the time is not negative, the timer runs
    exactly while the clock is active, the colours are those of the state,
    and the face is that of the time, or the blank face while the time
    is 0. *)
Definition shows_its_state (w : t) : Prop :=
  0 <= time_ms w
  /\ is_ticking w = is_active w
  /\ timer_running w = is_active w
  /\ _last_style_state w = _get_style_state w
  /\ bg_color w = Some (fst (colours (is_active w) (time_ms w)))
  /\ text_color w = Some (snd (colours (is_active w) (time_ms w)))
  /\ (time_label w = display (time_ms w)
      \/ time_label w = py "--:--" /\ time_ms w = 0).

End ClockWidget.

(** ** [src/ui/player_info_widget.py]: [PlayerInfoWidget] *)

Module PlayerInfoWidget.
Import StandardChess.

(** Piece values for material calculation; the king has no entry, and is
    never looked up. *)
Definition PIECE_VALUES (k : piece_type) : Z :=
  match k with
  | PAWN => 1 | KNIGHT => 3 | BISHOP => 3 | ROOK => 5 | QUEEN => 9
  | KING => 0
  end.

(** Unicode symbols for pieces, U+2655 to U+2659 and U+265B to U+265F. *)
Definition PIECE_SYMBOLS_WHITE (k : piece_type) : Py.str :=
  match k with
  | PAWN => [9817] | KNIGHT => [9816] | BISHOP => [9815] | ROOK => [9814]
  | QUEEN => [9813] | KING => []
  end%N.

Definition PIECE_SYMBOLS_BLACK (k : piece_type) : Py.str :=
  match k with
  | PAWN => [9823] | KNIGHT => [9822] | BISHOP => [9821] | ROOK => [9820]
  | QUEEN => [9819] | KING => []
  end%N.

(** A [Dict[int, int]] from piece types to counts. *)
Definition counts : Type := piece_type -> option Z.

Definition no_counts : counts := fun _ => None.

(** [d[k] = v]. *)
Definition set_count (k : piece_type) (v : Z) (d : counts) : counts :=
  fun k' => if kind_eqb k' k then Some v else d k'.

Record t := {
  is_top : bool;
  player_name : Py.str;
  player_rating : Z;
  player_title : Py.str;
  is_white_pieces : bool;
  name_label : Py.str;
  title_label : Py.str;
  title_label_visible : bool;
  rating_label : Py.str;
  captured_label : Py.str;
  advantage_label : Py.str;
  clock : ClockWidget.t
}.

(** [__init__], with the labels of [_setup_ui]. *)
Definition init (is_top : bool) : t :=
  {| is_top := is_top; player_name := []; player_rating := 0;
     player_title := []; is_white_pieces := true;
     name_label := py "Waiting..."; title_label := [];
     title_label_visible := false; rating_label := [];
     captured_label := []; advantage_label := [];
     clock := ClockWidget.init is_top |}.

(** [set_player_color]. *)
Definition set_player_color (is_white : bool) (w : t) : t :=
  {| is_top := is_top w; player_name := player_name w;
     player_rating := player_rating w; player_title := player_title w;
     is_white_pieces := is_white;
     name_label := name_label w; title_label := title_label w;
     title_label_visible := title_label_visible w;
     rating_label := rating_label w;
     captured_label := captured_label w;
     advantage_label := advantage_label w; clock := clock w |}.

(** [set_captured_pieces]. *)
Definition set_captured_pieces (captured : counts) (advantage : Z) (w : t) : t :=
  (* If we are white, we captured black pieces, so show black symbols *)
  let symbols :=
    if is_white_pieces w then PIECE_SYMBOLS_BLACK else PIECE_SYMBOLS_WHITE in
  (* Build the display string (order: queen, rook, bishop, knight, pawn) *)
  let text_parts :=
    flat_map (fun piece_type =>
                let count := default 0 (captured piece_type) in
                if 0 <? count then [PyText.times (symbols piece_type) count]
                else [])
      [QUEEN; ROOK; BISHOP; KNIGHT; PAWN] in
  let captured_text := concat text_parts in
  let captured_label' :=
    if negb (Py.eqb captured_text (captured_label w)) then captured_text
    else captured_label w in
  (* Update advantage display (only show if this player is ahead) *)
  let advantage_label' :=
    if 0 <? advantage then
      let new_adv_text := py "+" ++ PyText.str_int advantage in
      if negb (Py.eqb (advantage_label w) new_adv_text) then new_adv_text
      else advantage_label w
    else
      if negb (Py.eqb (advantage_label w) []) then []
      else advantage_label w in
  {| is_top := is_top w; player_name := player_name w;
     player_rating := player_rating w; player_title := player_title w;
     is_white_pieces := is_white_pieces w;
     name_label := name_label w; title_label := title_label w;
     title_label_visible := title_label_visible w;
     rating_label := rating_label w;
     captured_label := captured_label';
     advantage_label := advantage_label'; clock := clock w |}.

End PlayerInfoWidget.

(** ** [src/ui/main_window.py]: [MainWindow._update_captured_pieces] *)

Module CapturedPieces.
Section Captured.
Context `{ChessPieces}.
Import PlayerInfoWidget.

(** The five piece types that are counted. *)
Definition counted : list StandardChess.piece_type :=
  [StandardChess.PAWN; StandardChess.KNIGHT; StandardChess.BISHOP;
   StandardChess.ROOK; StandardChess.QUEEN].

(** Starting piece counts. *)
Definition starting_counts (k : StandardChess.piece_type) : Z :=
  match k with
  | StandardChess.PAWN => 8 | StandardChess.KNIGHT => 2
  | StandardChess.BISHOP => 2 | StandardChess.ROOK => 2
  | StandardChess.QUEEN => 1 | StandardChess.KING => 0
  end.

(** [sum(PIECE_VALUES[pt] * pieces[pt] for pt in pieces)]. *)
Definition material (pieces_of : StandardChess.piece_type -> Z) : Z :=
  fold_left (fun total pt => total + PIECE_VALUES pt * pieces_of pt) counted 0.

(** The pieces of one colour that are missing from the board: starting
    minus remaining, where that is positive. *)
Definition captured_of (remaining : StandardChess.piece_type -> Z) : counts :=
  fold_left (fun captured piece_type =>
               let n := starting_counts piece_type - remaining piece_type in
               if 0 <? n then set_count piece_type n captured else captured)
    counted no_counts.

(** [_update_captured_pieces]: what it leaves of [self.top_player] and
    [self.bottom_player]; [flipped] is [self.chess_board.flipped]. *)
Definition _update_captured_pieces (board : Board) (flipped : bool)
    (top_player bottom_player : PlayerInfoWidget.t)
    : PlayerInfoWidget.t * PlayerInfoWidget.t :=
  (* Count pieces on the board *)
  let white_pieces := fun piece_type => pieces board piece_type true in
  let black_pieces := fun piece_type => pieces board piece_type false in
  (* Calculate captured pieces *)
  let white_captured := captured_of black_pieces in   (* captured by white *)
  let black_captured := captured_of white_pieces in   (* captured by black *)
  (* Calculate material totals *)
  let white_material := material white_pieces in
  let black_material := material black_pieces in
  let material_diff := white_material - black_material in
  if flipped then
    (* Black on bottom, white on top *)
    let top_player := set_player_color true top_player in
    let bottom_player := set_player_color false bottom_player in
    (set_captured_pieces white_captured
       (if 0 <? material_diff then material_diff else 0) top_player,
     set_captured_pieces black_captured
       (if material_diff <? 0 then - material_diff else 0) bottom_player)
  else
    (* White on bottom, black on top *)
    let top_player := set_player_color false top_player in
    let bottom_player := set_player_color true bottom_player in
    (set_captured_pieces black_captured
       (if material_diff <? 0 then - material_diff else 0) top_player,
     set_captured_pieces white_captured
       (if 0 <? material_diff then material_diff else 0) bottom_player).

(** The panel of the player with the white pieces, and that of the player
    with the black ones. *)
Definition white_panel (flipped : bool)
    (panels : PlayerInfoWidget.t * PlayerInfoWidget.t) : PlayerInfoWidget.t :=
  if flipped then fst panels else snd panels.

Definition black_panel (flipped : bool)
    (panels : PlayerInfoWidget.t * PlayerInfoWidget.t) : PlayerInfoWidget.t :=
  if flipped then snd panels else fst panels.

(** The material of one side in pawns: 1 for a pawn, 3 for a knight or a
    bishop, 5 for a rook, 9 for the queen. *)
Definition points (board : Board) (color : bool) : Z :=
  pieces board StandardChess.PAWN color
  + 3 * pieces board StandardChess.KNIGHT color
  + 3 * pieces board StandardChess.BISHOP color
  + 5 * pieces board StandardChess.ROOK color
  + 9 * pieces board StandardChess.QUEEN color.

(** How many pieces of the type [k] the side [color] has lost. *)
Definition lost (board : Board) (color : bool)
    (k : StandardChess.piece_type) : Z :=
  Z.max 0 (starting_counts k - pieces board k color).

End Captured.
End CapturedPieces.

(** ** [src/ui/move_list_widget.py]: [MoveLabel], [MoveListWidget] *)

Module MoveLabel.

(** The style sheets that a label is given: the two of the class, and the
    one that the list sets on a label it has just created. *)
Inductive style_sheet := STYLE_NORMAL | STYLE_SELECTED | STYLE_OF_THE_LIST.

Record t := {
  text : Py.str;
  ply : Z;
  _is_selected : bool;
  style : style_sheet
}.

(** [__init__]. *)
Definition init (text : Py.str) (ply : Z) : t :=
  {| text := text; ply := ply; _is_selected := false; style := STYLE_NORMAL |}.

Definition setStyleSheet (s : style_sheet) (label : t) : t :=
  {| text := text label; ply := ply label;
     _is_selected := _is_selected label; style := s |}.

(** [set_selected]. *)
Definition set_selected (selected : bool) (label : t) : t :=
  if Bool.eqb selected (_is_selected label) then label  (* No change *)
  else {| text := text label; ply := ply label; _is_selected := selected;
          style := if selected then STYLE_SELECTED else STYLE_NORMAL |}.

End MoveLabel.

Module MoveListWidget.
Section MoveList.
Context `{ChessRules}.
(** [board.san(move)]. *)
Variable san : Board -> Move -> Py.str.

Record t := {
  moves : list Py.str;               (* List of SAN moves *)
  current_ply : Z;                   (* Currently viewed position (0 = start) *)
  live_ply : Z;                      (* Latest position in the game *)
  is_viewing_live : bool;
  game_active : bool;
  move_labels : list MoveLabel.t;
  btn_start_enabled : bool;
  btn_prev_enabled : bool;
  btn_next_enabled : bool;
  btn_end_enabled : bool;
  live_indicator_visible : bool;
  live_indicator_text : Py.str;
  live_indicator_color : Py.str;
  visible_label : option MoveLabel.t (* the last [ensureWidgetVisible] *)
}.

(** The signals of the widget. *)
Inductive signal :=
| move_selected (ply : Z)
| jump_to_live.

(** The text [LIVE] after a black circle, U+25CF. *)
Definition LIVE : Py.str := [9679%N] ++ py " LIVE".

Definition _update_nav_buttons (w : t) : t :=
  {| moves := moves w; current_ply := current_ply w; live_ply := live_ply w;
     is_viewing_live := is_viewing_live w; game_active := game_active w;
     move_labels := move_labels w;
     btn_start_enabled := 0 <? current_ply w;
     btn_prev_enabled := 0 <? current_ply w;
     btn_next_enabled := current_ply w <? live_ply w;
     btn_end_enabled := current_ply w <? live_ply w;
     live_indicator_visible := live_indicator_visible w;
     live_indicator_text := live_indicator_text w;
     live_indicator_color := live_indicator_color w;
     visible_label := visible_label w |}.

(** [__init__], with the indicator and the buttons of [_setup_ui]. *)
Definition init : t :=
  _update_nav_buttons
    {| moves := []; current_ply := 0; live_ply := 0; is_viewing_live := true;
       game_active := false; move_labels := [];
       btn_start_enabled := true; btn_prev_enabled := true;
       btn_next_enabled := true; btn_end_enabled := true;
       live_indicator_visible := false; live_indicator_text := LIVE;
       live_indicator_color := py "#f44336"; visible_label := None |}.

Definition with_labels (labels : list MoveLabel.t) (w : t) : t :=
  {| moves := moves w; current_ply := current_ply w; live_ply := live_ply w;
     is_viewing_live := is_viewing_live w; game_active := game_active w;
     move_labels := labels;
     btn_start_enabled := btn_start_enabled w;
     btn_prev_enabled := btn_prev_enabled w;
     btn_next_enabled := btn_next_enabled w;
     btn_end_enabled := btn_end_enabled w;
     live_indicator_visible := live_indicator_visible w;
     live_indicator_text := live_indicator_text w;
     live_indicator_color := live_indicator_color w;
     visible_label := visible_label w |}.

(** The attributes that [set_moves], [navigate_to] and [clear] assign. *)
Definition with_state (moves' : list Py.str) (current_ply' live_ply' : Z)
    (is_viewing_live' game_active' : bool) (w : t) : t :=
  {| moves := moves'; current_ply := current_ply'; live_ply := live_ply';
     is_viewing_live := is_viewing_live'; game_active := game_active';
     move_labels := move_labels w;
     btn_start_enabled := btn_start_enabled w;
     btn_prev_enabled := btn_prev_enabled w;
     btn_next_enabled := btn_next_enabled w;
     btn_end_enabled := btn_end_enabled w;
     live_indicator_visible := live_indicator_visible w;
     live_indicator_text := live_indicator_text w;
     live_indicator_color := live_indicator_color w;
     visible_label := visible_label w |}.

(** [_clear_moves]. *)
Definition _clear_moves (w : t) : t := with_labels [] w.

(** A label as the list creates it. *)
Definition new_label (text : Py.str) (ply : Z) : MoveLabel.t :=
  MoveLabel.setStyleSheet MoveLabel.STYLE_OF_THE_LIST (MoveLabel.init text ply).

(** The [for i in range(start_index, len(self.moves))] loop of
    [_append_moves_from], from index [i] with the moves from there on. *)
Fixpoint append_loop (i : Z) (rest : list Py.str) (labels : list MoveLabel.t)
    : list MoveLabel.t :=
  match rest with
  | [] => labels
  | move :: rest => append_loop (i + 1) rest (labels ++ [new_label move (i + 1)])
  end.

(** [_append_moves_from]. *)
Definition _append_moves_from (start_index : Z) (w : t) : t :=
  with_labels
    (append_loop start_index (drop (Z.to_nat start_index) (moves w))
       (move_labels w))
    w.

(** [_update_selection]. *)
Definition _update_selection (w : t) : t :=
  with_labels
    (map (fun label =>
            MoveLabel.set_selected (MoveLabel.ply label =? current_ply w) label)
       (move_labels w))
    w.

(** The [for i in range(0, len(self.moves), 2)] loop of
    [_rebuild_move_display], from index [i] with the moves from there on:
    White's move, and Black's if it exists. *)
Fixpoint rebuild_rows (rest : list Py.str) (i : Z) (labels : list MoveLabel.t)
    : list MoveLabel.t :=
  match rest with
  | [] => labels
  | white_move :: rest =>
      let labels := labels ++ [new_label white_move (i + 1)] in
      match rest with
      | [] => labels
      | black_move :: rest =>
          rebuild_rows rest (i + 2) (labels ++ [new_label black_move (i + 2)])
      end
  end.

(** [_rebuild_move_display]. *)
Definition _rebuild_move_display (w : t) : t :=
  let w := _clear_moves w in
  let w := with_labels (rebuild_rows (moves w) 0 (move_labels w)) w in
  _update_selection w.

(** [_update_live_indicator]. *)
Definition _update_live_indicator (w : t) : t :=
  let indicator (visible : bool) (text color : Py.str) :=
    {| moves := moves w; current_ply := current_ply w; live_ply := live_ply w;
       is_viewing_live := is_viewing_live w; game_active := game_active w;
       move_labels := move_labels w;
       btn_start_enabled := btn_start_enabled w;
       btn_prev_enabled := btn_prev_enabled w;
       btn_next_enabled := btn_next_enabled w;
       btn_end_enabled := btn_end_enabled w;
       live_indicator_visible := visible;
       live_indicator_text := text; live_indicator_color := color;
       visible_label := visible_label w |} in
  if negb (game_active w)
  then indicator false (live_indicator_text w) (live_indicator_color w)
  else if is_viewing_live w then
    let new_text := LIVE in
    if negb (Py.eqb (live_indicator_text w) new_text)
    then indicator true new_text (py "#f44336")
    else indicator true (live_indicator_text w) (live_indicator_color w)
  else
    let behind := live_ply w - current_ply w in
    let new_text :=
      [9673%N] ++ py " " ++ PyText.str_int behind ++ py " move"
      ++ (if negb (behind =? 1) then py "s" else []) ++ py " behind" in
    if negb (Py.eqb (live_indicator_text w) new_text)
    then indicator true new_text (py "#ff9800")
    else indicator true (live_indicator_text w) (live_indicator_color w).

(** [_scroll_to_current]. *)
Definition _scroll_to_current (w : t) : t :=
  if (0 <? current_ply w)
     && (current_ply w <=? Z.of_nat (length (move_labels w)))
  then
    {| moves := moves w; current_ply := current_ply w; live_ply := live_ply w;
       is_viewing_live := is_viewing_live w; game_active := game_active w;
       move_labels := move_labels w;
       btn_start_enabled := btn_start_enabled w;
       btn_prev_enabled := btn_prev_enabled w;
       btn_next_enabled := btn_next_enabled w;
       btn_end_enabled := btn_end_enabled w;
       live_indicator_visible := live_indicator_visible w;
       live_indicator_text := live_indicator_text w;
       live_indicator_color := live_indicator_color w;
       visible_label := move_labels w !! Z.to_nat (current_ply w - 1) |}
  else w.

(** The [for move in board.move_stack] loop of [set_moves]. *)
Fixpoint san_moves (temp_board : Board) (move_stack : list Move) : list Py.str :=
  match move_stack with
  | [] => []
  | move :: rest => san temp_board move :: san_moves (push temp_board move) rest
  end.

(** [a == b] on lists of strings. *)
Fixpoint moves_eqb (a b : list Py.str) : bool :=
  match a, b with
  | [], [] => true
  | x :: a, y :: b => Py.eqb x y && moves_eqb a b
  | _, _ => false
  end.

(** [set_moves(board)], as a function of [board.move_stack]. *)
Definition set_moves (move_stack : list Move) (w : t) : t :=
  (* Mark game as active when we receive moves *)
  let w := with_state (moves w) (current_ply w) (live_ply w)
             (is_viewing_live w) true w in
  (* Build new moves list *)
  let new_moves := san_moves new_board move_stack in
  (* Check if moves actually changed *)
  if moves_eqb new_moves (moves w) then w
  else
    let w :=
      (* Check if this is just appending new moves (common case) *)
      if (length (moves w) <? length new_moves)%nat
         && moves_eqb (firstn (length (moves w)) new_moves) (moves w)
      then
        (* Just append new moves, don't rebuild everything *)
        let old_count := Z.of_nat (length (moves w)) in
        let w := with_state new_moves (current_ply w)
                   (Z.of_nat (length new_moves)) (is_viewing_live w)
                   (game_active w) w in
        _append_moves_from old_count w
      else
        (* Full rebuild needed (e.g., takeback or new game) *)
        let w := _clear_moves w in
        let w := with_state new_moves (current_ply w)
                   (Z.of_nat (length new_moves)) (is_viewing_live w)
                   (game_active w) w in
        _rebuild_move_display w in
    (* If we were viewing live, stay at live *)
    let w :=
      if is_viewing_live w
      then with_state (moves w) (live_ply w) (live_ply w) (is_viewing_live w)
             (game_active w) w
      else w in
    let w := _update_selection w in
    let w := _update_nav_buttons w in
    let w := _update_live_indicator w in
    (* Scroll to current position *)
    if is_viewing_live w then _scroll_to_current w else w.

(** [navigate_to], with the signal it emits. *)
Definition navigate_to (ply : Z) (w : t) : t * list signal :=
  let ply := Z.max 0 (Z.min ply (live_ply w)) in
  if ply =? current_ply w then (w, [])
  else
    let w := with_state (moves w) ply (live_ply w) (ply =? live_ply w)
               (game_active w) w in
    let w := _update_selection w in
    let w := _update_nav_buttons w in
    let w := _update_live_indicator w in
    let w := _scroll_to_current w in
    (w, if is_viewing_live w then [jump_to_live] else [move_selected ply]).

(** [_on_move_clicked], [_on_start], [_on_prev], [_on_next], [_on_end]. *)
Definition _on_move_clicked (ply : Z) (w : t) : t * list signal :=
  navigate_to ply w.

Definition _on_start (w : t) : t * list signal := navigate_to 0 w.

Definition _on_prev (w : t) : t * list signal :=
  if 0 <? current_ply w then navigate_to (current_ply w - 1) w else (w, []).

Definition _on_next (w : t) : t * list signal :=
  if current_ply w <? live_ply w then navigate_to (current_ply w + 1) w
  else (w, []).

Definition _on_end (w : t) : t * list signal := navigate_to (live_ply w) w.

(** [clear]; [reset] is an alias. *)
Definition clear (w : t) : t :=
  let w := _clear_moves w in
  let w := with_state [] 0 0 true false w in
  let w := _update_nav_buttons w in
  _update_live_indicator w.

Definition reset (w : t) : t := clear w.

(** The keys that [keyPressEvent] handles. *)
Inductive key := Key_Left | Key_Right | Key_Home | Key_End | Key_other.

Definition keyPressEvent (k : key) (w : t) : t * list signal :=
  match k with
  | Key_Left => _on_prev w
  | Key_Right => _on_next w
  | Key_Home => _on_start w
  | Key_End => _on_end w
  | Key_other => (w, [])
  end.

(** The label of the move number [ply]. *)
Definition names (label : MoveLabel.t) : Py.str * Z :=
  (MoveLabel.text label, MoveLabel.ply label).

(** The list shows its moves: there is one label for each move, in order,
    with its text and its number; the label of the viewed ply is the
    selected one; the last ply is the number of moves; the buttons lead
    where there is somewhere to go; and the live view is the view of the
    last ply. *)
Definition shows_its_moves (w : t) : Prop :=
  map names (move_labels w)
  = imap (fun i text => (text, Z.of_nat i + 1)) (moves w)
  /\ Forall (fun label => MoveLabel._is_selected label
                          = (MoveLabel.ply label =? current_ply w))
       (move_labels w)
  /\ live_ply w = Z.of_nat (length (moves w))
  /\ 0 <= current_ply w
  /\ btn_start_enabled w = (0 <? current_ply w)
  /\ btn_prev_enabled w = (0 <? current_ply w)
  /\ btn_next_enabled w = (current_ply w <? live_ply w)
  /\ btn_end_enabled w = (current_ply w <? live_ply w)
  /\ (is_viewing_live w = true -> current_ply w = live_ply w).

(** What reaches the list: the moves of a board, and the user. *)
Inductive call :=
| Set_moves (move_stack : list Move)
| Click (ply : Z)
| Press (k : key)
| Clear.

Definition perform (w : t) (c : call) : t :=
  match c with
  | Set_moves move_stack => set_moves move_stack w
  | Click ply => fst (_on_move_clicked ply w)
  | Press k => fst (keyPressEvent k w)
  | Clear => clear w
  end.

End MoveList.
End MoveListWidget.

(** ** [src/ui/main_window.py]: the board and the move list

    The window holds a board widget and a move list, gives both the moves
    of the game, and answers the signals of the move list by moving the
    board.  The calls on the other widgets are listed as they are made. *)

Module BoardAndMoves.
Section BoardAndMoves.
Context `{ChessRules}.
Variable san : Board -> Move -> Py.str.

Record t := {
  chess_board : ChessBoardWidget.t;
  move_list : MoveListWidget.t
}.

(** [__init__]. *)
Definition init : t :=
  {| chess_board := ChessBoardWidget.init; move_list := MoveListWidget.init |}.

(** [_on_move_selected]. *)
Definition _on_move_selected (ply : Z) (v : t) : t * list MainWindow.ui_call :=
  ({| chess_board := ChessBoardWidget.navigate_to_ply ply (chess_board v);
      move_list := move_list v |},
   [MainWindow.update_captured_pieces; MainWindow.start_evaluation]).

(** [_on_jump_to_live]. *)
Definition _on_jump_to_live (v : t) : t * list MainWindow.ui_call :=
  ({| chess_board := ChessBoardNavigation.jump_to_live (chess_board v);
      move_list := move_list v |},
   [MainWindow.update_captured_pieces; MainWindow.start_evaluation]).

(** The slots that [_setup_ui] connects to the signals of the move list;
    a slot runs when its signal is emitted. *)
Definition slot (v : t) (s : MoveListWidget.signal) : t :=
  match s with
  | MoveListWidget.move_selected ply => fst (_on_move_selected ply v)
  | MoveListWidget.jump_to_live => fst (_on_jump_to_live v)
  end.

Definition emitted (v : t) (r : MoveListWidget.t * list MoveListWidget.signal)
    : t :=
  fold_left slot (snd r)
    {| chess_board := chess_board v; move_list := fst r |}.

(** [keyPressEvent]: the arrow keys, Home and End go to the move list. *)
Definition keyPressEvent (k : MoveListWidget.key) (v : t) : t :=
  match k with
  | MoveListWidget.Key_Left =>
      emitted v (MoveListWidget._on_prev (move_list v))
  | MoveListWidget.Key_Right =>
      emitted v (MoveListWidget._on_next (move_list v))
  | MoveListWidget.Key_Home =>
      emitted v (MoveListWidget._on_start (move_list v))
  | MoveListWidget.Key_End =>
      emitted v (MoveListWidget._on_end (move_list v))
  | MoveListWidget.Key_other => v
  end.

(** A click on the label of the move number [ply]. *)
Definition mousePressEvent (ply : Z) (v : t) : t :=
  emitted v (MoveListWidget._on_move_clicked ply (move_list v)).

(** The moves of a [gameState] record are shown, as [_on_game_state] does
    in both of its branches:
    [self.chess_board.set_position_from_moves(moves)],
    [self.game_board = self.chess_board.get_live_board()] and
    [self.move_list.set_moves(self.game_board)]; the move stack of the live
    board is the history of the widget. *)
Definition show_moves (moves_uci : Py.str) (v : t) : t :=
  let chess_board :=
    ChessBoardWidget.set_position_from_moves moves_uci (chess_board v) in
  {| chess_board := chess_board;
     move_list :=
       MoveListWidget.set_moves san
         (ChessBoardWidget.move_history chess_board) (move_list v) |}.

(** [self.chess_board.reset()] with [self.move_list.clear()] or
    [self.move_list.reset()], as in [_handle_game_started],
    [_on_game_aborted] and [_on_game_finish]. *)
Definition clear (v : t) : t :=
  {| chess_board := ChessBoardWidget.reset (chess_board v);
     move_list := MoveListWidget.clear (move_list v) |}.

(** What happens to the two widgets during a session. *)
Inductive event :=
| Moves (moves_uci : Py.str)
| Key (k : MoveListWidget.key)
| Click (ply : Z)
| Cleared.

Definition handle (v : t) (e : event) : t :=
  match e with
  | Moves moves_uci => show_moves moves_uci v
  | Key k => keyPressEvent k v
  | Click ply => mousePressEvent ply v
  | Cleared => clear v
  end.

(** The board and the move list are in step: they view the same ply, both
    live or both not, and the last ply of the list is the length of the
    history of the board. *)
Definition in_step (v : t) : Prop :=
  MoveListWidget.current_ply (move_list v)
  = Z.of_nat (ChessBoardWidget.current_ply (chess_board v))
  /\ MoveListWidget.is_viewing_live (move_list v)
     = ChessBoardWidget.is_viewing_live (chess_board v)
  /\ MoveListWidget.live_ply (move_list v)
     = Z.of_nat (length (ChessBoardWidget.move_history (chess_board v))).

End BoardAndMoves.
End BoardAndMoves.

(** ** The bytes of a stream *)

Module Received.
Import LichessClient.



(** The complete lines of a byte string, and the unfinished line after the
    last newline. *)
Definition lines (data : Py.bytes) : list Py.bytes := fst (split_lines [] data).

Definition unfinished (data : Py.bytes) : Py.bytes := snd (split_lines [] data).

End Received.

(** ** [src/database/db_manager.py]: settings and engine options *)

Module SettingsTable.
Section Settings.
(** [str.lower]. *)
Variable lower : Py.str -> Py.str.

(** The rows of [settings]: [key TEXT PRIMARY KEY, value TEXT NOT NULL]. *)
Definition t : Type := list (Py.str * Py.str).

(** The table that [_create_tables] creates. *)
Definition empty : t := [].

(** [SELECT value FROM settings WHERE key = ?] and [fetchone()]. *)
Definition select (key : Py.str) (rows : t) : option Py.str :=
  option_map snd (find (fun row => Py.eqb (fst row) key) rows).

(** [get_setting]. *)
Definition get_setting (key default : Py.str) (rows : t) : Py.str :=
  match select key rows with
  | Some value => value
  | None => default
  end.

(** [set_setting]: [INSERT OR REPLACE] on the primary key. *)
Definition set_setting (key value : Py.str) (rows : t) : t :=
  filter (fun row => negb (Py.eqb (fst row) key)) rows ++ [(key, value)].

Definition get_bearer_token (rows : t) : Py.str :=
  get_setting (py "bearer_token") [] rows.

Definition set_bearer_token (token : Py.str) (rows : t) : t :=
  set_setting (py "bearer_token") token rows.

Definition get_last_engine (rows : t) : Py.str :=
  get_setting (py "last_engine") [] rows.

Definition set_last_engine (engine_path : Py.str) (rows : t) : t :=
  set_setting (py "last_engine") engine_path rows.

Definition get_last_time_control (rows : t) : Py.str :=
  get_setting (py "last_time_control") (py "15+10") rows.

Definition set_last_time_control (time_control : Py.str) (rows : t) : t :=
  set_setting (py "last_time_control") time_control rows.

Definition get_rated_mode (rows : t) : bool :=
  Py.eqb (lower (get_setting (py "rated_mode") (py "false") rows)) (py "true").

Definition set_rated_mode (rated : bool) (rows : t) : t :=
  set_setting (py "rated_mode") (if rated then py "true" else py "false") rows.

(** The calls that write to the table. *)
Inductive call :=
| Set_setting (key value : Py.str)
| Set_bearer_token (token : Py.str)
| Set_last_engine (engine_path : Py.str)
| Set_last_time_control (time_control : Py.str)
| Set_rated_mode (rated : bool).

Definition perform (rows : t) (c : call) : t :=
  match c with
  | Set_setting key value => set_setting key value rows
  | Set_bearer_token token => set_bearer_token token rows
  | Set_last_engine engine_path => set_last_engine engine_path rows
  | Set_last_time_control time_control =>
      set_last_time_control time_control rows
  | Set_rated_mode rated => set_rated_mode rated rows
  end.

End Settings.
End SettingsTable.

Module EngineOptionsTable.
Section Options.
(** [_normalize_path]: the absolute, normalized path, in lower case on
    Windows. *)
Variable _normalize_path : Py.str -> Py.str.
(** The values of the options, and [str(value)]. *)
Context {Value : Type}.
Variable str : Value -> Py.str.

(** A row of [engine_options]. *)
Record row := {
  engine_path : Py.str;
  option_name : Py.str;
  option_value : Py.str
}.

Definition t : Type := list row.

Definition same_key (path name : Py.str) (r : row) : bool :=
  Py.eqb (engine_path r) path && Py.eqb (option_name r) name.

(** [INSERT OR REPLACE] on [UNIQUE(engine_path, option_name)]. *)
Definition replace (path name value : Py.str) (rows : t) : t :=
  filter (fun r => negb (same_key path name r)) rows
  ++ [{| engine_path := path; option_name := name; option_value := value |}].

(** [set_engine_option]. *)
Definition set_engine_option (path name : Py.str) (value : Value) (rows : t)
    : t :=
  replace (_normalize_path path) name (str value) rows.

(** [set_engine_options], for the items of the dictionary in order. *)
Definition set_engine_options (path : Py.str)
    (options : list (Py.str * Value)) (rows : t) : t :=
  let normalized_path := _normalize_path path in
  fold_left (fun rows '(name, value) =>
               replace normalized_path name (str value) rows)
    options rows.

(** [get_engine_options]: the dictionary of the rows of the engine, as the
    lookup of a name in it; a later row overwrites an earlier one. *)
Definition get_engine_options (path : Py.str) (rows : t) (name : Py.str)
    : option Py.str :=
  let normalized_path := _normalize_path path in
  option_map option_value
    (find (fun r => Py.eqb (option_name r) name)
       (rev (filter (fun r => Py.eqb (engine_path r) normalized_path) rows))).

(** [delete_engine_options]. *)
Definition delete_engine_options (path : Py.str) (rows : t) : t :=
  let normalized_path := _normalize_path path in
  filter (fun r => negb (Py.eqb (engine_path r) normalized_path)) rows.

(** [options[name]] in a dictionary given by its items; the last item with
    the name counts. *)
Definition item (options : list (Py.str * Value)) (name : Py.str)
    : option Value :=
  option_map snd (find (fun kv => Py.eqb (fst kv) name) (rev options)).

End Options.
End EngineOptionsTable.

(** ** The calls on the database, one after the other *)

Module Calls.

(** The tables after a sequence of calls; [inr] when one of them raised. *)
Fixpoint run (calls : list DatabaseManager.call) (db : DatabaseManager.t)
    : DatabaseManager.t + exn :=
  match calls with
  | [] => inl db
  | c :: rest =>
      match DatabaseManager.execute c db with
      | inl db' => run rest db'
      | inr e => inr e
      end
  end.

(** The number of the calls for which [p] holds. *)
Definition tally (calls : list DatabaseManager.call)
    (p : DatabaseManager.call -> bool) : Z :=
  Z.of_nat (length (filter (fun c => p c) calls)).

Definition is_update (c : DatabaseManager.call) : bool :=
  match c with DatabaseManager.update_statistics _ => true | _ => false end.

Definition is_result (r : DatabaseManager.game_result)
    (c : DatabaseManager.call) : bool :=
  match c, r with
  | DatabaseManager.update_statistics DatabaseManager.win, DatabaseManager.win
  | DatabaseManager.update_statistics DatabaseManager.loss, DatabaseManager.loss
  | DatabaseManager.update_statistics DatabaseManager.draw, DatabaseManager.draw
      => true
  | _, _ => false
  end.

(** The game id of the last [add_game] of a sequence, when that is the one
    asked for. *)
Definition added (game_id : Py.str) (c : DatabaseManager.call) : bool :=
  match c with
  | DatabaseManager.add_game (Some g) _ _ _ _ _ => Py.eqb g game_id
  | _ => false
  end.

End Calls.

(** ** [src/engine/uci_engine.py]: the life of a [UCIEngine] *)

Module UCIEngineObject.
Section Engine.
(** The values of options, the positions, and what the engine answers to
    [play] and [analyse]. *)
Context {Value Board PlayResult Info : Type}.
(** [str(e)]. *)
Variable str_of : exn -> Py.str.

(** What the object asks of python-chess. *)
Inductive request :=
| popen_uci (engine_path : Py.str)
| quit
| configure (options : list (Py.str * Value))
| play (board : Board) (limit : UCIEngine.Limit)
| analyse (board : Board) (limit : UCIEngine.Limit) (multipv : option Z).

(** What python-chess does with a request: it returns or it raises. *)
Inductive answer (A : Type) :=
| Returns (a : A)
| Raises (e : exn).
Arguments Returns {A}.
Arguments Raises {A}.

(** The fields of the object; [engine] is whether [self.engine] is set. *)
Record t := {
  engine_path : Py.str;
  engine : bool;
  _is_running : bool
}.

(** [__init__]. *)
Definition init (engine_path : Py.str) : t :=
  {| engine_path := engine_path; engine := false; _is_running := false |}.

(** The property [is_running]. *)
Definition is_running (self : t) : bool := _is_running self && engine self.

Definition not_running : exn := Exception (py "Engine is not running").

(** [except Exception as e: raise RuntimeError(prefix + str(e))]; a
    [CancelledError] is not caught. *)
Definition wrapped (prefix : Py.str) (e : exn) : exn :=
  if is_Exception e then Exception (prefix ++ str_of e) else e.

(** [start]; [popen] is the answer of [chess.engine.popen_uci]. *)
Definition start (popen : answer unit) (self : t)
    : t * list request * option exn :=
  if _is_running self then (self, [], None)
  else
    match popen with
    | Returns _ =>
        ({| engine_path := engine_path self; engine := true;
            _is_running := true |},
         [popen_uci (engine_path self)], None)
    | Raises e =>
        (if is_Exception e
         then {| engine_path := engine_path self; engine := engine self;
                 _is_running := false |}
         else self,
         [popen_uci (engine_path self)],
         Some (wrapped (py "Failed to start engine: ") e))
    end.

(** [stop]; what [quit] answers makes no difference, unless the task is
    cancelled there: the [finally] clause runs all the same. *)
Definition stop (quit_answer : answer unit) (self : t)
    : t * list request * option exn :=
  if engine self && _is_running self then
    ({| engine_path := engine_path self; engine := false;
        _is_running := false |},
     [quit],
     match quit_answer with
     | Returns _ => None
     | Raises e => if is_Exception e then None else Some e
     end)
  else (self, [], None).

(** Options that python-chess manages automatically. *)
Definition MANAGED_OPTIONS : list Py.str :=
  [py "MultiPV"; py "Ponder"; py "UCI_AnalyseMode"; py "UCI_Chess960"].

(** [set_options]. *)
Definition set_options (options : list (Py.str * Value))
    (configured : answer unit) (self : t) : t * list request * option exn :=
  if negb (is_running self) then (self, [], Some not_running)
  else
    let filtered_options :=
      filter (fun item => negb (Py.member (fst item) MANAGED_OPTIONS))
        options in
    (self, [configure filtered_options],
     match configured with
     | Returns _ => None
     | Raises e => Some (wrapped (py "Failed to set options: ") e)
     end).

(** [set_option], as the class ends up defining it (the second
    definition replaces the first). *)
Definition set_option (name : Py.str) (value : Value)
    (configured : answer unit) (self : t) : t * list request * option exn :=
  if negb (is_running self) then (self, [], Some not_running)
  else (self, [configure [(name, value)]],
        match configured with
        | Returns _ => None
        | Raises e => Some e
        end).

(** [get_best_move]. *)
Definition get_best_move (board : Board) (time_limit : option float)
    (depth nodes wtime btime winc binc : option Z)
    (played : answer PlayResult) (self : t)
    : t * list request * (option PlayResult + exn) :=
  if negb (is_running self) then (self, [], inr not_running)
  else
    let limit :=
      UCIEngine.limit_of time_limit depth nodes wtime btime winc binc in
    (self, [play board limit],
     match played with
     | Returns result => inl (Some result)
     | Raises e => inr e
     end).

(** The limit of [analyze]: the time, and the depth when it is given. *)
Definition analyze_limit (time_limit : float) (depth : option Z)
    : UCIEngine.Limit :=
  {| UCIEngine.time := Some time_limit; UCIEngine.depth := depth;
     UCIEngine.nodes := None; UCIEngine.white_clock := None;
     UCIEngine.black_clock := None; UCIEngine.white_inc := None;
     UCIEngine.black_inc := None |}.

(** [analyze_position]: [None] when the engine is not running or the
    analysis fails. *)
Definition analyze_position (board : Board) (time_limit : float)
    (analysed : answer Info) (self : t)
    : t * list request * (option Info + exn) :=
  if negb (is_running self) then (self, [], inl None)
  else
    (self, [analyse board (analyze_limit time_limit None) None],
     match analysed with
     | Returns info => inl (Some info)
     | Raises e => if is_Exception e then inl None else inr e
     end).

(** The calls on the object, each with the answer of python-chess. *)
Inductive call :=
| Start (popen : answer unit)
| Stop (quit_answer : answer unit)
| Set_options (options : list (Py.str * Value)) (configured : answer unit)
| Set_option (name : Py.str) (value : Value) (configured : answer unit)
| Get_best_move (board : Board) (time_limit : option float)
    (depth nodes wtime btime winc binc : option Z)
    (played : answer PlayResult)
| Analyze_position (board : Board) (time_limit : float)
    (analysed : answer Info).

(** Whether python-chess returned. *)
Definition returned {A} (a : answer A) : bool :=
  match a with Returns _ => true | Raises _ => false end.

(** One call: the object afterwards, and the requests it made, each with
    whether python-chess returned. *)
Definition perform (self : t) (c : call) : t * list (request * bool) :=
  match c with
  | Start popen =>
      let '(self', requests, _) := start popen self in
      (self', map (fun r => (r, returned popen)) requests)
  | Stop quit_answer =>
      let '(self', requests, _) := stop quit_answer self in
      (self', map (fun r => (r, returned quit_answer)) requests)
  | Set_options options configured =>
      let '(self', requests, _) := set_options options configured self in
      (self', map (fun r => (r, returned configured)) requests)
  | Set_option name value configured =>
      let '(self', requests, _) := set_option name value configured self in
      (self', map (fun r => (r, returned configured)) requests)
  | Get_best_move board time_limit depth nodes wtime btime winc binc played =>
      let '(self', requests, _) :=
        get_best_move board time_limit depth nodes wtime btime winc binc
          played self in
      (self', map (fun r => (r, returned played)) requests)
  | Analyze_position board time_limit analysed =>
      let '(self', requests, _) :=
        analyze_position board time_limit analysed self in
      (self', map (fun r => (r, returned analysed)) requests)
  end.

(** The calls in order, with all the requests made. *)
Fixpoint run (calls : list call) (self : t) : t * list (request * bool) :=
  match calls with
  | [] => (self, [])
  | c :: rest =>
      let '(self1, requests) := perform self c in
      let '(self2, more) := run rest self1 in
      (self2, requests ++ more)
  end.

(** Whether the object holds an engine after a request, given whether it
    held one before: [popen_uci] gives it one when it returns, [quit] is
    the end of it. *)
Definition holds (held : bool) (r : request * bool) : bool :=
  match r with
  | (popen_uci _, ok) => held || ok
  | (quit, _) => false
  | _ => held
  end.

(** A request that fits: an engine is opened only when none is held, and
    everything else is asked of an engine that is held. *)
Definition fits (held : bool) (r : request * bool) : bool :=
  match r with
  | (popen_uci _, _) => negb held
  | _ => held
  end.

(** The requests fit one after the other. *)
Fixpoint orderly (held : bool) (requests : list (request * bool)) : bool :=
  match requests with
  | [] => true
  | r :: rest => fits held r && orderly (holds held r) rest
  end.

(** A limit that bounds nothing. *)
Definition unbounded (limit : UCIEngine.Limit) : bool :=
  match UCIEngine.time limit, UCIEngine.depth limit, UCIEngine.nodes limit,
        UCIEngine.white_clock limit, UCIEngine.black_clock limit,
        UCIEngine.white_inc limit, UCIEngine.black_inc limit with
  | None, None, None, None, None, None, None => true
  | _, _, _, _, _, _, _ => false
  end.

End Engine.

Arguments Returns {A}.
Arguments Raises {A}.
Arguments request : clear implicits.
Arguments call : clear implicits.

End UCIEngineObject.

(** ** [src/ui/main_window.py]: the slot of [game_finished] *)

Module GameFinished.
Section Slot.
Context `{ChessRules}.

(** The result as the move list shows it. *)
Definition white_wins : Py.str := py "1-0".
Definition black_wins : Py.str := py "0-1".
(** The text of a draw, with the two one-half signs U+00BD. *)
Definition drawn : Py.str := [189; 45; 189]%N.

(** [_handle_game_finished]: the text of the status line and the notation
    that [move_list.add_result] is given; [our_color] is [self.our_color]
    when the signal is emitted. *)
Definition _handle_game_finished (our_color : option Py.str)
    (game : MainWindow.game_event) : Py.str * Py.str :=
  let winner := MainWindow.winner game in
  let '(result_text, result_notation) :=
    if Py.opt_eqb winner our_color then
      (py "You won!",
       if Py.opt_eqb our_color (Some (py "white"))
       then white_wins else black_wins)
    else
      match winner with
      | Some _ =>
          (py "You lost",
           if Py.opt_eqb our_color (Some (py "white"))
           then black_wins else white_wins)
      | None => (py "Draw", drawn)
      end in
  (py "Game finished - " ++ result_text, result_notation).

End Slot.
End GameFinished.

(** ** [src/ui/chess_board.py]: [NotationWidget] *)

Module NotationWidget.
Section Notation.
Context `{ChessRules}.
(** [board.san(move)]. *)
Variable san : Board -> Move -> Py.str.

Record t := {
  moves : list Py.str;
  notation_text : Py.str       (* [self.notation_text.toPlainText()] *)
}.

(** [__init__]. *)
Definition init : t := {| moves := []; notation_text := [] |}.

Definition newline : Py.str := [10%N].

(** [sep.join(lines)]. *)
Fixpoint join (sep : Py.str) (lines : list Py.str) : Py.str :=
  match lines with
  | [] => []
  | [line] => line
  | line :: rest => line ++ sep ++ join sep rest
  end.

(** [notation_lines[-1] += text]; on an empty list this is an
    [IndexError]. *)
Definition add_to_last (text : Py.str) (notation_lines : list Py.str)
    : list Py.str + exn :=
  match rev notation_lines with
  | [] => inr (Exception (py "list index out of range"))
  | last :: before => inl (rev before ++ [last ++ text])
  end.

(** The loop of [set_moves] from the move number [i] of the stack on. *)
Fixpoint set_moves_loop (move_stack : list Move) (i : nat)
    (temp_board : Board) (notation_lines : list Py.str) (move_number : Z)
    (moves : list Py.str) : list Py.str * list Py.str + exn :=
  match move_stack with
  | [] => inl (notation_lines, moves)
  | move :: rest =>
      let san := san temp_board move in
      if Nat.even i then
        set_moves_loop rest (S i) (push temp_board move)
          (notation_lines ++ [PyText.str_int move_number ++ py ". " ++ san])
          move_number (moves ++ [san])
      else
        match add_to_last (py " " ++ san) notation_lines with
        | inl notation_lines =>
            set_moves_loop rest (S i) (push temp_board move) notation_lines
              (move_number + 1) (moves ++ [san])
        | inr e => inr e
        end
  end.

(** [set_moves], for the move stack of the board. *)
Definition set_moves (move_stack : list Move) (w : t) : t + exn :=
  match set_moves_loop move_stack 0 new_board [] 1 [] with
  | inl (notation_lines, moves) =>
      inl {| moves := moves; notation_text := join newline notation_lines |}
  | inr e => inr e
  end.

(** [clear]. *)
Definition clear (w : t) : t := {| moves := []; notation_text := [] |}.

(** [add_result]. *)
Definition add_result (result : Py.str) (w : t) : t :=
  let current_text := notation_text w in
  {| moves := moves w;
     notation_text :=
       if Py.truthy current_text
       then current_text ++ newline ++ newline ++ result
       else result |}.

(** The moves in pairs: the number of the move, White's move and, when
    there is one, Black's. *)
Fixpoint numbered (number : Z) (sans : list Py.str) : list Py.str :=
  match sans with
  | [] => []
  | [white] => [PyText.str_int number ++ py ". " ++ white]
  | white :: black :: rest =>
      (PyText.str_int number ++ py ". " ++ white ++ py " " ++ black)
        :: numbered (number + 1) rest
  end.

End Notation.
End NotationWidget.

(** ** [src/ui/player_info_widget.py]: the labels of [PlayerInfoWidget] *)

Module PlayerLabels.
Import PlayerInfoWidget.

Definition with_name (name : Py.str) (w : t) : t :=
  {| is_top := is_top w; player_name := name;
     player_rating := player_rating w; player_title := player_title w;
     is_white_pieces := is_white_pieces w;
     name_label := name; title_label := title_label w;
     title_label_visible := title_label_visible w;
     rating_label := rating_label w; captured_label := captured_label w;
     advantage_label := advantage_label w; clock := clock w |}.

Definition with_title (title : Py.str) (w : t) : t :=
  {| is_top := is_top w; player_name := player_name w;
     player_rating := player_rating w; player_title := title;
     is_white_pieces := is_white_pieces w;
     name_label := name_label w;
     title_label := if Py.truthy title then title else title_label w;
     title_label_visible := Py.truthy title;     (* show() or hide() *)
     rating_label := rating_label w; captured_label := captured_label w;
     advantage_label := advantage_label w; clock := clock w |}.

Definition with_rating (rating : Z) (w : t) : t :=
  {| is_top := is_top w; player_name := player_name w;
     player_rating := rating; player_title := player_title w;
     is_white_pieces := is_white_pieces w;
     name_label := name_label w; title_label := title_label w;
     title_label_visible := title_label_visible w;
     rating_label :=
       if 0 <? rating then py "(" ++ PyText.str_int rating ++ py ")" else [];
     captured_label := captured_label w;
     advantage_label := advantage_label w; clock := clock w |}.

(** [set_player_info]. *)
Definition set_player_info (name : Py.str) (rating : Z) (title : Py.str)
    (w : t) : t :=
  (* Only update if values changed *)
  if Py.eqb name (player_name w) && (rating =? player_rating w)
     && Py.eqb title (player_title w)
  then w
  else
    let w := if negb (Py.eqb name (player_name w)) then with_name name w
             else w in
    let w := if negb (Py.eqb title (player_title w)) then with_title title w
             else w in
    if negb (rating =? player_rating w) then with_rating rating w else w.

Definition with_clock (clock : ClockWidget.t) (w : t) : t :=
  {| is_top := is_top w; player_name := player_name w;
     player_rating := player_rating w; player_title := player_title w;
     is_white_pieces := is_white_pieces w;
     name_label := name_label w; title_label := title_label w;
     title_label_visible := title_label_visible w;
     rating_label := rating_label w; captured_label := captured_label w;
     advantage_label := advantage_label w; clock := clock |}.

(** [set_time]. *)
Definition set_time (time_ms : Z) (w : t) : t :=
  with_clock (ClockWidget.set_time time_ms (clock w)) w.

(** [set_active]. *)
Definition set_active (active : bool) (w : t) : t :=
  with_clock (ClockWidget.set_active active (clock w)) w.

(** [reset]; [captured_pieces] and [material_advantage] are written here
    and read nowhere. *)
Definition reset (w : t) : t :=
  {| is_top := is_top w; player_name := []; player_rating := 0;
     player_title := []; is_white_pieces := is_white_pieces w;
     name_label := py "Waiting..."; title_label := title_label w;
     title_label_visible := false; rating_label := [];
     captured_label := []; advantage_label := [];
     clock := ClockWidget.reset (clock w) |}.

(** The calls of the window on a panel. *)
Inductive call :=
| Set_player_info (name : Py.str) (rating : Z) (title : Py.str)
| Set_time (time_ms : Z)
| Set_active (active : bool)
| Set_player_color (is_white : bool)
| Set_captured_pieces (captured : counts) (advantage : Z)
| Reset.

Definition perform (w : t) (c : call) : t :=
  match c with
  | Set_player_info name rating title => set_player_info name rating title w
  | Set_time time_ms => set_time time_ms w
  | Set_active active => set_active active w
  | Set_player_color is_white => set_player_color is_white w
  | Set_captured_pieces captured advantage =>
      set_captured_pieces captured advantage w
  | Reset => reset w
  end.

(** The panel shows its player: the name, or [Waiting...] while there is
    none; the rating in brackets when it is positive; the title exactly
    when there is one. *)
Definition shows_its_player (w : t) : Prop :=
  (name_label w = player_name w
   \/ player_name w = [] /\ name_label w = py "Waiting...")
  /\ rating_label w
     = (if 0 <? player_rating w
        then py "(" ++ PyText.str_int (player_rating w) ++ py ")" else [])
  /\ title_label_visible w = Py.truthy (player_title w)
  /\ (title_label_visible w = true -> title_label w = player_title w).

End PlayerLabels.

(** ** Inputs of the examples for the rest of the files *)

Module Examples.
#[local] Existing Instance StandardChess.rules.
#[local] Existing Instance StandardPieces.pieces.

(** The board widget after 1. e4 e5. *)
Definition after_e4_e5 : ChessBoardWidget.t :=
  ChessBoardWidget.set_position_from_moves (py "e2e4 e7e5")
    ChessBoardWidget.init.

(** The user looks at the position after the third of four moves. *)
Definition looking_back : ChessBoardWidget.t :=
  ChessBoardWidget.navigate_to_ply 3
    (ChessBoardWidget.set_position_from_moves (py "e2e4 e7e5 g1f3 b8c6")
       ChessBoardWidget.init).

(** An active clock with a quarter of a second left. *)
Definition running_out : ClockWidget.t :=
  ClockWidget.set_active true (ClockWidget.set_time 250 (ClockWidget.init false)).





(** [str.lower] on ASCII text. *)
Definition ascii_lower (s : Py.str) : Py.str :=
  map (fun c => if (65 <=? c)%N && (c <=? 90)%N then (c + 32)%N else c) s.

(** A game that is won, and recorded twice. *)
Definition game_abc (result : DatabaseManager.game_result)
    : DatabaseManager.call :=
  DatabaseManager.add_game (Some (py "abc")) (py "opponent") (py "white")
    result (py "10+0") false.

Definition won_and_recorded_twice : list DatabaseManager.call :=
  [DatabaseManager.update_statistics DatabaseManager.win;
   game_abc DatabaseManager.win; game_abc DatabaseManager.win].

Definition tables_afterwards : DatabaseManager.t :=
  match Calls.run won_and_recorded_twice DatabaseManager.empty with
  | inl db => db
  | inr _ => DatabaseManager.empty
  end.

(** A running engine. *)
Definition running_engine : UCIEngineObject.t :=
  {| UCIEngineObject.engine_path := py "stockfish";
     UCIEngineObject.engine := true; UCIEngineObject._is_running := true |}.

(** The options of the dialog: the hash size and two managed options. *)
Definition dialog_options : list (Py.str * Z) :=
  [(py "Hash", 128); (py "MultiPV", 3); (py "Ponder", 1)].

End Examples.

(** * Running the handlers symbolically *)

Import MainWindow.

(** Unfolds the coroutine combinators at the head of the goal. *)
Ltac monad_cbv :=
  cbv beta iota zeta delta
    [mbind M_bind mret M_ret bind ret raise attempt get modify perform db_log
     ask await looping uniform run
     Observe.effects Observe.outcome Observe.final request];
  cbn [fst snd trace window interactions app filter length omap andb orb negb
       Observe.count Observe.sleeps
       Observe.is_statistics_update Observe.is_history_record Observe.is_log].

Ltac innermost x :=
  lazymatch x with
  | context [match ?y with _ => _ end] => innermost y
  | negb ?y => innermost y
  | andb ?y _ => innermost y
  | orb ?y _ => innermost y
  | _ => x
  end.

(** Splits on the test or on the answer of the environment at which the run
    is stuck. *)
Ltac split_run :=
  lazymatch goal with
  | |- context [match ?x with _ => _ end] =>
      let y := innermost x in destruct y eqn:?
  end.

Ltac absurd_in :=
  let Hin := fresh "Hin" in
  intros Hin; cbn [In] in Hin; intuition discriminate.

Ltac pick_move :=
  let Hin := fresh "Hin" in
  intros Hin; cbn [In] in Hin;
  repeat match goal with
         | H : _ \/ _ |- _ => destruct H as [H|H]
         end;
  try discriminate; try contradiction;
  match goal with
  | H : MakeMove _ _ = MakeMove _ _ |- _ => injection H as <- <-
  end.

Ltac rewrite_tests :=
  repeat match goal with
         | H : ?t = true |- context [?t] => rewrite H
         | H : ?t = false |- context [?t] => rewrite H
         end.

(** * The move-history replay of the board widget *)

Section WidgetFacts.
Context `{ChessRules}.
Import ChessBoardWidget.

Lemma parse_moves_accepts tokens : forall history b,
  exists taken,
    parse_moves tokens history b = (history ++ taken, fold_left push taken b)
    /\ Spec.accepts b tokens taken
    /\ fold_left push taken b = Spec.replay_tokens b tokens.
Proof.
  induction tokens as [|token rest IH]; intros history b; cbn [parse_moves].
  - exists []. rewrite app_nil_r. repeat split. constructor.
  - destruct (from_uci token) as [m|] eqn:Huci.
    + destruct (is_legal b m) eqn:Hlegal.
      * destruct (IH (history ++ [m]) (push b m)) as (taken & -> & Hacc & Hrep).
        exists (m :: taken). rewrite <- app_assoc. cbn.
        rewrite Huci, Hlegal. repeat split; [|assumption].
        eapply Spec.accepts_take; eassumption.
      * destruct (IH history b) as (taken & -> & Hacc & Hrep).
        exists taken. cbn. rewrite Huci, Hlegal. repeat split; [|assumption].
        eapply Spec.accepts_skip; eassumption.
    + exists []. rewrite app_nil_r. cbn. rewrite Huci. repeat split.
      now apply Spec.accepts_stop.
Qed.

Lemma accepts_functional b tokens h1 :
  Spec.accepts b tokens h1 -> forall h2, Spec.accepts b tokens h2 -> h1 = h2.
Proof.
  induction 1 as [b|b token rest Hnone|b token rest m history Hm Hl _ IH
                  |b token rest m history Hm Hl _ IH];
    intros h2 Hother; inversion Hother as [|? ? ? Hn|? ? ? m' ? Hm' Hl' Hrest
                                           |? ? ? m' ? Hm' Hl' Hrest];
    subst; try congruence;
    assert (m' = m) by congruence; subst m'; try congruence.
  - now apply IH.
  - f_equal. now apply IH.
Qed.

Lemma history_set_position moves_uci w :
  move_history (set_position_from_moves moves_uci w) = Spec.accepted moves_uci.
Proof.
  unfold set_position_from_moves, _rebuild_board_at_ply, Spec.accepted.
  destruct (rebuild_loop _ _ _ _ _) as [b lm]. cbn.
  destruct moves_uci; reflexivity.
Qed.

Lemma rebuild_loop_board ply moves : forall i b lm,
  fst (rebuild_loop ply i moves b lm) = fold_left push moves b.
Proof.
  induction moves as [|m rest IH]; intros i b lm; cbn; [reflexivity|].
  apply IH.
Qed.

Lemma accepted_accepts moves_uci :
  Spec.accepts new_board (Py.split moves_uci) (Spec.accepted moves_uci).
Proof.
  unfold Spec.accepted.
  destruct (parse_moves_accepts (Py.split moves_uci) [] new_board)
    as (taken & -> & Hacc & _).
  exact Hacc.
Qed.

Lemma accepted_replay moves_uci :
  fold_left push (Spec.accepted moves_uci) new_board = Spec.replay moves_uci.
Proof.
  unfold Spec.accepted, Spec.replay.
  destruct (parse_moves_accepts (Py.split moves_uci) [] new_board)
    as (taken & -> & _ & Hrep).
  exact Hrep.
Qed.

End WidgetFacts.

Section WidgetTheorems.
Context `{ChessRules}.
Import ChessBoardWidget.

Lemma rebuild_board_fields ply w :
  _rebuild_board_at_ply ply w =
  {| board := fst (rebuild_loop ply 0 (firstn ply (move_history w)) new_board None);
     flipped := flipped w;
     last_move := snd (rebuild_loop ply 0 (firstn ply (move_history w)) new_board None);
     move_history := move_history w; current_ply := current_ply w;
     is_viewing_live := is_viewing_live w |}.
Proof.
  unfold _rebuild_board_at_ply.
  destruct (rebuild_loop _ _ _ _ _); reflexivity.
Qed.

Lemma set_position_twice first second w :
  set_position_from_moves second (set_position_from_moves first w)
  = set_position_from_moves second w.
Proof.
  unfold set_position_from_moves. rewrite !rebuild_board_fields. cbn.
  destruct (is_viewing_live w); reflexivity.
Qed.

Lemma deliver_all_is_deliver_last earlier_lists final : forall w,
  fold_left (fun w moves => set_position_from_moves moves w)
    (earlier_lists ++ [final]) w
  = set_position_from_moves final w.
Proof.
  induction earlier_lists as [|first rest IH]; intros w; cbn; [reflexivity|].
  rewrite IH. apply set_position_twice.
Qed.

Lemma displayed_board moves_uci w :
  let w' := set_position_from_moves moves_uci w in
  board w' = fold_left push (firstn (current_ply w') (move_history w')) new_board
  /\ current_ply w' = if is_viewing_live w then length (Spec.accepted moves_uci)
                      else current_ply w.
Proof.
  cbn zeta. rewrite history_set_position.
  unfold set_position_from_moves. rewrite rebuild_board_fields. cbn.
  fold (Spec.accepted moves_uci).
  replace (if Py.truthy moves_uci then Spec.accepted moves_uci else [])
    with (Spec.accepted moves_uci) by (destruct moves_uci; reflexivity).
  rewrite rebuild_loop_board. split; reflexivity.
Qed.

(** C10 ([set_position_from_moves], chess_board.py 313-341): for every
    string of move tokens the call returns (the loop catches the only
    exception its body can raise, [ValueError] from [Move.from_uci]), and the
    history it stores is the one the claim describes: a token that parses
    but is not legal in the position built so far is passed over and the
    later tokens are still tried, the first token that does not parse ends
    the processing, and the history holds exactly the accepted moves in
    order ([Spec.accepts]); no other history fits that description. *)
Theorem set_position_from_moves_history (moves_uci : Py.str) (w : t) :
  let history := move_history (set_position_from_moves moves_uci w) in
  Spec.accepts new_board (Py.split moves_uci) history
  /\ forall other, Spec.accepts new_board (Py.split moves_uci) other ->
                   other = history.
Proof.
  cbn zeta. rewrite history_set_position. unfold Spec.accepted.
  destruct (parse_moves_accepts (Py.split moves_uci) [] new_board)
    as (taken & -> & Hacc & _).
  cbn. split; [exact Hacc|].
  intros other Hother. exact (accepts_functional _ _ _ Hother _ Hacc).
Qed.

(** C3 ([set_position_from_moves] and [get_live_board]): after any sequence
    of move lists has been delivered, strictly extending or not, the widget
    is in the state that delivering the last list alone gives, since every
    delivery replays its whole list from the initial position.  The live
    board, which the window takes as the board of the session, is the replay
    of the last list from the initial position; the displayed board is the
    same replay up to the displayed ply, which is the last ply when the live
    position is viewed; and delivering the last list once more changes
    nothing. *)
Theorem replay_from_scratch (earlier_lists : list Py.str) (final : Py.str)
    (w : t) (s : MainWindow.t) :
  let deliver w moves := set_position_from_moves moves w in
  let w' := fold_left deliver (earlier_lists ++ [final]) w in
  w' = deliver w final
  /\ get_live_board w' = Spec.replay final
  /\ board w' = fold_left push (firstn (current_ply w') (move_history w'))
                  new_board
  /\ current_ply w' = (if is_viewing_live w
                       then length (move_history w') else current_ply w)
  /\ deliver w' final = w'
  /\ MainWindow.game_board
       (fold_left (fun s moves => MainWindow.update_board moves s)
          (earlier_lists ++ [final]) s)
     = Some (Spec.replay final).
Proof.
  cbn zeta. rewrite deliver_all_is_deliver_last.
  split; [reflexivity|].
  split; [unfold get_live_board; rewrite history_set_position;
          apply accepted_replay|].
  destruct (displayed_board final w) as [Hboard Hply].
  split; [exact Hboard|].
  split; [rewrite Hply, history_set_position; reflexivity|].
  split; [apply set_position_twice|].
  rewrite fold_left_app. cbn.
  unfold MainWindow.update_board at 1. cbn.
  unfold get_live_board. rewrite history_set_position.
  f_equal. apply accepted_replay.
Qed.

Lemma parse_moves_extension tokens more : forall history b,
  fst (parse_moves tokens history b)
    `prefix_of` fst (parse_moves (tokens ++ more) history b).
Proof.
  induction tokens as [|token rest IH]; intros history b; cbn.
  - destruct (parse_moves_accepts more history b) as (taken & -> & _).
    cbn. now exists taken.
  - destruct (from_uci token) as [m|]; [|reflexivity].
    destruct (is_legal b m); apply IH.
Qed.

Lemma accepted_extension previous moves_uci :
  Py.split previous `prefix_of` Py.split moves_uci ->
  Spec.accepted previous `prefix_of` Spec.accepted moves_uci.
Proof.
  unfold Spec.accepted. intros [more ->]. apply parse_moves_extension.
Qed.

End WidgetTheorems.

Section ReconnectFacts.
Context `{ChessRules}.
Import Observe Reconnect.

Lemma backoff_next k :
  py_min (backoff k * 2)%float max_reconnect_delay = backoff (S k).
Proof. do 6 (destruct k as [|k]; [reflexivity|]). reflexivity. Qed.

Lemma sleeps_app tr1 tr2 : sleeps (tr1 ++ tr2) = sleeps tr1 ++ sleeps tr2.
Proof. apply omap_app. Qed.

Section Running.
Variable w : world.
Hypothesis stays_running :
  forall i s, is_running s = true -> is_running (meanwhile w i s) = true.
Hypothesis not_cancelled :
  forall i, respond w nat i stream_events <> Raises CancelledError.
Hypothesis sleep_returns :
  forall i d, respond w unit i (sleep d) = Returns tt.

(** While the bot runs and the task is not cancelled, a turn of the loop
    sleeps once, for the current delay, and doubles the delay up to the
    cap. *)
Lemma event_stream_turn turns delay c :
  is_running (window c) = true ->
  exists c',
    event_stream_loop (S turns) delay w c
    = event_stream_loop turns (py_min (delay * 2)%float max_reconnect_delay) w c'
    /\ is_running (window c') = true
    /\ sleeps (trace c') = sleeps (trace c) ++ [delay].
Proof.
  destruct c as [i s tr]. cbn [window trace]. intros Hs.
  cbn [event_stream_loop]. unfold event_stream_try. monad_cbv.
  rewrite Hs. monad_cbv.
  pose proof (not_cancelled i) as Hnot.
  assert (Hs2 : is_running (meanwhile w (S i) (meanwhile w i s)) = true)
    by now apply stays_running, stays_running.
  destruct (respond w nat i stream_events) as [n|e]; monad_cbv.
  - rewrite stays_running by exact Hs. monad_cbv.
    rewrite sleep_returns. monad_cbv.
    eexists. split; [reflexivity|]. cbn [window trace]. split; [exact Hs2|].
    rewrite !sleeps_app. cbn. now rewrite !app_nil_r.
  - destruct e; try congruence; monad_cbv.
    all: rewrite stays_running by exact Hs; monad_cbv;
      rewrite sleep_returns; monad_cbv;
      eexists; (split; [reflexivity|]); cbn [window trace];
      (split; [exact Hs2|]);
      rewrite !sleeps_app; cbn; now rewrite !app_nil_r.
Qed.

Lemma event_stream_loop_sleeps turns : forall k c,
  is_running (window c) = true ->
  fst (event_stream_loop turns (backoff k) w c) = Looping
  /\ sleeps (trace (snd (event_stream_loop turns (backoff k) w c)))
     = sleeps (trace c) ++ (backoff <$> seq k turns).
Proof.
  induction turns as [|turns IH]; intros k c Hc.
  - cbn. rewrite app_nil_r. split; reflexivity.
  - destruct (event_stream_turn turns (backoff k) c Hc) as (c' & -> & Hc' & Htr).
    rewrite backoff_next.
    destruct (IH (S k) c' Hc') as [-> ->].
    split; [reflexivity|]. rewrite Htr, <- app_assoc. reflexivity.
Qed.

End Running.

(** C8 ([_run_event_stream], main_window.py 1219-1251): while the bot is
    running and nobody cancels the task, each turn of the retry loop ends
    with one sleep, whether the stream ended or raised, and the delays slept
    in the first [n] turns are the first [n] of 1, 2, 4, 8, 16, 30, 30, ...
    seconds ([backoff]). *)
Theorem reconnect_delays (w : world) (s : t) (n : nat) :
  is_running s = true ->
  (forall i s', is_running s' = true -> is_running (meanwhile w i s') = true) ->
  (forall i, respond w nat i stream_events <> Raises CancelledError) ->
  (forall i d, respond w unit i (sleep d) = Returns tt) ->
  sleeps (effects (_run_event_stream n) w s) = (backoff <$> seq 0 n)
  /\ (backoff <$> seq 0 8) = [1; 2; 4; 8; 16; 30; 30; 30]%float.
Proof.
  intros Hs Hrun Hfail Hsleep. split; [|reflexivity].
  unfold effects, run, _run_event_stream.
  change 1%float with (backoff 0).
  exact (proj2 (event_stream_loop_sleeps w Hrun Hfail Hsleep n 0
                 {| interactions := 0; window := s; trace := [] |} Hs)).
Qed.

(** C4, amended ([_run_event_stream] 1219-1251): the delay slept after a
    turn of the retry loop is twice the delay slept after the turn before,
    capped at 30 seconds, whatever the connection in between delivered:
    nothing resets it. *)
Theorem reconnect_delay_never_reset (w : world) (s : t) (n k : nat)
    (before after : float) :
  is_running s = true ->
  (forall i s', is_running s' = true -> is_running (meanwhile w i s') = true) ->
  (forall i, respond w nat i stream_events <> Raises CancelledError) ->
  (forall i d, respond w unit i (sleep d) = Returns tt) ->
  sleeps (effects (_run_event_stream n) w s) !! k = Some before ->
  sleeps (effects (_run_event_stream n) w s) !! S k = Some after ->
  after = py_min (before * 2)%float 30%float.
Proof.
  intros Hs Hrun Hfail Hsleep.
  unfold effects, run, _run_event_stream.
  change 1%float with (backoff 0).
  rewrite (proj2 (event_stream_loop_sleeps w Hrun Hfail Hsleep n 0
                    {| interactions := 0; window := s; trace := [] |} Hs)).
  cbn [trace]. change (sleeps []) with (@nil float). cbn [app].
  rewrite !list_lookup_fmap.
  intros Hk HSk.
  destruct (seq 0 n !! k) as [i|] eqn:Hi; [|discriminate].
  destruct (seq 0 n !! S k) as [j|] eqn:Hj; [|discriminate].
  apply lookup_seq in Hi as [-> _]. apply lookup_seq in Hj as [-> _].
  cbn in Hk, HSk. injection Hk as <-. injection HSk as <-.
  symmetry. apply backoff_next.
Qed.

End ReconnectFacts.

Section HandlerFacts.
Context `{ChessRules}.
Import Observe Scheduler.

Lemma eqb_eq (a b : Py.str) : Py.eqb a b = true -> a = b.
Proof.
  revert b. induction a as [|x a IH]; intros [|y b]; cbn; try discriminate.
  - reflexivity.
  - intros Heq. apply andb_true_iff in Heq as [Hx Hrest].
    apply N.eqb_eq in Hx. f_equal; [exact Hx|apply IH, Hrest].
Qed.

Lemma opt_eqb_eq (a b : option Py.str) : Py.opt_eqb a b = true -> a = b.
Proof.
  destruct a, b; cbn; try discriminate; [|reflexivity].
  intros Heq. f_equal. apply eqb_eq, Heq.
Qed.

Lemma sent_In game_id move_uci tr :
  sent game_id move_uci tr = true -> In (MakeMove game_id move_uci) tr.
Proof.
  unfold sent. intros Hsent. apply existsb_exists in Hsent as (e & Hin & He).
  destruct e; try discriminate.
  apply andb_true_iff in He as [Hg Hm].
  apply opt_eqb_eq in Hg. apply eqb_eq in Hm. subst. exact Hin.
Qed.



Lemma apply_calls_app tr1 tr2 db :
  Ledger.apply_calls (tr1 ++ tr2) db
  = match Ledger.apply_calls tr1 db with
    | inl db' => Ledger.apply_calls tr2 db'
    | inr e => inr e
    end.
Proof.
  revert db. induction tr1 as [|e rest IH]; intros db; cbn; [reflexivity|].
  destruct e; try apply IH.
  destruct (DatabaseManager.execute c db); [apply IH|reflexivity].
Qed.

(** Calls that keep the ledger leave the statistics and the history as
    they are, and do not raise. *)
Lemma apply_calls_keeps_ledger added :
  Forall (fun e => keeps_ledger e = true) added ->
  forall db, exists db',
    Ledger.apply_calls added db = inl db'
    /\ DatabaseManager.games_played db' = DatabaseManager.games_played db
    /\ DatabaseManager.games_won db' = DatabaseManager.games_won db
    /\ DatabaseManager.games_lost db' = DatabaseManager.games_lost db
    /\ DatabaseManager.games_drawn db' = DatabaseManager.games_drawn db
    /\ DatabaseManager.game_history db' = DatabaseManager.game_history db.
Proof.
  induction 1 as [|e rest He _ IH]; intros db.
  - exists db. repeat split; reflexivity.
  - destruct e; cbn [Ledger.apply_calls]; try apply IH.
    destruct c; try discriminate He.
    cbn [DatabaseManager.execute].
    destruct (IH {| DatabaseManager.games_played := DatabaseManager.games_played db;
                    DatabaseManager.games_won := DatabaseManager.games_won db;
                    DatabaseManager.games_lost := DatabaseManager.games_lost db;
                    DatabaseManager.games_drawn := DatabaseManager.games_drawn db;
                    DatabaseManager.game_history := DatabaseManager.game_history db;
                    DatabaseManager.logs :=
                      DatabaseManager.logs db ++ [(severity, message)] |})
      as (db' & -> & Hrest).
    exists db'. split; [reflexivity|exact Hrest].
Qed.

Ltac keeps := repeat constructor.

(** [_seek_game] and [_on_stop_bot] make no call on the statistics or on
    the history. *)
Lemma seek_game_keeps_ledger (w : world) (c : context) :
  exists added,
    trace (snd (_seek_game w c)) = trace c ++ added
    /\ Forall (fun e => keeps_ledger e = true) added.
Proof.
  destruct c as [i s tr]. unfold _seek_game. monad_cbv.
  repeat (split_run; monad_cbv); rewrite <- ?app_assoc; cbn [app];
    (eexists; split; [try reflexivity; symmetry; apply app_nil_r|keeps]).
Qed.

Lemma on_stop_bot_keeps_ledger (w : world) (c : context) :
  exists added,
    trace (snd (_on_stop_bot w c)) = trace c ++ added
    /\ Forall (fun e => keeps_ledger e = true) added.
Proof.
  destruct c as [i s tr]. unfold _on_stop_bot. monad_cbv.
  repeat (split_run; monad_cbv); rewrite <- ?app_assoc; cbn [app];
    (eexists; split; [try reflexivity; symmetry; apply app_nil_r|keeps]).
Qed.

(** Replaces the trace of a final [_seek_game] or [_on_stop_bot] by what it
    adds. *)
Ltac tail_call :=
  try match goal with
      | |- context [trace (snd (_seek_game ?w ?c))] =>
          let added := fresh "added" in
          let Hadded := fresh "Hadded" in
          destruct (seek_game_keeps_ledger w c) as (added & -> & Hadded)
      | |- context [trace (snd (_on_stop_bot ?w ?c))] =>
          let added := fresh "added" in
          let Hadded := fresh "Hadded" in
          destruct (on_stop_bot_keeps_ledger w c) as (added & -> & Hadded)
      end;
  cbn [trace].


(** The same on the tables, for an event that carries a game id: an
    aborted game leaves the statistics and the history as they were; any
    other game adds one to [games_played] and to one of the three result
    counters, and writes the row of the game. *)
Lemma game_finish_ledger (w : world) (s : t) (game : game_event)
    (game_id : Py.str) (db : DatabaseManager.t) :
  Py.or_else (gameId game) (id game) = Some game_id ->
  exists db',
    Ledger.apply_calls (effects (_on_game_finish game) w s) db = inl db'
    /\ if Py.member (default (py "unknown") (status game)) abort_statuses
       then DatabaseManager.games_played db' = DatabaseManager.games_played db
            /\ DatabaseManager.games_won db' = DatabaseManager.games_won db
            /\ DatabaseManager.games_lost db' = DatabaseManager.games_lost db
            /\ DatabaseManager.games_drawn db' = DatabaseManager.games_drawn db
            /\ DatabaseManager.game_history db' = DatabaseManager.game_history db
       else DatabaseManager.games_played db'
            = DatabaseManager.games_played db + 1
            /\ DatabaseManager.games_won db' + DatabaseManager.games_lost db'
               + DatabaseManager.games_drawn db'
               = DatabaseManager.games_won db + DatabaseManager.games_lost db
                 + DatabaseManager.games_drawn db + 1
            /\ exists row,
                 DatabaseManager.row_game_id row = game_id
                 /\ DatabaseManager.game_history db'
                    = DatabaseManager.replace_row row
                        (DatabaseManager.game_history db).
Proof.
  intros Hid.
  unfold _on_game_finish. rewrite Hid.
  cbn [DatabaseManager.execute]. monad_cbv.
  destruct (Py.member _ abort_statuses);
    repeat (split_run; monad_cbv); tail_call;
    rewrite ?apply_calls_app;
    cbn [Ledger.apply_calls DatabaseManager.execute];
    try match goal with
        | Hadded : Forall _ ?added |- context [Ledger.apply_calls ?added ?d] =>
            destruct (apply_calls_keeps_ledger added Hadded d)
              as (db' & Happ & Hp & Hw & Hl & Hd & Hh);
            rewrite Happ
        end;
    (eexists; split; [reflexivity|]);
    cbn [DatabaseManager.games_played DatabaseManager.games_won
         DatabaseManager.games_lost DatabaseManager.games_drawn
         DatabaseManager.game_history] in *;
    repeat split; try lia; try congruence;
    (eexists; split; [|first [eassumption|reflexivity]]; reflexivity).
Qed.

(** Without a game id, the statistics are updated and then [add_game]
    raises. *)
Lemma game_finish_without_id (w : world) (s : t) (game : game_event) :
  Py.or_else (gameId game) (id game) = None ->
  Py.member (default (py "unknown") (status game)) abort_statuses = false ->
  outcome (_on_game_finish game) w s = Raise IntegrityError
  /\ count is_statistics_update (effects (_on_game_finish game) w s) = 1%nat.
Proof.
  intros Hid Hstatus.
  unfold _on_game_finish. rewrite Hid, Hstatus.
  cbn [DatabaseManager.execute]. monad_cbv.
  repeat (split_run; monad_cbv); split; reflexivity.
Qed.

Lemma tier_think_range (s : t) (b : Board) :
  tier s b = think_range s (fullmove_number b).
Proof. reflexivity. Qed.

Lemma limit_of_time time_limit depth nodes wtime btime winc binc :
  UCIEngine.time
    (UCIEngine.limit_of (Some time_limit) depth nodes wtime btime winc binc)
  = Some time_limit.
Proof. reflexivity. Qed.

(** The [try] block of [_maybe_make_move], from any point of a run: what it
    adds to the trace when it submits a move. *)
Lemma make_move_body_effects (w : world) (state : state_event) (board : Board)
    (c : context) (game_id : option Py.str) (move_uci : Py.str) :
  let n := interactions c in
  let c' := snd (make_move_body state board w c) in
  exists added,
    trace c' = trace c ++ added
    /\ (In (MakeMove game_id move_uci) added ->
        exists limit t0 u t1 rest,
          respond w float n monotonic = Returns t0
          /\ respond w float (S n) random = Returns u
          /\ respond w float (S (S (S n))) monotonic = Returns t1
          /\ UCIEngine.time limit = Some (snd (tier (window c) board))
          /\ added =
               [EnginePlay board limit;
                Db (DatabaseManager.log DatabaseManager.DEBUG
                      (py "Engine move: " ++ move_uci))]
               ++ throttle
                    (fst (tier (window c) board)
                     + (snd (tier (window c) board)
                        - fst (tier (window c) board)) * u
                     - (t1 - t0))%float
               ++ MakeMove game_id move_uci :: rest).
Proof.
  destruct c as [n s tr]. cbn zeta. cbn [interactions window trace].
  unfold make_move_body. monad_cbv.
  repeat (split_run; monad_cbv);
    rewrite <- ?app_assoc; cbn [app];
    (eexists; split; [try reflexivity; symmetry; apply app_nil_r|]);
    try absurd_in.
  all: pick_move.
  all: do 5 eexists;
    do 3 (split; [reflexivity|]);
    rewrite !tier_think_range; unfold throttle;
    match goal with H : think_range _ _ = _ |- _ => rewrite H end;
    rewrite_tests; cbn [fst snd app];
    (split; [|rewrite_tests; reflexivity]); apply limit_of_time.
Qed.

(** The [try] block leaves the board widget alone. *)
Lemma make_move_body_frame (w : world) (state : state_event) (board : Board)
    (c : context) :
  (forall i s, chess_board (meanwhile w i s) = chess_board s) ->
  chess_board (window (snd (make_move_body state board w c)))
  = chess_board (window c)
  /\ fst (make_move_body state board w c) <> Looping.
Proof.
  intros Hkeep. destruct c as [i s tr].
  unfold make_move_body. monad_cbv.
  repeat (split_run; monad_cbv); rewrite ?Hkeep; split; auto; discriminate.
Qed.


(** C6 ([_maybe_make_move] 1527-1586, [get_best_move]): in every run that
    submits a move, the engine was asked once, with a limit whose [time] is
    the configured maximum of the tier of the move number; and between the
    engine's answer and the submission the run sleeps for
    [target - elapsed] seconds when that is positive and not at all
    otherwise, where [target] is the uniform sample [min + (max - min) * u]
    of the tier and [elapsed] is the monotonic time since the start of the
    run. *)
Theorem engine_capped_and_move_throttled (w : world) (s : t)
    (state : state_event) (game_id : option Py.str) (move_uci : Py.str) :
  In (MakeMove game_id move_uci) (effects (_maybe_make_move state) w s) ->
  exists board limit t0 u t1 rest,
    game_board s = Some board
    /\ respond w float 0 monotonic = Returns t0
    /\ respond w float 1 random = Returns u
    /\ respond w float 3 monotonic = Returns t1
    /\ UCIEngine.time limit = Some (snd (tier s board))
    /\ let target :=
         (fst (tier s board)
          + (snd (tier s board) - fst (tier s board)) * u)%float in
       let elapsed := (t1 - t0)%float in
       effects (_maybe_make_move state) w s =
         [Status Thinking; EnginePlay board limit;
          Db (DatabaseManager.log DatabaseManager.DEBUG
                (py "Engine move: " ++ move_uci))]
         ++ throttle (target - elapsed)
         ++ MakeMove game_id move_uci :: rest.
Proof.
  unfold _maybe_make_move. monad_cbv.
  repeat (split_run; monad_cbv); try absurd_in.
  all: match goal with
       | E : make_move_body ?st ?b ?w ?c = (_, ?c') |- _ =>
           destruct (make_move_body_effects w st b c game_id move_uci)
             as (added & Htrace & Hadded);
           rewrite E in Htrace; cbn [snd trace window interactions app] in *
       end.
  all: rewrite Htrace; intros Hin;
    destruct Hadded as (limit & t0 & u & t1 & rest & H0 & H1 & H3 & Hcap & ->);
    [ rewrite ?in_app_iff in Hin; cbn [In] in Hin;
      intuition (try discriminate; try contradiction; eauto) |].
  all: eexists _, limit, t0, u, t1, _;
    (split; [reflexivity|]); (split; [exact H0|]); (split; [exact H1|]);
    (split; [exact H3|]); (split; [exact Hcap|]);
    cbn zeta; cbn [app]; rewrite <- ?app_assoc; cbn [app]; reflexivity.
Qed.

(** [_maybe_make_move] leaves the board widget alone and raises nothing
    but a cancellation. *)
Lemma maybe_make_move_frame (w : world) (state : state_event) (c : context) :
  (forall i s, chess_board (meanwhile w i s) = chess_board s) ->
  chess_board (window (snd (_maybe_make_move state w c)))
  = chess_board (window c)
  /\ (fst (_maybe_make_move state w c) = Return tt
      \/ fst (_maybe_make_move state w c) = Raise CancelledError).
Proof.
  intros Hkeep. destruct c as [i s tr].
  unfold _maybe_make_move. monad_cbv.
  repeat (split_run; monad_cbv); try (split; auto; fail).
  all: match goal with
       | E : make_move_body ?st ?b ?w ?c = _ |- _ =>
           destruct (make_move_body_frame w st b c Hkeep) as [Hb Hex];
           rewrite E in Hb, Hex; cbn [fst snd window] in Hb, Hex
       end.
  all: try (split; [exact Hb|auto]).
  all: congruence.
Qed.

(** C2, amended ([_on_game_state] 1433-1480, [set_position_from_moves]):
    for a record whose status is not [aborted] or [noStart], and whatever
    the session held before, the history of the session becomes the moves
    accepted from the record's own list, and the handler raises nothing but
    a cancellation.  When the new list extends a previous one, the history
    accepted from the previous one is a prefix of the new history, so the
    length does not decrease across extending updates. *)
Theorem game_state_replaces_history (w : world) (s : t) (event : state_event) :
  (forall i s', chess_board (meanwhile w i s') = chess_board s') ->
  Py.member (default (py "started") (state_status event)) abort_statuses
  = false ->
  Spec.accepts new_board (Py.split (default [] (moves event)))
    (ChessBoardWidget.move_history
       (chess_board (final (_on_game_state event) w s)))
  /\ (outcome (_on_game_state event) w s = Return tt
      \/ outcome (_on_game_state event) w s = Raise CancelledError)
  /\ forall previous earlier,
       Spec.accepts new_board (Py.split previous) earlier ->
       Py.split previous `prefix_of` Py.split (default [] (moves event)) ->
       earlier `prefix_of`
         ChessBoardWidget.move_history
           (chess_board (final (_on_game_state event) w s)).
Proof.
  intros Hkeep Hstatus.
  assert (Hhistory :
            ChessBoardWidget.move_history
              (chess_board (final (_on_game_state event) w s))
            = Spec.accepted (default [] (moves event))).
  { unfold _on_game_state. rewrite Hstatus. monad_cbv.
    repeat (split_run; monad_cbv);
      try match goal with
          | |- context [_maybe_make_move ?e ?w ?c] =>
              rewrite (proj1 (maybe_make_move_frame w e c Hkeep))
          end;
      cbn [window chess_board update_board set_game_board set_chess_board
           set_times];
      apply history_set_position. }
  rewrite Hhistory.
  split; [apply accepted_accepts|]. split.
  - unfold _on_game_state. rewrite Hstatus. monad_cbv.
    repeat (split_run; monad_cbv); auto;
      match goal with
      | |- context [_maybe_make_move ?e ?w ?c] =>
          exact (proj2 (maybe_make_move_frame w e c Hkeep))
      end.
  - intros previous earlier Hearlier Hprefix.
    rewrite (accepts_functional _ _ _ Hearlier _ (accepted_accepts previous)).
    now apply accepted_extension.
Qed.

End HandlerFacts.

(** * The NDJSON read loop *)

Section StreamFacts.
Context {J : Type}.
Variable json_loads : Py.str -> option J.
Variable callback : bool.
Import LichessClient.

(** Lines that are UTF-8 text are handled as the specification says: blank
    lines and lines that fail JSON decoding give nothing, the others give
    their record, in the order of arrival, and nothing is raised. *)
Lemma process_lines_text (lines : list Py.bytes) :
  forallb Ndjson.is_text lines = true ->
  snd (process_lines json_loads callback lines) = None
  /\ omap (fun o => match o with Yielded d => Some d | Called _ => None end)
       (fst (process_lines json_loads callback lines))
     = omap (Ndjson.record_of json_loads) lines.
Proof.
  induction lines as [|line rest IH]; cbn [forallb]; [split; reflexivity|].
  intros Htext. apply andb_true_iff in Htext as [Hline Hrest].
  destruct (IH Hrest) as [Hnone Hrecords].
  cbn [process_lines omap]. unfold handle_line, Ndjson.record_of, list_omap.
  unfold Ndjson.is_text in Hline.
  destruct (Py.decode_utf8 line) as [text|]; [|discriminate].
  destruct (Py.strip text) as [|ch more] eqn:Hstrip; cbn [Py.truthy].
  - split; assumption.
  - destruct (json_loads (ch :: more)) as [data|].
    + destruct (process_lines json_loads callback rest) as [outs e].
      cbn [fst snd] in *. split; [assumption|].
      destruct callback; cbn; f_equal; exact Hrecords.
    + split; assumption.
Qed.

(** A line that is not UTF-8 text raises out of the loop: the lines before
    it have been handled, the lines after it are never looked at. *)
Lemma process_lines_undecodable (before after : list Py.bytes) (line : Py.bytes) :
  forallb Ndjson.is_text before = true ->
  Ndjson.is_text line = false ->
  process_lines json_loads callback (before ++ line :: after)
  = (fst (process_lines json_loads callback before), Some UnicodeDecodeError).
Proof.
  intros Hbefore Hline.
  induction before as [|first rest IH]; cbn [app process_lines forallb] in *.
  - unfold handle_line. unfold Ndjson.is_text in Hline.
    destruct (Py.decode_utf8 line); [discriminate|reflexivity].
  - apply andb_true_iff in Hbefore as [Hfirst Hrest].
    rewrite (IH Hrest).
    destruct (handle_line json_loads first); try reflexivity;
      destruct (process_lines json_loads callback rest); reflexivity.
Qed.

(** C9 ([_stream_ndjson], api_client.py 199-217).  A chunk is read whose
    complete lines are [before], all of them UTF-8 text, then a line that is
    not UTF-8, then [after].  The lines of [before] are handled as the
    claim says: the records they carry are yielded in the order of arrival.
    At the next line [line.decode('utf-8')] raises [UnicodeDecodeError],
    which no handler of the loop catches: the generator raises when the read
    returns, and the lines of [after] are lost, whatever [json.loads] would
    make of them. *)
Theorem undecodable_line_raises (opened : float) (r : read)
    (more : list read) (chunk remainder line : Py.bytes)
    (before after : list Py.bytes) :
  result r = Chunk chunk ->
  split_lines [] chunk = (before ++ line :: after, remainder) ->
  forallb Ndjson.is_text before = true ->
  Ndjson.is_text line = false ->
  let generator :=
    _stream_ndjson json_loads callback None
      {| status := 200; opened_at := opened; reads := r :: more |} in
  how generator = Raised UnicodeDecodeError
  /\ at_time generator = returns_at r
  /\ records generator = omap (Ndjson.record_of json_loads) before.
Proof.
  intros Hresult Hsplit Hbefore Hline generator. subst generator.
  unfold _stream_ndjson, records.
  cbn [status opened_at reads Z.eqb Pos.eqb negb read_loop _stopping].
  rewrite Hresult.
  destruct chunk as [|b chunk].
  - destruct before; discriminate Hsplit.
  - cbn [app]. rewrite Hsplit.
    rewrite (process_lines_undecodable before after line Hbefore Hline).
    cbn [outputs how at_time app].
    repeat split.
    exact (proj2 (process_lines_text before Hbefore)).
Qed.


(** A stop that is requested while a read is pending is seen when the read
    has returned a chunk and the chunk has been processed, provided the last
    look at the flag is more than 2 seconds old. *)
Lemma stop_seen_after_the_chunk (stop : option float) (r : read)
    (rest : list read) (last t : float) (outs : list (output (J := J))) :
  _stopping stop t = false ->
  result r = Chunk [newline] ->
  PrimFloat.ltb 2 (now r - last) = true ->
  _stopping stop (now r) = true ->
  read_loop json_loads callback stop (r :: rest) [] last t outs
  = {| outputs := outs ++ []; how := Stopped; at_time := now r |}.
Proof.
  intros Hnot Hres Hlate Hstop. cbn [read_loop]. rewrite Hnot, Hres.
  cbn. rewrite Hlate, Hstop. reflexivity.
Qed.


End StreamFacts.

(** * The scenarios *)

Section Scenarios.
Import Scenario Observe Scheduler Reconnect.
#[local] Existing Instance StandardChess.rules.

Ltac find_in := apply sent_In; vm_compute; reflexivity.



(** C6 on the undisturbed run: the engine is capped at 3 seconds, the
    target is 2 seconds and the run sleeps the remaining 1.5 seconds. *)
Lemma engine_capped_and_move_throttled_witness :
  In (MakeMove (Some (py "abc")) (py "e2e4"))
    (effects first_move undisturbed (playing "white"))
  /\ exists board limit t0 u t1 rest,
       game_board (playing "white") = Some board
       /\ respond undisturbed float 0 monotonic = Returns t0
       /\ respond undisturbed float 1 random = Returns u
       /\ respond undisturbed float 3 monotonic = Returns t1
       /\ UCIEngine.time limit = Some (snd (tier (playing "white") board))
       /\ effects first_move undisturbed (playing "white") =
            [Status Thinking; EnginePlay board limit;
             Db (DatabaseManager.log DatabaseManager.DEBUG
                   (py "Engine move: " ++ py "e2e4"))]
            ++ throttle
                 (fst (tier (playing "white") board)
                  + (snd (tier (playing "white") board)
                     - fst (tier (playing "white") board)) * u
                  - (t1 - t0))%float
            ++ MakeMove (Some (py "abc")) (py "e2e4") :: rest.
Proof.
  assert (Hin : In (MakeMove (Some (py "abc")) (py "e2e4"))
                  (effects first_move undisturbed (playing "white")))
    by find_in.
  split; [exact Hin|].
  exact (engine_capped_and_move_throttled undisturbed (playing "white")
           (game_state "") (Some (py "abc")) (py "e2e4") Hin).
Defined.

(** C2, as stated, fails.  The session has accepted e2e4 e7e5 g1f3; the
    next record carries the list d2d4, which does not extend it.  The
    history becomes d2d4, one move instead of three, and nothing is
    logged. *)
Lemma shorter_list_replaces_history :
  notation (ChessBoardWidget.move_history (chess_board after_three_moves))
  = ["e2e4"; "e7e5"; "g1f3"]%string
  /\ notation
       (ChessBoardWidget.move_history
          (chess_board
             (final (_on_game_state (game_state "d2d4")) quiet
                after_three_moves)))
     = ["d2d4"%string]
  /\ count is_log
       (effects (_on_game_state (game_state "d2d4")) quiet after_three_moves)
     = 0%nat
  /\ outcome (_on_game_state (game_state "d2d4")) quiet after_three_moves
     = Return tt.
Proof. vm_compute. repeat split. Qed.

(** C2, amended, on the record with the list d2d4. *)
Lemma game_state_replaces_history_witness :
  (forall i s', chess_board (meanwhile quiet i s') = chess_board s')
  /\ Py.member (default (py "started") (state_status (game_state "d2d4")))
       abort_statuses = false
  /\ Spec.accepts new_board
       (Py.split (default [] (moves (game_state "d2d4"))))
       (ChessBoardWidget.move_history
          (chess_board
             (final (_on_game_state (game_state "d2d4")) quiet
                after_three_moves)))
  /\ (outcome (_on_game_state (game_state "d2d4")) quiet after_three_moves
      = Return tt
      \/ outcome (_on_game_state (game_state "d2d4")) quiet after_three_moves
         = Raise CancelledError)
  /\ forall previous earlier,
       Spec.accepts new_board (Py.split previous) earlier ->
       Py.split previous
         `prefix_of` Py.split (default [] (moves (game_state "d2d4"))) ->
       earlier `prefix_of`
         ChessBoardWidget.move_history
           (chess_board
              (final (_on_game_state (game_state "d2d4")) quiet
                 after_three_moves)).
Proof.
  assert (Hkeep : forall i s', chess_board (meanwhile quiet i s')
                               = chess_board s') by reflexivity.
  assert (Hstatus : Py.member
                      (default (py "started")
                         (state_status (game_state "d2d4")))
                      abort_statuses = false) by (vm_compute; reflexivity).
  split; [exact Hkeep|]. split; [exact Hstatus|].
  exact (game_state_replaces_history quiet after_three_moves
           (game_state "d2d4") Hkeep Hstatus).
Defined.

(** C4, as stated, fails.  The first connection fails and the loop sleeps
    1 second.  The reconnect succeeds and delivers three events before the
    stream ends; the loop then sleeps 2 seconds, not 1. *)
Lemma delay_after_events_is_doubled :
  respond reconnect_with_events nat 0 stream_events
  = Raises (Exception (py "Cannot connect to host"))
  /\ respond reconnect_with_events nat 2 stream_events = Returns 3%nat
  /\ sleeps (effects (_run_event_stream 2) reconnect_with_events
               (playing "white"))
     = [1; 2]%float.
Proof. vm_compute. repeat split. Qed.

(** The answers of a scenario to [stream_events] are those of its
    [events]. *)
Lemma stream_ends_or_fails (w : nat -> reply nat) (i : nat) :
  (forall n, w n <> Raises CancelledError) ->
  respond (environment None (fun _ => 0%float) w (fun _ s => s)) nat i
    stream_events <> Raises CancelledError.
Proof. intros Hw. exact (Hw i). Qed.

(** C4, amended, on the two turns of the reconnect that delivers
    events. *)
Lemma reconnect_delay_never_reset_witness :
  is_running (playing "white") = true
  /\ sleeps (effects (_run_event_stream 2) reconnect_with_events
               (playing "white")) !! 0%nat = Some 1%float
  /\ sleeps (effects (_run_event_stream 2) reconnect_with_events
               (playing "white")) !! 1%nat = Some 2%float
  /\ 2%float = py_min (1 * 2)%float 30%float.
Proof.
  split; [reflexivity|]. split; [vm_compute; reflexivity|].
  split; [vm_compute; reflexivity|].
  apply (reconnect_delay_never_reset reconnect_with_events (playing "white")
           2 0 1%float 2%float).
  - reflexivity.
  - intros i s' Hs'. exact Hs'.
  - intros i. apply stream_ends_or_fails.
    intros [|n]; discriminate.
  - intros i d. reflexivity.
  - vm_compute. reflexivity.
  - vm_compute. reflexivity.
Defined.

(** C9 on the chunk [garbled]: the generator raises when the read returns
    and the empty object of the second line is never yielded. *)
Lemma undecodable_line_raises_witness :
  LichessClient.split_lines [] garbled
  = ([] ++ [xff] :: [Py.bytes_of_string "{}"], [])
  /\ Ndjson.is_text [xff] = false
  /\ Ndjson.record_of json_loads (Py.bytes_of_string "{}") = Some (py "{}")
  /\ LichessClient.how
       (LichessClient._stream_ndjson json_loads false None
          {| LichessClient.status := 200; LichessClient.opened_at := 0;
             LichessClient.reads := [garbled_read] |})
     = LichessClient.Raised UnicodeDecodeError
  /\ LichessClient.at_time
       (LichessClient._stream_ndjson json_loads false None
          {| LichessClient.status := 200; LichessClient.opened_at := 0;
             LichessClient.reads := [garbled_read] |})
     = 1%float
  /\ LichessClient.records
       (LichessClient._stream_ndjson json_loads false None
          {| LichessClient.status := 200; LichessClient.opened_at := 0;
             LichessClient.reads := [garbled_read] |})
     = [].
Proof.
  assert (Hsplit : LichessClient.split_lines [] garbled
                   = ([] ++ [xff] :: [Py.bytes_of_string "{}"], []))
    by (vm_compute; reflexivity).
  assert (Hline : Ndjson.is_text [xff] = false) by (vm_compute; reflexivity).
  split; [exact Hsplit|]. split; [exact Hline|].
  split; [vm_compute; reflexivity|].
  exact (undecodable_line_raises json_loads false 0%float garbled_read []
           garbled [] [xff] [] [Py.bytes_of_string "{}"]
           eq_refl Hsplit eq_refl Hline).
Defined.


(** With a keep-alive every 20 seconds the same request is seen at time 20,
    when the first keep-alive has been read: the latency is that of the
    remote's keep-alive interval. *)
Example stop_seen_at_the_next_keep_alive :
  LichessClient._stream_ndjson json_loads false (Some 1%float) keep_alive
  = {| LichessClient.outputs := []; LichessClient.how := LichessClient.Stopped;
       LichessClient.at_time := 20 |}.
Proof. vm_compute. reflexivity. Qed.

(** C8 on eight failures in a row. *)
Lemma reconnect_delays_witness :
  is_running (playing "white") = true
  /\ sleeps (effects (_run_event_stream 8) always_failing (playing "white"))
     = backoff <$> seq 0 8
  /\ backoff <$> seq 0 8 = [1; 2; 4; 8; 16; 30; 30; 30]%float.
Proof.
  split; [reflexivity|].
  apply (reconnect_delays always_failing (playing "white") 8).
  - reflexivity.
  - intros i s' Hs'. exact Hs'.
  - intros i. apply stream_ends_or_fails. intros n. discriminate.
  - intros i d. reflexivity.
Defined.

End Scenarios.

(** * Properties of the rest of the code *)

(** ** The container of the board *)

Section ContainerFacts.
Import AspectRatioContainer.

(** X1 ([AspectRatioContainer.resizeEvent], chess_board.py 64-75).  In a
    container of any size the board is given a square that lies inside the
    container, that is as large as the container allows, and that is centred:
    the margins on the two sides of it differ by at most one pixel. *)
Theorem board_is_a_centred_square (w h : Z) :
  0 <= w -> 0 <= h ->
  let g := resizeEvent w h in
  width g = height g
  /\ width g = Z.min w h
  /\ 0 <= x g /\ x g + width g <= w
  /\ 0 <= y g /\ y g + height g <= h
  /\ 0 <= (w - (x g + width g)) - x g <= 1
  /\ 0 <= (h - (y g + height g)) - y g <= 1.
Proof.
  intros Hw Hh. unfold resizeEvent. cbn [x y width height].
  assert (Hx := Z.div_mod (w - Z.min w h) 2 ltac:(lia)).
  assert (Hy := Z.div_mod (h - Z.min w h) 2 ltac:(lia)).
  assert (Hmx := Z.mod_pos_bound (w - Z.min w h) 2 ltac:(lia)).
  assert (Hmy := Z.mod_pos_bound (h - Z.min w h) 2 ltac:(lia)).
  lia.
Qed.

End ContainerFacts.

Lemma board_is_a_centred_square_witness :
  0 <= 800 /\ 0 <= 600
  /\ AspectRatioContainer.x (AspectRatioContainer.resizeEvent 800 600) = 100
  /\ AspectRatioContainer.y (AspectRatioContainer.resizeEvent 800 600) = 0
  /\ AspectRatioContainer.width (AspectRatioContainer.resizeEvent 800 600)
     = AspectRatioContainer.height (AspectRatioContainer.resizeEvent 800 600).
Proof.
  split; [lia|]. split; [lia|]. split; [reflexivity|]. split; [reflexivity|].
  exact (proj1 (board_is_a_centred_square 800 600 ltac:(lia) ltac:(lia))).
Defined.

(** ** The drawing of the board *)

Section DisplayFacts.
Context `{ChessPieces}.
Import ChessBoardDisplay Drawing.

Lemma key_eqb_true (l h : bool) k :
  SquareWidget.key_eqb (l, h) k = true <-> k = Some (l, h).
Proof.
  unfold SquareWidget.key_eqb. destruct k as [[l' h']|]; cbn.
  - rewrite andb_true_iff. split.
    + intros [Hl Hh]. apply Bool.eqb_prop in Hl, Hh. congruence.
    + intros [= -> ->]. now rewrite !Bool.eqb_reflx.
  - split; discriminate.
Qed.

Lemma set_highlighted_spec (b : bool) (sq : SquareWidget.t) :
  well_drawn_square sq ->
  let sq' := SquareWidget.set_highlighted b sq in
  well_drawn_square sq'
  /\ key sq' = key sq
  /\ SquareWidget.is_highlighted sq' = b
  /\ SquareWidget.piece sq' = SquareWidget.piece sq.
Proof.
  intros (Hlight & Hkey & Hcolour). unfold SquareWidget.set_highlighted.
  destruct (Bool.eqb b (SquareWidget.is_highlighted sq)) eqn:Hsame; cbn zeta.
  - apply Bool.eqb_prop in Hsame. subst b. repeat split; assumption.
  - unfold SquareWidget._update_style.
    cbn [SquareWidget.is_light SquareWidget.is_highlighted
         SquareWidget._last_style_key].
    destruct (SquareWidget.key_eqb _ _) eqn:Hk.
    + apply key_eqb_true in Hk. rewrite Hkey in Hk.
      injection Hk as Hk. rewrite <- Hk in Hsame.
      now rewrite Bool.eqb_reflx in Hsame.
    + unfold well_drawn_square, key; cbn. repeat split; try assumption.
      destruct (SquareWidget.is_light sq), b; reflexivity.
Qed.

Lemma set_piece_spec (p : option Py.str) (sq : SquareWidget.t) :
  let sq' := SquareWidget.set_piece p sq in
  SquareWidget.piece sq' = p
  /\ key sq' = key sq
  /\ SquareWidget.is_highlighted sq' = SquareWidget.is_highlighted sq
  /\ SquareWidget.is_light sq' = SquareWidget.is_light sq
  /\ SquareWidget._last_style_key sq' = SquareWidget._last_style_key sq
  /\ SquareWidget.background_color sq' = SquareWidget.background_color sq.
Proof.
  unfold SquareWidget.set_piece.
  destruct p as [a|], (SquareWidget.piece sq) as [b|] eqn:Hp; cbn zeta;
    try (repeat split; [idtac]; fail); try (repeat split; congruence).
  destruct (Py.eqb a b) eqn:Hab; [|repeat split].
  apply eqb_eq in Hab. subst. repeat split; assumption.
Qed.


Lemma well_drawn_setup : well_drawn _setup_ui.
Proof.
  unfold well_drawn. split; [reflexivity|]. split; [|split; reflexivity].
  unfold _setup_ui; cbn [squares flat_map map range8 app].
  repeat constructor.
Qed.

Lemma in_grid (r c : Z) : 0 <= r <= 7 -> 0 <= c <= 7 -> In (r, c) grid.
Proof.
  intros Hr Hc. unfold grid. apply in_flat_map. exists r. split.
  - unfold range8. cbn. lia.
  - apply in_map. unfold range8. cbn. lia.
Qed.

Lemma cell_in_grid (flipped : bool) (s : Z) :
  0 <= s <= 63 -> In (cell flipped s) grid.
Proof.
  intros Hs. unfold cell, StandardChess.square_rank, StandardChess.square_file.
  destruct flipped; apply in_grid; Z.div_mod_to_equations; lia.
Qed.

(** The cell that the code computes for a square of the last move is the
    cell at which that square is drawn, and no other. *)
Lemma same_cell (flipped : bool) (s sq : Z) :
  (let row := 7 - StandardChess.square_rank sq in
   let col := StandardChess.square_file sq in
   let key := if flipped then (7 - row, 7 - col) else (row, col) in
   (fst (cell flipped s) =? fst key) && (snd (cell flipped s) =? snd key))
  = (s =? sq).
Proof.
  unfold cell, StandardChess.square_rank, StandardChess.square_file.
  apply Bool.eq_iff_eq_true.
  destruct flipped; cbn [fst snd]; rewrite andb_true_iff, !Z.eqb_eq;
    Z.div_mod_to_equations; lia.
Qed.

(** The square that the code computes for a cell is the square drawn
    there. *)
Lemma square_of_cell (flipped : bool) (s : Z) :
  (let row := fst (cell flipped s) in
   let col := snd (cell flipped s) in
   let chess_row := if flipped then row else 7 - row in
   let chess_col := if flipped then 7 - col else col in
   StandardChess.square chess_col chess_row) = s.
Proof.
  unfold cell, StandardChess.square_rank, StandardChess.square_file,
    StandardChess.square.
  destruct flipped; cbn [fst snd]; Z.div_mod_to_equations; lia.
Qed.

Lemma highlight_at (k : Z * Z) (sq : SquareWidget.t) :
  well_drawn_square sq ->
  let sq' := if (SquareWidget.row sq =? fst k) && (SquareWidget.col sq =? snd k)
             then SquareWidget.set_highlighted true sq else sq in
  well_drawn_square sq'
  /\ key sq' = key sq
  /\ SquareWidget.is_highlighted sq'
     = ((fst (key sq) =? fst k) && (snd (key sq) =? snd k)
        || SquareWidget.is_highlighted sq)
  /\ SquareWidget.piece sq' = SquareWidget.piece sq.
Proof.
  intros Hsq. cbn [key fst snd].
  destruct ((SquareWidget.row sq =? fst k) && (SquareWidget.col sq =? snd k)).
  - destruct (set_highlighted_spec true sq Hsq) as (? & ? & ? & ?).
    split; [assumption|]. split; [assumption|]. split; assumption.
  - split; [assumption|]. split; [reflexivity|]. split; reflexivity.
Qed.

(** What the three steps of [_update_board] do to one square widget. *)
Lemma redrawn_square (w : ChessBoardWidget.t) (k1 k2 : Z * Z)
    (p : Z * Z -> option Py.str) (sq : SquareWidget.t) :
  well_drawn_square sq ->
  let step (k : Z * Z) sq :=
    if (SquareWidget.row sq =? fst k) && (SquareWidget.col sq =? snd k)
    then SquareWidget.set_highlighted true sq else sq in
  let sq' :=
    SquareWidget.set_piece
      (p (SquareWidget.row (step k2 (step k1 (SquareWidget.set_highlighted false sq))),
          SquareWidget.col (step k2 (step k1 (SquareWidget.set_highlighted false sq)))))
      (step k2 (step k1 (SquareWidget.set_highlighted false sq))) in
  well_drawn_square sq'
  /\ key sq' = key sq
  /\ SquareWidget.piece sq' = p (key sq)
  /\ SquareWidget.is_highlighted sq'
     = ((fst (key sq) =? fst k1) && (snd (key sq) =? snd k1)
        || (fst (key sq) =? fst k2) && (snd (key sq) =? snd k2)).
Proof.
  intros Hsq step.
  destruct (set_highlighted_spec false sq Hsq) as (W0 & K0 & L0 & P0).
  destruct (highlight_at k1 _ W0) as (W1 & K1 & L1 & P1).
  fold (step k1 (SquareWidget.set_highlighted false sq)) in W1, K1, L1, P1.
  destruct (highlight_at k2 _ W1) as (W2 & K2 & L2 & P2).
  fold (step k2 (step k1 (SquareWidget.set_highlighted false sq)))
    in W2, K2, L2, P2.
  set (sq2 := step k2 (step k1 (SquareWidget.set_highlighted false sq))) in *.
  cbn zeta.
  destruct (set_piece_spec (p (SquareWidget.row sq2, SquareWidget.col sq2)) sq2)
    as (Pp & Kp & Lp & Ip & Sp & Bp).
  assert (Hkey : key sq2 = key sq) by congruence.
  split; [|split; [|split]].
  - destruct W2 as (A & B & C). unfold well_drawn_square.
    unfold key in Kp. injection Kp as Hr Hc.
    rewrite Ip, Lp, Sp, Bp, Hr, Hc. repeat split; assumption.
  - congruence.
  - rewrite Pp. fold (key sq2). now rewrite Hkey.
  - rewrite Lp, L2, L1, L0, K1, K0.
    rewrite Bool.orb_false_r. apply Bool.orb_comm.
Qed.


Lemma redrawn_plain (p : Z * Z -> option Py.str) (sq : SquareWidget.t) :
  well_drawn_square sq ->
  let sq' :=
    SquareWidget.set_piece
      (p (SquareWidget.row (SquareWidget.set_highlighted false sq),
          SquareWidget.col (SquareWidget.set_highlighted false sq)))
      (SquareWidget.set_highlighted false sq) in
  well_drawn_square sq'
  /\ key sq' = key sq
  /\ SquareWidget.piece sq' = p (key sq)
  /\ SquareWidget.is_highlighted sq' = false.
Proof.
  intros Hsq.
  destruct (set_highlighted_spec false sq Hsq) as (W0 & K0 & L0 & P0).
  set (sq0 := SquareWidget.set_highlighted false sq) in *. cbn zeta.
  destruct (set_piece_spec (p (SquareWidget.row sq0, SquareWidget.col sq0)) sq0)
    as (Pp & Kp & Lp & Ip & Sp & Bp).
  split; [|split; [|split]].
  - destruct W0 as (A & B & C). unfold well_drawn_square.
    unfold key in Kp. injection Kp as Hr Hc.
    rewrite Ip, Lp, Sp, Bp, Hr, Hc. repeat split; assumption.
  - congruence.
  - rewrite Pp. fold (key sq0). now rewrite K0.
  - congruence.
Qed.

(** One [_update_board]: the display stays well drawn, and every square
    widget shows the piece on its square and the highlight of its key. *)
Lemma update_board_spec (w : ChessBoardWidget.t) (d : t) :
  well_drawn d ->
  well_drawn (_update_board w d)
  /\ Forall (fun sq =>
       SquareWidget.piece sq
       = piece_symbol_at (ChessBoardWidget.board w)
           (square_at (ChessBoardWidget.flipped w) (key sq))
       /\ forall s, key sq = cell (ChessBoardWidget.flipped w) s ->
                    SquareWidget.is_highlighted sq = marked w s)
       (squares (_update_board w d)).
Proof.
  intros (Hkeys & Hsquares & Hfiles & Hranks).
  assert (Hshape :
    exists f,
      squares (_update_board w d) = map f (squares d)
      /\ forall sq, well_drawn_square sq ->
           well_drawn_square (f sq) /\ key (f sq) = key sq
           /\ SquareWidget.piece (f sq)
              = piece_symbol_at (ChessBoardWidget.board w)
                  (square_at (ChessBoardWidget.flipped w) (key sq))
           /\ forall s, key sq = cell (ChessBoardWidget.flipped w) s ->
                        SquareWidget.is_highlighted (f sq) = marked w s).
  { unfold _update_board, marked, at_key. cbn [squares].
    destruct (ChessBoardWidget.last_move w) as [m|];
      [destruct (move_truthy m)|].
    - destruct (ChessBoardWidget.flipped w) eqn:Hflipped;
        rewrite !map_map; eexists; (split; [reflexivity|]);
        intros sq Hsq.
      + pose proof (redrawn_square w
                      (7 - (7 - StandardChess.square_rank (move_from_square m)),
                       7 - StandardChess.square_file (move_from_square m))
                      (7 - (7 - StandardChess.square_rank (move_to_square m)),
                       7 - StandardChess.square_file (move_to_square m))
                      (fun k => piece_symbol_at (ChessBoardWidget.board w)
                                  (square_at true k))
                      sq Hsq) as (W & K & P & L).
        split; [exact W|]. split; [exact K|]. split; [exact P|].
        intros s Hs. etransitivity; [exact L|]. rewrite Hs.
        pose proof (same_cell true s (move_from_square m)) as Hfrom.
        pose proof (same_cell true s (move_to_square m)) as Hto.
        cbn zeta in Hfrom, Hto. cbn [fst snd] in Hfrom, Hto |- *.
        rewrite Hfrom, Hto. reflexivity.
      + pose proof (redrawn_square w
                      (7 - StandardChess.square_rank (move_from_square m),
                       StandardChess.square_file (move_from_square m))
                      (7 - StandardChess.square_rank (move_to_square m),
                       StandardChess.square_file (move_to_square m))
                      (fun k => piece_symbol_at (ChessBoardWidget.board w)
                                  (square_at false k))
                      sq Hsq) as (W & K & P & L).
        split; [exact W|]. split; [exact K|]. split; [exact P|].
        intros s Hs. etransitivity; [exact L|]. rewrite Hs.
        pose proof (same_cell false s (move_from_square m)) as Hfrom.
        pose proof (same_cell false s (move_to_square m)) as Hto.
        cbn zeta in Hfrom, Hto. cbn [fst snd] in Hfrom, Hto |- *.
        rewrite Hfrom, Hto. reflexivity.
    - rewrite !map_map. eexists. split; [reflexivity|]. intros sq Hsq.
      pose proof (redrawn_plain
                    (fun k => piece_symbol_at (ChessBoardWidget.board w)
                                (square_at (ChessBoardWidget.flipped w) k))
                    sq Hsq) as (W & K & P & L).
      split; [exact W|]. split; [exact K|]. split; [exact P|].
      intros s _. exact L.
    - rewrite !map_map. eexists. split; [reflexivity|]. intros sq Hsq.
      pose proof (redrawn_plain
                    (fun k => piece_symbol_at (ChessBoardWidget.board w)
                                (square_at (ChessBoardWidget.flipped w) k))
                    sq Hsq) as (W & K & P & L).
      split; [exact W|]. split; [exact K|]. split; [exact P|].
      intros s _. exact L. }
  destruct Hshape as (f & Heq & Hf).
  split.
  - unfold well_drawn. rewrite Heq. split; [|split; [|split]].
    + rewrite <- Hkeys, map_map. apply map_ext_in. intros sq Hin.
      apply (Hf sq (proj1 (List.Forall_forall _ _) Hsquares sq Hin)).
    + rewrite List.Forall_map. eapply List.Forall_impl; [|exact Hsquares].
      intros sq Hsq. apply (Hf sq Hsq).
    + unfold _update_board. cbn [file_labels]. now rewrite length_imap.
    + unfold _update_board. cbn [rank_labels]. now rewrite length_imap.
  - rewrite Heq, List.Forall_map. eapply List.Forall_impl; [|exact Hsquares].
    intros sq Hsq. destruct (Hf sq Hsq) as (W & K & P & L).
    cbn beta. rewrite K. split; [exact P|]. exact L.
Qed.


Lemma well_drawn_fold (earlier : list ChessBoardWidget.t) : forall d,
  well_drawn d ->
  well_drawn (fold_left (fun d w => _update_board w d) earlier d).
Proof.
  induction earlier as [|w rest IH]; intros d Hd; [exact Hd|].
  cbn [fold_left]. apply IH. now apply update_board_spec.
Qed.

Lemma widget_at_cell (d : t) (k : Z * Z) :
  map key (squares d) = grid -> In k grid ->
  exists sq, In sq (squares d) /\ key sq = k.
Proof.
  intros Hkeys Hk. rewrite <- Hkeys in Hk. apply in_map_iff in Hk.
  destruct Hk as (sq & Hsq & Hin). now exists sq.
Qed.

Lemma drawn_square (earlier : list ChessBoardWidget.t)
    (w : ChessBoardWidget.t) (s : Z) :
  0 <= s <= 63 ->
  map key (squares (drawn earlier w)) = grid
  /\ exists sq,
       In sq (squares (drawn earlier w))
       /\ key sq = cell (ChessBoardWidget.flipped w) s
       /\ well_drawn_square sq
       /\ SquareWidget.piece sq = piece_symbol_at (ChessBoardWidget.board w) s
       /\ SquareWidget.is_highlighted sq = marked w s.
Proof.
  intros Hs. unfold drawn.
  pose proof (well_drawn_fold earlier _ well_drawn_setup) as Hd.
  destruct (update_board_spec w _ Hd) as ((Hkeys & Hsquares & _) & Hall).
  split; [exact Hkeys|].
  destruct (widget_at_cell _ _ Hkeys
              (cell_in_grid (ChessBoardWidget.flipped w) s Hs))
    as (sq & Hin & Hkey).
  exists sq. split; [exact Hin|]. split; [exact Hkey|].
  split; [exact (proj1 (List.Forall_forall _ _) Hsquares sq Hin)|].
  destruct (proj1 (List.Forall_forall _ _) Hall sq Hin) as (Hpiece & Hlit).
  split; [|now apply Hlit].
  rewrite Hpiece, Hkey. f_equal.
  apply (square_of_cell (ChessBoardWidget.flipped w) s).
Qed.

(** X2 ([ChessBoardWidget._update_board], chess_board.py 236-296, with
    [SquareWidget.set_piece] and [set_highlighted]).  However often the
    board has been drawn before, and in both orientations, there are 64
    square widgets, one for each key, and for every square [s] of the chess
    board the widget at the cell where [s] is drawn shows the piece that
    stands on [s] and is highlighted exactly when [s] is the origin or the
    target of the last move. *)
Theorem every_square_is_drawn_in_its_cell
    (earlier : list ChessBoardWidget.t) (w : ChessBoardWidget.t) (s : Z) :
  0 <= s <= 63 ->
  map key (squares (drawn earlier w)) = grid
  /\ exists sq,
       In sq (squares (drawn earlier w))
       /\ key sq = cell (ChessBoardWidget.flipped w) s
       /\ SquareWidget.piece sq = piece_symbol_at (ChessBoardWidget.board w) s
       /\ SquareWidget.is_highlighted sq = marked w s.
Proof.
  intros Hs.
  destruct (drawn_square earlier w s Hs)
    as (Hkeys & sq & Hin & Hkey & _ & Hpiece & Hlit).
  split; [exact Hkeys|]. exists sq. repeat split; assumption.
Qed.

Lemma light_cell (flipped : bool) (s : Z) :
  0 <= s <= 63 ->
  ((fst (cell flipped s) + snd (cell flipped s)) mod 2 =? 0) = light s.
Proof.
  intros Hs. unfold cell, light, StandardChess.square_rank,
    StandardChess.square_file.
  rewrite <- Z.negb_even, Z.even_add.
  assert (Hr : 0 <= s / 8 <= 7) by (Z.div_mod_to_equations; lia).
  assert (Hf : 0 <= s mod 8 <= 7) by (Z.div_mod_to_equations; lia).
  generalize dependent (s / 8). generalize dependent (s mod 8).
  intros f Hf r Hr.
  assert (Hcases : forall n, 0 <= n <= 7 ->
            n = 0 \/ n = 1 \/ n = 2 \/ n = 3 \/ n = 4 \/ n = 5 \/ n = 6 \/ n = 7)
    by (intros; lia).
  destruct (Hcases f Hf) as [->|[->|[->|[->|[->|[->|[->| ->]]]]]]];
    destruct (Hcases r Hr) as [->|[->|[->|[->|[->|[->|[->| ->]]]]]]];
    destruct flipped; reflexivity.
Qed.

Lemma label_lookup (f : nat -> Py.str) (labels : list Py.str) (i : Z) :
  length labels = 8%nat -> 0 <= i <= 7 ->
  imap (fun n _ => f n) labels !! Z.to_nat i = Some (f (Z.to_nat i)).
Proof.
  intros Hlen Hi. rewrite list_lookup_imap.
  destruct (labels !! Z.to_nat i) as [label|] eqn:Hlabel; [reflexivity|].
  apply lookup_ge_None in Hlabel. lia.
Qed.

(** X3 ([SquareWidget.__init__] and [_update_style], chess_board.py 81-125;
    the labels of [_update_board], 282-294).  In both orientations every
    square of the chess board is drawn in its own colour, light for b1, d1,
    a2 and so on, dark for a1, and blended with yellow exactly when it is a
    square of the last move; the label under its column is the letter of
    its file and the label beside its row is the number of its rank. *)
Theorem colours_and_labels_follow_the_squares
    (earlier : list ChessBoardWidget.t) (w : ChessBoardWidget.t) (s : Z) :
  0 <= s <= 63 ->
  exists sq,
    In sq (squares (drawn earlier w))
    /\ key sq = cell (ChessBoardWidget.flipped w) s
    /\ SquareWidget.is_light sq = light s
    /\ SquareWidget.background_color sq = Some (colour (light s) (marked w s))
    /\ file_labels (drawn earlier w) !! Z.to_nat (SquareWidget.col sq)
       = Some (chr (97 + StandardChess.square_file s))
    /\ rank_labels (drawn earlier w) !! Z.to_nat (SquareWidget.row sq)
       = Some (PyText.str_int (StandardChess.square_rank s + 1)).
Proof.
  intros Hs.
  destruct (drawn_square earlier w s Hs)
    as (_ & sq & Hin & Hkey & (Hlight & _ & Hcolour) & _ & Hlit).
  exists sq. split; [exact Hin|]. split; [exact Hkey|].
  unfold drawn in *.
  pose proof (well_drawn_fold earlier _ well_drawn_setup) as Hd.
  assert (Hl : SquareWidget.is_light sq = light s).
  { rewrite Hlight. unfold key in Hkey.
    change (SquareWidget.row sq) with (fst (SquareWidget.row sq, SquareWidget.col sq)).
    change (SquareWidget.col sq) with (snd (SquareWidget.row sq, SquareWidget.col sq)) at 2.
    rewrite Hkey. now apply light_cell. }
  split; [exact Hl|]. split; [now rewrite Hcolour, Hl, Hlit|].
  destruct Hd as (_ & _ & Hfiles & Hranks).
  unfold key, cell, StandardChess.square_rank, StandardChess.square_file
    in Hkey |- *.
  assert (Hr : 0 <= s / 8 <= 7) by (Z.div_mod_to_equations; lia).
  assert (Hf : 0 <= s mod 8 <= 7) by (Z.div_mod_to_equations; lia).
  unfold _update_board. cbn [file_labels rank_labels].
  destruct (ChessBoardWidget.flipped w); injection Hkey as -> ->.
  - rewrite (label_lookup (fun n => chr (104 - Z.of_nat n))),
      (label_lookup (fun n => PyText.str_int (Z.of_nat n + 1)));
      try assumption; try lia.
    rewrite !Z2Nat.id by lia. split; do 2 f_equal; lia.
  - rewrite (label_lookup (fun n => chr (97 + Z.of_nat n))),
      (label_lookup (fun n => PyText.str_int (8 - Z.of_nat n)));
      try assumption; try lia.
    rewrite !Z2Nat.id by lia. split; do 2 f_equal; lia.
Qed.

End DisplayFacts.

(** ** The navigation of the board *)

Section NavigationFacts.
Context `{ChessRules}.
Import ChessBoardWidget ChessBoardNavigation.

Lemma rebuild_loop_last ply moves : forall i b lm,
  snd (rebuild_loop ply i moves b lm)
  = if ((i <? ply) && (ply <=? i + length moves))%nat
    then moves !! (ply - 1 - i)%nat else lm.
Proof.
  induction moves as [|m rest IH]; intros i b lm; cbn [rebuild_loop length].
  - destruct (i <? ply)%nat eqn:Hlt; [|reflexivity].
    destruct (ply <=? i + 0)%nat eqn:Hle; [|reflexivity].
    apply Nat.ltb_lt in Hlt. apply Nat.leb_le in Hle. lia.
  - rewrite IH.
    destruct (Z.of_nat i =? Z.of_nat ply - 1) eqn:Hhere.
    + apply Z.eqb_eq in Hhere.
      replace (S i <? ply)%nat with false by (symmetry; apply Nat.ltb_ge; lia).
      replace (i <? ply)%nat with true by (symmetry; apply Nat.ltb_lt; lia).
      replace (ply <=? i + S (length rest))%nat with true
        by (symmetry; apply Nat.leb_le; lia).
      cbn [andb]. replace (ply - 1 - i)%nat with 0%nat by lia. reflexivity.
    + apply Z.eqb_neq in Hhere.
      destruct (S i <? ply)%nat eqn:Hlt.
      * apply Nat.ltb_lt in Hlt.
        replace (i <? ply)%nat with true by (symmetry; apply Nat.ltb_lt; lia).
        replace (S i + length rest)%nat with (i + S (length rest))%nat by lia.
        cbn [andb]. destruct (ply <=? i + S (length rest))%nat; [|reflexivity].
        replace (ply - 1 - i)%nat with (S (ply - 1 - S i)) by lia. reflexivity.
      * apply Nat.ltb_ge in Hlt. cbn [andb].
        destruct (i <? ply)%nat eqn:Hlt'; [|reflexivity].
        apply Nat.ltb_lt in Hlt'. lia.
Qed.

(** What [_rebuild_board_at_ply] leaves: the replay of the first [ply] moves
    of the history, and the move number [ply] as the last move. *)
Lemma rebuild_at_ply ply w :
  _rebuild_board_at_ply ply w =
  {| board := fold_left push (firstn ply (move_history w)) new_board;
     flipped := flipped w;
     last_move := move_shown (move_history w) ply;
     move_history := move_history w; current_ply := current_ply w;
     is_viewing_live := is_viewing_live w |}.
Proof.
  rewrite rebuild_board_fields, rebuild_loop_board, rebuild_loop_last.
  f_equal. unfold move_shown. rewrite length_firstn.
  destruct ply as [|k]; [reflexivity|].
  change (0 <? S k)%nat with true. cbn [andb].
  replace (S k - 1 - 0)%nat with k by lia.
  destruct (S k <=? 0 + Nat.min (S k) (length (move_history w)))%nat eqn:Hle.
  - apply Nat.leb_le in Hle. apply lookup_take_lt. lia.
  - apply Nat.leb_gt in Hle. symmetry. apply lookup_ge_None. lia.
Qed.


Lemma set_position_fields moves_uci w :
  set_position_from_moves moves_uci w =
  let ply := if is_viewing_live w then length (Spec.accepted moves_uci)
             else current_ply w in
  {| board := fold_left push (firstn ply (Spec.accepted moves_uci)) new_board;
     flipped := flipped w;
     last_move := move_shown (Spec.accepted moves_uci) ply;
     move_history := Spec.accepted moves_uci; current_ply := ply;
     is_viewing_live := is_viewing_live w |}.
Proof.
  unfold set_position_from_moves. rewrite rebuild_at_ply.
  cbn [board last_move move_history current_ply is_viewing_live flipped].
  fold (Spec.accepted moves_uci).
  replace (if Py.truthy moves_uci then Spec.accepted moves_uci else [])
    with (Spec.accepted moves_uci) by (destruct moves_uci; reflexivity).
  reflexivity.
Qed.

Lemma navigate_fields ply w :
  navigate_to_ply ply w =
  let ply := Z.to_nat (Z.max 0 (Z.min ply (Z.of_nat (length (move_history w))))) in
  {| board := fold_left push (firstn ply (move_history w)) new_board;
     flipped := flipped w;
     last_move := move_shown (move_history w) ply;
     move_history := move_history w; current_ply := ply;
     is_viewing_live := (ply =? length (move_history w))%nat |}.
Proof. unfold navigate_to_ply. now rewrite rebuild_at_ply. Qed.

(** What every call on the widget keeps. *)
Lemma perform_keeps_view (w : t) (c : call) :
  shows_its_history w -> shows_its_history (perform w c).
Proof.
  intros (Hboard & Hlast & Hlive). unfold shows_its_history, get_live_board.
  destruct c as [moves_uci|ply| | |f]; cbn [perform].
  - unfold set_position_from_moves. rewrite rebuild_at_ply.
    cbn [board last_move move_history current_ply is_viewing_live].
    split; [reflexivity|]. split; [reflexivity|].
    intros ->. now rewrite firstn_all.
  - unfold navigate_to_ply. rewrite rebuild_at_ply.
    cbn [board last_move move_history current_ply is_viewing_live].
    split; [reflexivity|]. split; [reflexivity|].
    intros Hply. apply Nat.eqb_eq in Hply. rewrite Hply.
    now rewrite firstn_all.
  - unfold jump_to_live. rewrite rebuild_at_ply.
    cbn [board last_move move_history current_ply is_viewing_live].
    rewrite firstn_all. repeat split.
  - cbn. repeat split.
  - cbn. repeat split; tauto.
Qed.

(** X4 ([set_position_from_moves], [_rebuild_board_at_ply],
    [navigate_to_ply], [jump_to_live], [reset], [set_flipped],
    chess_board.py 313-397).  Whatever the window calls on the board widget,
    and in whatever order, the widget displays its history: the board is the
    replay of the first [current_ply] moves of the history from the initial
    position, the move marked as the last one is the move number
    [current_ply] (none at ply 0), and while the live position is viewed the
    displayed ply is the last one and the board is the live board. *)
Theorem widget_shows_its_history (calls : list call) :
  shows_its_history (fold_left perform calls init).
Proof.
  assert (Hinit : shows_its_history init) by (repeat split).
  revert Hinit. generalize init as w.
  induction calls as [|c rest IH]; intros w Hw; [exact Hw|].
  cbn [fold_left]. apply IH. now apply perform_keeps_view.
Qed.

(** X5 ([navigate_to_ply] and [jump_to_live], chess_board.py 355-371).  A
    ply below 0 shows the start and a ply beyond the history shows the last
    position: the displayed ply is the requested one clamped to the history.
    The view is live exactly when the clamped request is the end of the
    history, and then the call is [jump_to_live]; the history is not
    touched, and asking twice changes nothing. *)
Theorem navigation_is_clamped (ply : Z) (w : t) :
  let last := Z.of_nat (length (move_history w)) in
  let w' := navigate_to_ply ply w in
  Z.of_nat (current_ply w') = Z.max 0 (Z.min ply last)
  /\ move_history w' = move_history w
  /\ is_viewing_live w' = (last <=? Z.max 0 ply)
  /\ navigate_to_ply ply w' = w'
  /\ (if last <=? Z.max 0 ply then w' = jump_to_live w
      else board w' = fold_left push
                        (firstn (Z.to_nat ply) (move_history w)) new_board).
Proof.
  cbn zeta. unfold navigate_to_ply, jump_to_live. rewrite !rebuild_at_ply.
  cbn [board last_move move_history current_ply is_viewing_live flipped].
  set (len := length (move_history w)).
  split; [lia|]. split; [reflexivity|].
  assert (Hlive : (Z.to_nat (Z.max 0 (Z.min ply (Z.of_nat len))) =? len)%nat
                  = (Z.of_nat len <=? Z.max 0 ply)).
  { apply Bool.eq_iff_eq_true. rewrite Nat.eqb_eq, Z.leb_le. lia. }
  split; [exact Hlive|]. split; [reflexivity|].
  destruct (Z.of_nat len <=? Z.max 0 ply) eqn:Hend.
  - apply Z.leb_le in Hend.
    replace (Z.to_nat (Z.max 0 (Z.min ply (Z.of_nat len)))) with len by lia.
    now rewrite Nat.eqb_refl.
  - apply Z.leb_gt in Hend. do 2 f_equal. lia.
Qed.

(** X6 ([set_position_from_moves] while an earlier ply is viewed,
    chess_board.py 336-341).  A user who looks at an earlier position of the
    game is not disturbed by the moves that arrive: when the new move list
    extends the previous one, the displayed board, the marked move and the
    displayed ply stay as they are and the view stays off live, while the
    live board follows the new list. *)
Theorem new_moves_do_not_move_the_viewer (w0 : t)
    (previous moves_uci : Py.str) (ply : Z) :
  Py.split previous `prefix_of` Py.split moves_uci ->
  0 <= ply < Z.of_nat (length (Spec.accepted previous)) ->
  let w := navigate_to_ply ply (set_position_from_moves previous w0) in
  let w' := set_position_from_moves moves_uci w in
  board w' = board w
  /\ last_move w' = last_move w
  /\ current_ply w' = current_ply w
  /\ is_viewing_live w' = false
  /\ get_live_board w' = Spec.replay moves_uci.
Proof.
  intros Hprefix Hply. cbn zeta.
  destruct (accepted_extension previous moves_uci Hprefix) as [more Hmore].
  unfold get_live_board.
  rewrite (set_position_fields moves_uci), navigate_fields,
    (set_position_fields previous).
  cbn [board last_move move_history current_ply is_viewing_live]. cbn zeta.
  rewrite accepted_replay.
  set (len := length (Spec.accepted previous)) in *.
  set (p := Z.to_nat (Z.max 0 (Z.min ply (Z.of_nat len)))).
  assert (Hp : (p < len)%nat) by lia.
  replace (p =? len)%nat with false by (symmetry; apply Nat.eqb_neq; lia).
  rewrite Hmore. split; [|split; [|repeat split]].
  - f_equal. apply take_app_le. fold len. lia.
  - unfold move_shown. destruct p as [|k]; [reflexivity|].
    apply lookup_app_l. fold len. lia.
Qed.

(** X7 ([set_position_from_moves] and [_rebuild_board_at_ply] on a history
    that has become shorter than the viewed ply, chess_board.py 336-351).
    When an earlier ply is viewed and a move list arrives of which fewer
    moves are accepted than that ply, the displayed ply is kept and now lies
    beyond the history: the widget shows the whole new game, marks no move
    as the last one, and still counts as not viewing live. *)
Theorem shorter_history_leaves_the_view_beyond_it (w : t) (moves_uci : Py.str) :
  is_viewing_live w = false ->
  (length (Spec.accepted moves_uci) < current_ply w)%nat ->
  let w' := set_position_from_moves moves_uci w in
  current_ply w' = current_ply w
  /\ (length (move_history w') < current_ply w')%nat
  /\ board w' = get_live_board w'
  /\ last_move w' = None
  /\ is_viewing_live w' = false.
Proof.
  intros Hlive Hshort. cbn zeta.
  unfold get_live_board. rewrite set_position_fields, Hlive.
  cbn [board last_move move_history current_ply is_viewing_live]. cbn zeta.
  split; [reflexivity|]. split; [exact Hshort|].
  split; [now rewrite firstn_all2 by lia|]. split; [|reflexivity].
  unfold move_shown. destruct (current_ply w) as [|k]; [lia|].
  apply lookup_ge_None. lia.
Qed.

End NavigationFacts.

(** ** The clocks *)

Section ClockFacts.
Import ClockWidget.

Lemma style_key_colours a0 t0 a t :
  Py.eqb (style_key a t) (style_key a0 t0) = true ->
  colours a0 t0 = colours a t.
Proof.
  unfold style_key, colours.
  destruct a, a0; cbn [negb];
    destruct (t <=? 30000) eqn:Ht, (t0 <=? 30000) eqn:Ht0;
    try (vm_compute; discriminate); intros _;
    try reflexivity;
    try apply Z.leb_le in Ht; try apply Z.leb_gt in Ht;
    try apply Z.leb_le in Ht0; try apply Z.leb_gt in Ht0.
  - replace (30000 <? t0) with false by (symmetry; apply Z.ltb_ge; lia).
    replace (30000 <? t) with false by (symmetry; apply Z.ltb_ge; lia).
    reflexivity.
  - replace (30000 <? t0) with true by (symmetry; apply Z.ltb_lt; lia).
    replace (30000 <? t) with true by (symmetry; apply Z.ltb_lt; lia).
    reflexivity.
Qed.

(** [_update_style] leaves the colours of the state, provided the colours
    it finds are those of the state it remembers. *)
Lemma update_style_spec (w : t) (a0 : bool) (t0 : Z) :
  _last_style_state w = style_key a0 t0 ->
  bg_color w = Some (fst (colours a0 t0)) ->
  text_color w = Some (snd (colours a0 t0)) ->
  let w' := _update_style false w in
  _last_style_state w' = _get_style_state w'
  /\ bg_color w' = Some (fst (colours (is_active w) (time_ms w)))
  /\ text_color w' = Some (snd (colours (is_active w) (time_ms w)))
  /\ time_ms w' = time_ms w /\ is_active w' = is_active w
  /\ is_ticking w' = is_ticking w /\ timer_running w' = timer_running w
  /\ time_label w' = time_label w.
Proof.
  intros Hkey Hbg Htext. unfold _update_style. cbn [negb andb].
  change (_get_style_state w) with (style_key (is_active w) (time_ms w)).
  destruct (Py.eqb _ _) eqn:Hsame.
  - rewrite Hkey in Hsame.
    rewrite <- (style_key_colours _ _ _ _ Hsame).
    apply eqb_eq in Hsame.
    change (_get_style_state w) with (style_key (is_active w) (time_ms w)).
    repeat split; congruence.
  - unfold colours. destruct (is_active w); cbn; repeat split.
Qed.

Lemma init_shows_its_state (top : bool) : shows_its_state (init top).
Proof. unfold shows_its_state. cbn. repeat split; try lia. now right. Qed.

Lemma perform_keeps_clock (w : t) (c : call) :
  shows_its_state w -> shows_its_state (perform w c).
Proof.
  intros (Htime & Hticking & Htimer & Hkey & Hbg & Htext & Hface).
  change (_get_style_state w) with (style_key (is_active w) (time_ms w)) in Hkey.
  destruct c as [time_ms'|active| |]; cbn [perform].
  - unfold set_time. destruct (Z.max 0 time_ms' =? time_ms w) eqn:Hsame.
    + repeat split; assumption.
    + destruct (update_style_spec
                  (_update_display (with_time (Z.max 0 time_ms') w))
                  (is_active w) (time_ms w) Hkey Hbg Htext)
        as (K & B & T & Ht & Ha & Hti & Htr & Hl).
      cbn [_update_display with_time time_ms is_active is_ticking
           timer_running time_label] in *.
      unfold shows_its_state. rewrite K, B, T, Ht, Ha, Hti, Htr, Hl.
      repeat split; try assumption; try lia. now left.
  - unfold set_active. destruct (Bool.eqb (is_active w) active) eqn:Hsame.
    + repeat split; assumption.
    + match goal with
      | |- shows_its_state (_update_style false ?w1) =>
          destruct (update_style_spec w1 (is_active w) (time_ms w) Hkey Hbg Htext)
            as (K & B & T & Ht & Ha & Hti & Htr & Hl)
      end.
      cbn [time_ms is_active is_ticking timer_running time_label] in *.
      unfold shows_its_state. rewrite K, B, T, Ht, Ha, Hti, Htr, Hl.
      rewrite Hticking, Htimer.
      destruct (is_active w), active; try discriminate Hsame;
        repeat split; assumption.
  - unfold _tick. destruct (is_active w && (0 <? time_ms w)) eqn:Hrun;
      cbn [fst]; [|repeat split; assumption].
    destruct (update_style_spec
                (_update_display (with_time (Z.max 0 (time_ms w - 100)) w))
                (is_active w) (time_ms w) Hkey Hbg Htext)
      as (K & B & T & Ht & Ha & Hti & Htr & Hl).
    cbn [_update_display with_time time_ms is_active is_ticking
         timer_running time_label] in *.
    unfold shows_its_state. rewrite K, B, T, Ht, Ha, Hti, Htr, Hl.
    repeat split; try assumption; try lia. now left.
  - unfold reset.
    match goal with
    | |- shows_its_state (_update_style false ?w1) =>
        destruct (update_style_spec w1 (is_active w) (time_ms w) Hkey Hbg Htext)
          as (K & B & T & Ht & Ha & Hti & Htr & Hl)
    end.
    cbn [time_ms is_active is_ticking timer_running time_label] in *.
    unfold shows_its_state. rewrite K, B, T, Ht, Ha, Hti, Htr, Hl.
    repeat split; try lia. now right.
Qed.

(** X8 ([ClockWidget], player_info_widget.py 47-165).  After any sequence
    of [set_time], [set_active], [reset] and timer ticks on a new clock: the
    time is not negative; the timer runs exactly while the clock is active;
    the colours are those of the state, although [_update_style] writes them
    only when its remembered state changes; and the face shows the time
    held, or the blank face while the time is 0. *)
Theorem clock_shows_its_state (top : bool) (calls : list call) :
  shows_its_state (fold_left perform calls (init top)).
Proof.
  generalize (init_shows_its_state top). generalize (init top) as w.
  induction calls as [|c rest IH]; intros w Hw; [exact Hw|].
  cbn [fold_left]. apply IH. now apply perform_keeps_clock.
Qed.

Lemma ticks_at_zero (n : nat) (w : t) :
  time_ms w = 0 -> ticks n w = (w, 0%nat).
Proof.
  intros Hzero. induction n as [|n IH]; [reflexivity|].
  cbn [ticks]. unfold _tick. rewrite Hzero.
  replace (0 <? 0) with false by reflexivity. rewrite Bool.andb_false_r.
  now rewrite IH.
Qed.

(** X9 ([ClockWidget._tick], player_info_widget.py 136-144).  An active
    clock with [t] milliseconds left counts down by 100 at every tick and
    stops at 0: after [n] ticks it holds [max(0, t - 100 n)], and
    [time_expired] has been emitted once if the time has run out, and not at
    all before; the ticks after that change nothing. *)
Theorem clock_counts_down_and_expires_once (n : nat) : forall (w : t),
  is_active w = true -> 0 < time_ms w ->
  time_ms (fst (ticks n w)) = Z.max 0 (time_ms w - 100 * Z.of_nat n)
  /\ snd (ticks n w)
     = (if time_ms w <=? 100 * Z.of_nat n then 1%nat else 0%nat)
  /\ is_active (fst (ticks n w)) = true.
Proof.
  induction n as [|n IH]; intros w Hactive Htime.
  - cbn [ticks fst snd]. split; [lia|]. split; [|exact Hactive].
    replace (time_ms w <=? 100 * Z.of_nat 0) with false
      by (symmetry; apply Z.leb_gt; lia).
    reflexivity.
  - cbn [ticks]. unfold _tick. rewrite Hactive.
    replace (0 <? time_ms w) with true by (symmetry; apply Z.ltb_lt; lia).
    cbn [andb].
    set (w1 := _update_style false
                 (_update_display (with_time (Z.max 0 (time_ms w - 100)) w))).
    assert (Hw1 : time_ms w1 = Z.max 0 (time_ms w - 100)
                  /\ is_active w1 = true).
    { subst w1. unfold _update_style. cbn [negb andb].
      destruct (Py.eqb _ _); [split; [reflexivity|exact Hactive]|].
      cbn [_update_display with_time is_active]. rewrite Hactive.
      split; reflexivity. }
    destruct Hw1 as [Ht1 Ha1].
    destruct (time_ms w1 =? 0) eqn:Hzero.
    + apply Z.eqb_eq in Hzero. rewrite (ticks_at_zero n w1 Hzero).
      cbn [fst snd]. split; [lia|]. split; [|exact Ha1].
      replace (time_ms w <=? 100 * Z.of_nat (S n)) with true
        by (symmetry; apply Z.leb_le; lia).
      reflexivity.
    + apply Z.eqb_neq in Hzero.
      destruct (IH w1 Ha1 ltac:(lia)) as (Ht & Hcount & Ha).
      destruct (ticks n w1) as [w2 count]. cbn [fst snd] in *.
      split; [lia|]. split; [|exact Ha].
      rewrite Hcount. cbn [Nat.add].
      destruct (time_ms w1 <=? 100 * Z.of_nat n) eqn:Hle;
        [apply Z.leb_le in Hle | apply Z.leb_gt in Hle].
      * replace (time_ms w <=? 100 * Z.of_nat (S n)) with true
          by (symmetry; apply Z.leb_le; lia).
        reflexivity.
      * replace (time_ms w <=? 100 * Z.of_nat (S n)) with false
          by (symmetry; apply Z.leb_gt; lia).
        reflexivity.
Qed.

End ClockFacts.

(** ** The captured pieces *)

Section CapturedFacts.
Context `{ChessPieces}.
Import CapturedPieces PlayerInfoWidget.

Lemma set_text (new old : Py.str) :
  (if negb (Py.eqb new old) then new else old) = new.
Proof.
  destruct (Py.eqb new old) eqn:Hsame; [|reflexivity].
  cbn. symmetry. now apply eqb_eq.
Qed.

Lemma set_text' (new old : Py.str) :
  (if negb (Py.eqb old new) then new else old) = new.
Proof.
  destruct (Py.eqb old new) eqn:Hsame; [|reflexivity].
  cbn. now apply eqb_eq.
Qed.

Lemma material_points (board : Board) (color : bool) :
  material (fun k => pieces board k color) = points board color.
Proof. unfold material, points. cbn. lia. Qed.

(** What [set_captured_pieces] writes. *)
Lemma set_captured_pieces_labels (captured : counts) (advantage : Z)
    (w : PlayerInfoWidget.t) :
  let w' := set_captured_pieces captured advantage w in
  is_white_pieces w' = is_white_pieces w
  /\ advantage_label w'
     = (if 0 <? advantage then py "+" ++ PyText.str_int advantage else [])
  /\ captured_label w'
     = concat
         (map (fun k =>
                 PyText.times
                   ((if is_white_pieces w then PIECE_SYMBOLS_BLACK
                     else PIECE_SYMBOLS_WHITE) k)
                   (Z.max 0 (default 0 (captured k))))
            [StandardChess.QUEEN; StandardChess.ROOK; StandardChess.BISHOP;
             StandardChess.KNIGHT; StandardChess.PAWN]).
Proof.
  unfold set_captured_pieces.
  cbn [is_white_pieces advantage_label captured_label].
  split; [reflexivity|]. split.
  - destruct (0 <? advantage); [apply set_text'|].
    destruct (Py.eqb (advantage_label w) []) eqn:Hempty; [|reflexivity].
    cbn. now apply eqb_eq.
  - rewrite set_text. cbn [flat_map map].
    assert (Hpart : forall s n,
              (if 0 <? n then [PyText.times s n] else [])
              = match Z.max 0 n with
                | 0 => []
                | _ => [PyText.times s (Z.max 0 n)]
                end).
    { intros s n. destruct (0 <? n) eqn:Hn.
      - apply Z.ltb_lt in Hn. rewrite Z.max_r by lia.
        destruct n; try lia. reflexivity.
      - apply Z.ltb_ge in Hn. now rewrite Z.max_l by lia. }
    rewrite !Hpart.
    assert (Hnil : forall s n,
              concat (match Z.max 0 n with
                      | 0 => []
                      | _ => [PyText.times s (Z.max 0 n)]
                      end)
              = PyText.times s (Z.max 0 n)).
    { intros s n. destruct (Z.max 0 n); cbn; try reflexivity;
        now rewrite app_nil_r. }
    rewrite !concat_app, !Hnil. cbn [concat]. now rewrite app_nil_r.
Qed.

Lemma captured_of_lost (remaining : StandardChess.piece_type -> Z)
    (k : StandardChess.piece_type) :
  In k counted ->
  Z.max 0 (default 0 (captured_of remaining k))
  = Z.max 0 (starting_counts k - remaining k).
Proof.
  intros Hk. unfold captured_of, counted. cbn [fold_left].
  cbn in Hk.
  destruct Hk as [<-|[<-|[<-|[<-|[<-|[]]]]]];
    cbn [starting_counts];
    repeat match goal with
           | |- context [if 0 <? ?n then _ else _] =>
               let Hn := fresh "Hn" in
               destruct (0 <? n) eqn:Hn;
               [apply Z.ltb_lt in Hn | apply Z.ltb_ge in Hn]
           end;
    cbn; lia.
Qed.


(** X10 ([MainWindow._update_captured_pieces], main_window.py 906-957, with
    [PlayerInfoWidget.set_player_color] and [set_captured_pieces],
    player_info_widget.py 306-340).  In both orientations of the board and
    whatever the panels showed before: the panel of the player with the
    white pieces shows, queen first, one black symbol for every black piece
    that is missing from the board, and the black player's panel the white
    ones; a side that has more pieces of a type than at the start is shown
    none of that type; and the difference of material, counted 1, 3, 3, 5
    and 9, is shown with a plus sign on the panel of the side that is
    ahead, and on neither panel when the material is equal. *)
Theorem material_is_shown_to_the_side_ahead (board : Board) (flipped : bool)
    (top bottom : PlayerInfoWidget.t) :
  let panels := _update_captured_pieces board flipped top bottom in
  let diff := points board true - points board false in
  let queen_first :=
    [StandardChess.QUEEN; StandardChess.ROOK; StandardChess.BISHOP;
     StandardChess.KNIGHT; StandardChess.PAWN] in
  advantage_label (white_panel flipped panels)
  = (if 0 <? diff then py "+" ++ PyText.str_int diff else [])
  /\ advantage_label (black_panel flipped panels)
     = (if diff <? 0 then py "+" ++ PyText.str_int (- diff) else [])
  /\ captured_label (white_panel flipped panels)
     = concat (map (fun k => PyText.times (PIECE_SYMBOLS_BLACK k)
                               (lost board false k)) queen_first)
  /\ captured_label (black_panel flipped panels)
     = concat (map (fun k => PyText.times (PIECE_SYMBOLS_WHITE k)
                               (lost board true k)) queen_first).
Proof.
  cbn zeta. unfold _update_captured_pieces, white_panel, black_panel.
  rewrite !material_points.
  set (diff := points board true - points board false).
  assert (Hwhite : forall n, (if 0 <? (if 0 <? n then n else 0)
                              then py "+" ++ PyText.str_int
                                               (if 0 <? n then n else 0)
                              else [])
                             = if 0 <? n then py "+" ++ PyText.str_int n
                               else []).
  { intros n. destruct (0 <? n) eqn:Hn; [now rewrite Hn|reflexivity]. }
  assert (Hblack : forall n, (if 0 <? (if n <? 0 then - n else 0)
                              then py "+" ++ PyText.str_int
                                               (if n <? 0 then - n else 0)
                              else [])
                             = if n <? 0 then py "+" ++ PyText.str_int (- n)
                               else []).
  { intros n. destruct (n <? 0) eqn:Hn; [|reflexivity].
    apply Z.ltb_lt in Hn.
    now replace (0 <? - n) with true by (symmetry; apply Z.ltb_lt; lia). }
  assert (Hlost : forall color k,
            In k [StandardChess.QUEEN; StandardChess.ROOK; StandardChess.BISHOP;
                  StandardChess.KNIGHT; StandardChess.PAWN] ->
            Z.max 0 (default 0 (captured_of (fun k => pieces board k color) k))
            = lost board color k).
  { intros color k Hk. apply captured_of_lost. cbn in Hk |- *. tauto. }
  destruct flipped; cbn [fst snd];
    repeat match goal with
           | |- context [set_captured_pieces ?c ?a ?w] =>
               let Hw := fresh "Hw" in
               let Ha := fresh "Ha" in
               let Hc := fresh "Hc" in
               destruct (set_captured_pieces_labels c a w) as (Hw & Ha & Hc);
               cbn zeta in Hw, Ha, Hc;
               cbn [set_player_color is_white_pieces] in Hc;
               rewrite ?Ha, ?Hc; clear Hw Ha Hc
           end;
    rewrite Hwhite, Hblack;
    (split; [reflexivity|]); (split; [reflexivity|]);
    split; f_equal; apply map_ext_in; intros k Hk; f_equal;
    now apply Hlost.
Qed.

End CapturedFacts.

(** ** The move list *)

Section MoveListFacts.
Context `{ChessRules}.
Variable san : Board -> Move -> Py.str.
Import MoveListWidget.

Lemma moves_eqb_eq (a b : list Py.str) : moves_eqb a b = true -> a = b.
Proof.
  revert b. induction a as [|x a IH]; intros [|y b]; cbn; try discriminate;
    [reflexivity|].
  intros Hxy. apply andb_true_iff in Hxy as [Hx Ha].
  apply eqb_eq in Hx. f_equal; [exact Hx|now apply IH].
Qed.

Lemma append_loop_names (rest : list Py.str) : forall i labels,
  map names (append_loop i rest labels)
  = map names labels ++ imap (fun k text => (text, i + Z.of_nat k + 1)) rest.
Proof.
  induction rest as [|move rest IH]; intros i labels; cbn [append_loop imap].
  - now rewrite app_nil_r.
  - rewrite IH, map_app, <- app_assoc. cbn. f_equal. f_equal.
    + unfold names; cbn. f_equal. lia.
    + apply imap_ext. intros k text _. cbn. f_equal. lia.
Qed.

Lemma append_loop_selected (p : MoveLabel.t -> Prop) (rest : list Py.str) :
  forall i labels,
    (forall text ply, p (new_label text ply)) ->
    Forall p labels -> Forall p (append_loop i rest labels).
Proof.
  induction rest as [|move rest IH]; intros i labels Hnew Hlabels;
    cbn [append_loop]; [exact Hlabels|].
  apply IH; [exact Hnew|]. apply Forall_app. split; [exact Hlabels|].
  constructor; [apply Hnew|constructor].
Qed.

Lemma rebuild_rows_append (n : nat) : forall rest i labels,
  (length rest <= n)%nat ->
  rebuild_rows rest i labels = append_loop i rest labels.
Proof.
  induction n as [|n IH]; intros rest i labels Hlen.
  - destruct rest; [reflexivity|cbn in Hlen; lia].
  - destruct rest as [|white_move [|black_move rest]]; cbn; try reflexivity.
    rewrite IH by (cbn in Hlen; lia).
    replace (i + 1 + 1) with (i + 2) by lia. reflexivity.
Qed.

Lemma set_selected_spec (b : bool) (label : MoveLabel.t) :
  MoveLabel._is_selected (MoveLabel.set_selected b label) = b
  /\ names (MoveLabel.set_selected b label) = names label.
Proof.
  unfold MoveLabel.set_selected.
  destruct (Bool.eqb b (MoveLabel._is_selected label)) eqn:Hsame.
  - apply Bool.eqb_prop in Hsame. now split.
  - now split.
Qed.

Lemma update_selection_labels (w : t) :
  map names (move_labels (_update_selection w)) = map names (move_labels w)
  /\ Forall (fun label => MoveLabel._is_selected label
                          = (MoveLabel.ply label =? current_ply w))
       (move_labels (_update_selection w)).
Proof.
  unfold _update_selection, with_labels. cbn [move_labels]. split.
  - rewrite map_map. apply map_ext. intros label.
    apply set_selected_spec.
  - rewrite List.Forall_map. apply List.Forall_forall. intros label _.
    destruct (set_selected_spec (MoveLabel.ply label =? current_ply w) label)
      as [Hsel Hnames].
    rewrite Hsel. unfold names in Hnames. now injection Hnames as _ ->.
Qed.

Ltac reads_through :=
  cbn zeta; unfold _update_live_indicator, _scroll_to_current,
    _update_nav_buttons, _update_selection, with_labels;
  repeat match goal with
         | |- context [if ?c then _ else _] => destruct c
         end;
  repeat split.

Lemma indicator_frame (w : t) :
  let w' := _update_live_indicator w in
  moves w' = moves w /\ current_ply w' = current_ply w
  /\ live_ply w' = live_ply w /\ is_viewing_live w' = is_viewing_live w
  /\ move_labels w' = move_labels w
  /\ btn_start_enabled w' = btn_start_enabled w
  /\ btn_prev_enabled w' = btn_prev_enabled w
  /\ btn_next_enabled w' = btn_next_enabled w
  /\ btn_end_enabled w' = btn_end_enabled w.
Proof. reads_through. Qed.

Lemma scroll_frame (w : t) :
  let w' := _scroll_to_current w in
  moves w' = moves w /\ current_ply w' = current_ply w
  /\ live_ply w' = live_ply w /\ is_viewing_live w' = is_viewing_live w
  /\ move_labels w' = move_labels w
  /\ btn_start_enabled w' = btn_start_enabled w
  /\ btn_prev_enabled w' = btn_prev_enabled w
  /\ btn_next_enabled w' = btn_next_enabled w
  /\ btn_end_enabled w' = btn_end_enabled w.
Proof. reads_through. Qed.

Lemma buttons_frame (w : t) :
  let w' := _update_nav_buttons w in
  moves w' = moves w /\ current_ply w' = current_ply w
  /\ live_ply w' = live_ply w /\ is_viewing_live w' = is_viewing_live w
  /\ move_labels w' = move_labels w
  /\ btn_start_enabled w' = (0 <? current_ply w)
  /\ btn_prev_enabled w' = (0 <? current_ply w)
  /\ btn_next_enabled w' = (current_ply w <? live_ply w)
  /\ btn_end_enabled w' = (current_ply w <? live_ply w).
Proof. reads_through. Qed.

Lemma selection_frame (w : t) :
  let w' := _update_selection w in
  moves w' = moves w /\ current_ply w' = current_ply w
  /\ live_ply w' = live_ply w /\ is_viewing_live w' = is_viewing_live w.
Proof. reads_through. Qed.

(** What the last steps of [set_moves] and [navigate_to] leave of a list
    whose labels carry the moves. *)
Lemma refreshed (w : t) (scroll : bool) :
  map names (move_labels w)
  = imap (fun i text => (text, Z.of_nat i + 1)) (moves w) ->
  live_ply w = Z.of_nat (length (moves w)) ->
  0 <= current_ply w ->
  (is_viewing_live w = true -> current_ply w = live_ply w) ->
  let w1 := _update_live_indicator (_update_nav_buttons (_update_selection w)) in
  let w' := if scroll then _scroll_to_current w1 else w1 in
  shows_its_moves w'
  /\ moves w' = moves w /\ current_ply w' = current_ply w
  /\ live_ply w' = live_ply w /\ is_viewing_live w' = is_viewing_live w.
Proof.
  intros Hnames Hlive Hcurrent Hview.
  destruct (update_selection_labels w) as [Hn Hs].
  destruct (selection_frame w) as (S1 & S2 & S3 & S4).
  destruct (buttons_frame (_update_selection w))
    as (B1 & B2 & B3 & B4 & B5 & B6 & B7 & B8 & B9).
  destruct (indicator_frame (_update_nav_buttons (_update_selection w)))
    as (I1 & I2 & I3 & I4 & I5 & I6 & I7 & I8 & I9).
  cbn zeta in *.
  set (w1 := _update_live_indicator (_update_nav_buttons (_update_selection w)))
    in *.
  assert (H1 : shows_its_moves w1
               /\ moves w1 = moves w /\ current_ply w1 = current_ply w
               /\ live_ply w1 = live_ply w
               /\ is_viewing_live w1 = is_viewing_live w).
  { unfold shows_its_moves.
    rewrite I1, I2, I3, I4, I5, I6, I7, I8, I9,
      B1, B2, B3, B4, B5, B6, B7, B8, B9, S1, S2, S3, S4, Hn.
    repeat split; try assumption; try reflexivity; tauto. }
  destruct scroll; [|exact H1].
  destruct H1 as (Hshows & A & B & C & D).
  destruct (scroll_frame w1) as (A' & B' & C' & D' & E' & F' & G' & I' & J').
  cbn zeta in *.
  unfold shows_its_moves in *. rewrite A', B', C', D', E', F', G', I', J'.
  repeat split; try tauto; congruence.
Qed.


Lemma navigate_keeps_list (ply : Z) (w : t) :
  shows_its_moves w -> shows_its_moves (fst (navigate_to ply w)).
Proof.
  intros Hw. unfold navigate_to.
  destruct (Z.max 0 (Z.min ply (live_ply w)) =? current_ply w);
    [exact Hw|].
  destruct Hw as (Hnames & _ & Hlive & _).
  set (w0 := with_state _ _ _ _ _ w).
  destruct (refreshed w0 true) as (Hshows & _); subst w0;
    cbn [with_state moves move_labels live_ply current_ply is_viewing_live];
    try assumption; try lia.
Qed.

Lemma san_moves_length (b : Board) (move_stack : list Move) :
  length (san_moves san b move_stack) = length move_stack.
Proof.
  revert b. induction move_stack as [|m rest IH]; intros b; cbn;
    [reflexivity|]. now rewrite IH.
Qed.

(** What [set_moves] leaves. *)
Lemma set_moves_spec (move_stack : list Move) (w : t) :
  shows_its_moves w ->
  let w' := set_moves san move_stack w in
  shows_its_moves w'
  /\ is_viewing_live w' = is_viewing_live w
  /\ live_ply w' = Z.of_nat (length move_stack)
  /\ current_ply w' = (if is_viewing_live w then Z.of_nat (length move_stack)
                       else current_ply w).
Proof.
  intros Hw. cbn zeta. unfold set_moves.
  set (new_moves := san_moves san new_board move_stack).
  cbn [with_state moves move_labels live_ply current_ply is_viewing_live
       game_active].
  assert (Hlen : length new_moves = length move_stack)
    by apply san_moves_length.
  destruct (moves_eqb new_moves (moves w)) eqn:Hsame.
  { apply moves_eqb_eq in Hsame.
    split; [exact Hw|].
    destruct Hw as (_ & _ & Hlive & _ & _ & _ & _ & _ & Hview).
    cbn [with_state moves move_labels live_ply current_ply is_viewing_live].
    split; [reflexivity|]. split; [congruence|].
    destruct (is_viewing_live w); [|reflexivity].
    rewrite Hview by reflexivity. congruence. }
  destruct Hw as (Hnames & Hsel & Hlive & Hcurrent & _ & _ & _ & _ & Hview).
  match goal with
  | |- context [_update_selection (if is_viewing_live ?x then _ else _)] =>
      set (w1 := x)
  end.
  assert (Hchanged :
    moves w1 = new_moves
    /\ live_ply w1 = Z.of_nat (length new_moves)
    /\ current_ply w1 = current_ply w
    /\ is_viewing_live w1 = is_viewing_live w
    /\ map names (move_labels w1)
       = imap (fun i text => (text, Z.of_nat i + 1)) new_moves).
  { subst w1.
    destruct ((length (moves w) <? length new_moves)%nat
              && moves_eqb (firstn (length (moves w)) new_moves) (moves w))
      eqn:Hextends.
    - apply andb_true_iff in Hextends as [_ Hprefix].
      apply moves_eqb_eq in Hprefix.
      unfold _append_moves_from.
      cbn [with_labels with_state moves move_labels live_ply current_ply
           is_viewing_live].
      repeat split.
      rewrite append_loop_names, Hnames, Nat2Z.id.
      rewrite <- (firstn_skipn (length (moves w)) new_moves) at 2.
      rewrite imap_app, Hprefix. f_equal.
      apply imap_ext. intros k text _. cbn. f_equal. lia.
    - unfold _rebuild_move_display, _clear_moves.
      cbn [with_labels with_state moves move_labels live_ply current_ply
           is_viewing_live].
      destruct (selection_frame
                  (with_labels
                     (rebuild_rows new_moves 0 [])
                     (with_labels []
                        (with_state new_moves (current_ply w)
                           (Z.of_nat (length new_moves)) (is_viewing_live w)
                           true (with_labels [] w)))))
        as (S1 & S2 & S3 & S4).
      cbn zeta in S1, S2, S3, S4.
      cbn [with_labels with_state moves move_labels live_ply current_ply
           is_viewing_live] in S1, S2, S3, S4.
      split; [exact S1|]. split; [exact S3|]. split; [exact S2|].
      split; [exact S4|].
      match goal with
      | |- context [_update_selection ?w0] =>
          rewrite (proj1 (update_selection_labels w0))
      end.
      cbn [with_labels move_labels].
      rewrite (rebuild_rows_append (length new_moves)) by lia.
      rewrite append_loop_names. cbn [map app].
      apply imap_ext. intros k text _. now cbn. }
  clearbody w1. destruct Hchanged as (M & L & C & V & N).
  set (w2 := if is_viewing_live w1 then _ else w1).
  assert (Hw2 : moves w2 = new_moves
                /\ live_ply w2 = Z.of_nat (length new_moves)
                /\ 0 <= current_ply w2
                /\ is_viewing_live w2 = is_viewing_live w1
                /\ move_labels w2 = move_labels w1
                /\ (is_viewing_live w2 = true -> current_ply w2 = live_ply w2)
                /\ current_ply w2
                   = (if is_viewing_live w1 then Z.of_nat (length new_moves)
                      else current_ply w1)).
  { subst w2. destruct (is_viewing_live w1) eqn:Hv.
    - cbn [with_state moves move_labels live_ply current_ply is_viewing_live].
      split; [exact M|]. split; [exact L|]. split; [lia|].
      split; [reflexivity|]. split; [reflexivity|].
      split; [reflexivity|exact L].
    - split; [exact M|]. split; [exact L|]. split; [lia|].
      split; [exact Hv|]. split; [reflexivity|].
      split; [congruence|reflexivity]. }
  destruct Hw2 as (M2 & L2 & C2 & V2 & N2 & W2 & P2).
  destruct (refreshed w2
              (is_viewing_live
                 (_update_live_indicator
                    (_update_nav_buttons (_update_selection w2)))))
    as (Hshows & Hm' & Hc' & Hl' & Hv'); try assumption; try congruence.
  cbn zeta in *. split; [exact Hshows|].
  rewrite Hv', Hl', Hc', V2, L2, P2, V, C, Hlen. repeat split.
Qed.

Lemma set_moves_keeps_list (move_stack : list Move) (w : t) :
  shows_its_moves w -> shows_its_moves (set_moves san move_stack w).
Proof. intros Hw. apply (set_moves_spec move_stack w Hw). Qed.

Lemma init_shows_its_moves : shows_its_moves init.
Proof. unfold shows_its_moves. cbn. repeat split; try lia. constructor. Qed.

Lemma perform_keeps_list (w : t) (c : call) :
  shows_its_moves w -> shows_its_moves (perform san w c).
Proof.
  intros Hw. destruct c as [move_stack|ply|k|]; cbn [perform].
  - now apply set_moves_keeps_list.
  - now apply navigate_keeps_list.
  - destruct k; cbn [keyPressEvent]; unfold _on_prev, _on_next, _on_start,
      _on_end;
      repeat match goal with
             | |- context [if ?c then _ else _] => destruct c
             end;
      try exact Hw; now apply navigate_keeps_list.
  - unfold clear, _clear_moves.
    destruct (indicator_frame
                (_update_nav_buttons
                   (with_state [] 0 0 true false (with_labels [] w))))
      as (I1 & I2 & I3 & I4 & I5 & I6 & I7 & I8 & I9).
    cbn zeta in *. unfold shows_its_moves.
    rewrite I1, I2, I3, I4, I5, I6, I7, I8, I9. cbn.
    repeat split; try lia. constructor.
Qed.

(** X11 ([MoveListWidget], move_list_widget.py 199-457).  After any
    sequence of move lists, clicks, key presses and clears on a new move
    list: there is one label for each move, in order, with the text of the
    move and its number, whether the labels were appended to the existing
    ones or all of them rebuilt; the selected label is the one of the
    viewed ply, and no other; the last ply is the number of moves; the
    viewed ply is not negative; the buttons to the start and back are
    enabled exactly when the viewed ply is not 0, those forward and to the
    end exactly when it is before the last; and the live view is the view
    of the last ply. *)
Theorem move_list_shows_its_moves (calls : list call) :
  shows_its_moves (fold_left (perform san) calls init).
Proof.
  generalize init_shows_its_moves. generalize init as w.
  induction calls as [|c rest IH]; intros w Hw; [exact Hw|].
  cbn [fold_left]. apply IH. now apply perform_keeps_list.
Qed.

End MoveListFacts.

(** ** The board and the move list *)

Section BoardAndMovesFacts.
Context `{ChessRules}.
Variable san : Board -> Move -> Py.str.
Import BoardAndMoves.

(** What [navigate_to] leaves and emits. *)
Lemma navigate_to_spec (ply : Z) (w : MoveListWidget.t) :
  MoveListWidget.shows_its_moves w ->
  let target := Z.max 0 (Z.min ply (MoveListWidget.live_ply w)) in
  let r := MoveListWidget.navigate_to ply w in
  MoveListWidget.live_ply (fst r) = MoveListWidget.live_ply w
  /\ if target =? MoveListWidget.current_ply w
     then r = (w, [])
     else MoveListWidget.current_ply (fst r) = target
          /\ MoveListWidget.is_viewing_live (fst r)
             = (target =? MoveListWidget.live_ply w)
          /\ snd r = if target =? MoveListWidget.live_ply w
                     then [MoveListWidget.jump_to_live]
                     else [MoveListWidget.move_selected target].
Proof.
  intros (Hnames & _ & Hlive & _). cbn zeta. unfold MoveListWidget.navigate_to.
  destruct (_ =? MoveListWidget.current_ply w); [split; reflexivity|].
  set (w0 := MoveListWidget.with_state _ _ _ _ _ w).
  destruct (refreshed w0 true) as (_ & M & C & L & V); subst w0;
    cbn [MoveListWidget.with_state MoveListWidget.moves
         MoveListWidget.move_labels MoveListWidget.live_ply
         MoveListWidget.current_ply MoveListWidget.is_viewing_live] in *;
    try assumption; try lia.
  cbn [fst snd]. rewrite L, C, V. repeat split.
Qed.

Lemma slot_sync (ply : Z) (v : t) :
  MoveListWidget.shows_its_moves (move_list v) -> in_step v ->
  in_step (emitted v (MoveListWidget.navigate_to ply (move_list v))).
Proof.
  intros Hshows (Hply & Hview & Hlast).
  destruct (navigate_to_spec ply (move_list v) Hshows) as (Hl & Hr).
  cbn zeta in Hl, Hr. unfold emitted.
  destruct (_ =? MoveListWidget.current_ply (move_list v)) eqn:Hsame.
  - rewrite Hr. cbn. repeat split; assumption.
  - destruct Hr as (Hc & Hv & Hs). rewrite Hs.
    set (target := Z.max 0 (Z.min ply (MoveListWidget.live_ply (move_list v))))
      in *.
    assert (Htarget : 0 <= target <= MoveListWidget.live_ply (move_list v))
      by lia.
    unfold in_step.
    destruct (target =? MoveListWidget.live_ply (move_list v)) eqn:Hend;
      cbn [fold_left slot _on_jump_to_live _on_move_selected fst
           chess_board move_list].
    + apply Z.eqb_eq in Hend.
      unfold ChessBoardNavigation.jump_to_live.
      rewrite rebuild_at_ply.
      cbn [ChessBoardWidget.current_ply ChessBoardWidget.is_viewing_live
           ChessBoardWidget.move_history].
      rewrite Hc, Hv, Hl. repeat split; lia.
    + apply Z.eqb_neq in Hend. rewrite navigate_fields. cbn zeta.
      cbn [ChessBoardWidget.current_ply ChessBoardWidget.is_viewing_live
           ChessBoardWidget.move_history].
      rewrite Hc, Hv, Hl. split; [lia|]. split; [|exact Hlast].
      symmetry. apply Nat.eqb_neq. lia.
Qed.

Lemma emitted_nothing (v : t) : emitted v (move_list v, []) = v.
Proof. now destruct v. Qed.

Lemma emitted_list (v : t) r : move_list (emitted v r) = fst r.
Proof.
  unfold emitted. destruct r as [w signals]. cbn [fst snd].
  generalize (chess_board v) as cb. induction signals as [|s rest IH];
    intros cb; [reflexivity|].
  cbn [fold_left]. destruct s; cbn; apply IH.
Qed.

Lemma handle_keeps_step (v : t) (e : event) :
  MoveListWidget.shows_its_moves (move_list v) -> in_step v ->
  MoveListWidget.shows_its_moves (move_list (handle san v e))
  /\ in_step (handle san v e).
Proof.
  intros Hshows Hstep.
  assert (Hnavigate : forall ply,
            MoveListWidget.shows_its_moves
              (move_list
                 (emitted v (MoveListWidget.navigate_to ply (move_list v))))
            /\ in_step
                 (emitted v (MoveListWidget.navigate_to ply (move_list v)))).
  { intros ply. split; [|now apply slot_sync].
    rewrite emitted_list. now apply navigate_keeps_list. }
  destruct e as [moves_uci|k|ply|]; cbn [handle].
  - destruct (set_moves_spec san
                (ChessBoardWidget.move_history
                   (ChessBoardWidget.set_position_from_moves moves_uci
                      (chess_board v)))
                (move_list v) Hshows) as (Hs & Hv & Hl & Hc).
    cbn zeta in *. unfold show_moves. cbn [move_list chess_board].
    split; [exact Hs|]. destruct Hstep as (Hply & Hview & Hlast).
    unfold in_step. cbn [move_list chess_board].
    rewrite Hv, Hl, Hc, Hview, Hply.
    rewrite set_position_fields. cbn zeta.
    cbn [ChessBoardWidget.current_ply ChessBoardWidget.is_viewing_live
         ChessBoardWidget.move_history].
    destruct (ChessBoardWidget.is_viewing_live (chess_board v));
      repeat split.
  - destruct k; cbn [keyPressEvent];
      unfold MoveListWidget._on_prev, MoveListWidget._on_next,
        MoveListWidget._on_start, MoveListWidget._on_end;
      repeat match goal with
             | |- context [if ?c then _ else _] => destruct c
             end;
      rewrite ?emitted_nothing; try apply Hnavigate; now split.
  - unfold mousePressEvent, MoveListWidget._on_move_clicked. apply Hnavigate.
  - unfold clear. cbn [move_list chess_board].
    split; [exact (perform_keeps_list san _ MoveListWidget.Clear Hshows)|].
    unfold in_step. cbn [move_list chess_board].
    unfold MoveListWidget.clear, MoveListWidget._clear_moves.
    destruct (indicator_frame
                (MoveListWidget._update_nav_buttons
                   (MoveListWidget.with_state [] 0 0 true false
                      (MoveListWidget.with_labels [] (move_list v)))))
      as (I1 & I2 & I3 & I4 & _).
    cbn zeta in *. rewrite I2, I3, I4. cbn. repeat split.
Qed.

(** X12 ([MainWindow._on_move_selected], [_on_jump_to_live] and
    [keyPressEvent], main_window.py 855-867 and 1793-1804, with
    [MoveListWidget.navigate_to] and [ChessBoardWidget.navigate_to_ply], and
    the board update of [_on_game_state], 1433-1464).  Through any sequence
    of [gameState] records, key presses, clicks on moves and resets of both
    widgets, the board and the move list stay in step: they view the same
    ply, both count as live or both do not, and the last ply of the list is
    the length of the history of the board. *)
Theorem board_and_move_list_stay_in_step (events : list event) :
  in_step (fold_left (handle san) events init).
Proof.
  assert (Hinit : MoveListWidget.shows_its_moves (move_list init)
                  /\ in_step init).
  { split; [apply init_shows_its_moves|]. repeat split. }
  revert Hinit. generalize init as v.
  induction events as [|e rest IH]; intros v [Hshows Hstep]; [exact Hstep|].
  cbn [fold_left]. apply IH. now apply handle_keeps_step.
Qed.

End BoardAndMovesFacts.

(** ** The framing of the stream into lines *)

Section FramingFacts.
Context {J : Type}.
Variable json_loads : Py.str -> option J.
Variable callback : bool.
Import LichessClient Received.











End FramingFacts.

(** ** The database: settings, engine options, statistics and history *)

Section StringFacts.

Lemma eqb_refl (a : Py.str) : Py.eqb a a = true.
Proof. induction a as [|x a IH]; cbn; [reflexivity|]. now rewrite N.eqb_refl. Qed.

Lemma eqb_neq (a b : Py.str) : a <> b -> Py.eqb a b = false.
Proof.
  intros Hne. destruct (Py.eqb a b) eqn:E; [|reflexivity].
  now apply eqb_eq in E.
Qed.

Lemma eqb_sym (a b : Py.str) : Py.eqb a b = Py.eqb b a.
Proof.
  destruct (Py.eqb b a) eqn:E.
  - apply eqb_eq in E. subst. apply eqb_refl.
  - apply eqb_neq. intros ->. now rewrite eqb_refl in E.
Qed.

Lemma find_last {A} (p : A -> bool) (l : list A) (x : A) :
  p x = true ->
  Forall (fun y => p y = false) l ->
  find p (l ++ [x]) = Some x.
Proof.
  intros Hx Hl. induction Hl as [|y l Hy _ IH]; cbn.
  - now rewrite Hx.
  - now rewrite Hy.
Qed.

Lemma filter_step {A} (q : A -> bool) (y : A) (l : list A) :
  filter (fun x => q x) (y :: l)
  = if q y then y :: filter (fun x => q x) l else filter (fun x => q x) l.
Proof.
  destruct (q y) eqn:Eq.
  - apply filter_cons_True. now rewrite Eq.
  - apply filter_cons_False. now rewrite Eq.
Qed.

Lemma filter_keeps {A} (q : A -> bool) (l : list A) (x : A) :
  In x (filter (fun x => q x) l) <-> q x = true /\ In x l.
Proof.
  rewrite <- !list_elem_of_In, list_elem_of_filter.
  split; intros [Hq Hin]; (split; [|exact Hin]).
  - now apply Is_true_true.
  - now apply Is_true_true.
Qed.

Lemma find_skips {A} (p q : A -> bool) (l : list A) :
  (forall y, p y = true -> q y = true) ->
  find p (filter (fun x => q x) l) = find p l.
Proof.
  intros Hpq. induction l as [|y l IH]; [reflexivity|].
  rewrite filter_step. cbn [find]. destruct (q y) eqn:Eq; cbn [find].
  - now rewrite IH.
  - destruct (p y) eqn:Ep; [|exact IH].
    apply Hpq in Ep. congruence.
Qed.

Lemma find_append {A} (p : A -> bool) (l1 l2 : list A) :
  find p (l1 ++ l2)
  = match find p l1 with Some x => Some x | None => find p l2 end.
Proof.
  induction l1 as [|y l1 IH]; cbn; [reflexivity|].
  now destruct (p y).
Qed.

Lemma find_app_none {A} (p : A -> bool) (l1 l2 : list A) :
  Forall (fun y => p y = false) l2 ->
  find p (l1 ++ l2) = find p l1.
Proof.
  intros Hl2. induction l1 as [|y l1 IH]; cbn.
  - induction Hl2 as [|z l2 Hz _ IH]; cbn; [reflexivity|now rewrite Hz].
  - now rewrite IH.
Qed.

End StringFacts.

Section SettingsFacts.
Import SettingsTable.

Lemma select_written key value rows :
  select key (set_setting key value rows) = Some value.
Proof.
  unfold select, set_setting.
  rewrite (find_last _ _ (key, value)); [reflexivity|apply eqb_refl|].
  apply List.Forall_forall. intros row Hin.
  apply filter_keeps in Hin as [Hrow _].
  now apply negb_true_iff in Hrow.
Qed.

Lemma select_other key other value rows :
  other <> key ->
  select other (set_setting key value rows) = select other rows.
Proof.
  intros Hne. unfold select, set_setting. f_equal.
  rewrite find_app_none.
  - apply find_skips. intros row Hrow. apply eqb_eq in Hrow.
    apply negb_true_iff, eqb_neq. congruence.
  - constructor; [|constructor]. cbn. now apply eqb_neq; congruence.
Qed.

Lemma keys_written key value rows :
  NoDup (map fst rows) -> NoDup (map fst (set_setting key value rows)).
Proof.
  intros Hrows. unfold set_setting. rewrite map_app. cbn.
  apply NoDup_app. split; [|split].
  - induction rows as [|row rows IH]; [constructor|].
    cbn [map] in Hrows. inversion Hrows as [|? ? Hnotin Hrest]; subst.
    unfold t. rewrite (filter_step (fun row => negb (Py.eqb (fst row) key))).
    destruct (negb (Py.eqb (fst row) key)); cbn [map]; [|now apply IH].
    constructor; [|now apply IH].
    intros Hin. apply Hnotin. apply list_elem_of_In.
    apply list_elem_of_In, in_map_iff in Hin as (r & Hr & Hin).
    apply filter_keeps in Hin as [_ Hin]. apply in_map_iff. now exists r.
  - intros k Hin Hk. apply list_elem_of_In in Hin.
    apply in_map_iff in Hin as (r & Hr & Hin).
    apply filter_keeps in Hin as [Hneq _].
    apply list_elem_of_singleton in Hk. subst.
    now rewrite eqb_refl in Hneq.
  - apply NoDup_singleton.
Qed.

(** X15 ([DatabaseManager.get_setting], [set_setting], db_manager.py
    116-129).  A setting reads back the value last written under its key,
    whatever default the reader gives; writing it leaves every other key
    as it was, and the table keeps one row per key. *)
Theorem a_setting_reads_back_what_was_written
    (rows : t) (key value other default : Py.str) :
  other <> key ->
  get_setting key default (set_setting key value rows) = value
  /\ get_setting other default (set_setting key value rows)
     = get_setting other default rows
  /\ (NoDup (map fst rows) ->
      NoDup (map fst (set_setting key value rows))).
Proof.
  intros Hne. unfold get_setting.
  rewrite select_written, (select_other _ _ _ _ Hne).
  split; [reflexivity|]. split; [reflexivity|]. apply keys_written.
Qed.

Section Lower.
Variable lower : Py.str -> Py.str.
Hypothesis lower_true : lower (py "true") = py "true".
Hypothesis lower_false : lower (py "false") = py "false".

(** X16 ([DatabaseManager.get_rated_mode], [set_rated_mode],
    [get_last_time_control] and the other typed settings, db_manager.py
    131-161).  The rated mode reads back as it was stored and is not
    changed by storing the token, the engine or the time control; in a new
    database the mode is unrated and the time control is 15+10. *)
Theorem rated_mode_reads_back (rows : t) (rated : bool)
    (token engine_path time_control : Py.str) :
  get_rated_mode lower (set_rated_mode rated rows) = rated
  /\ get_rated_mode lower
       (set_bearer_token token
          (set_last_engine engine_path
             (set_last_time_control time_control
                (set_rated_mode rated rows)))) = rated
  /\ get_last_time_control
       (set_rated_mode rated (set_last_time_control time_control rows))
     = time_control
  /\ get_rated_mode lower empty = false
  /\ get_last_time_control empty = py "15+10".
Proof.
  assert (Hread : forall rows,
             Py.eqb (lower (get_setting (py "rated_mode") (py "false")
                              (set_rated_mode rated rows))) (py "true")
             = rated).
  { intros rows'. unfold set_rated_mode, get_setting.
    rewrite select_written.
    destruct rated; [now rewrite lower_true|now rewrite lower_false]. }
  unfold get_rated_mode, get_last_time_control, set_bearer_token,
    set_last_engine, set_last_time_control.
  split; [apply Hread|]. split; [|split; [|split]].
  - unfold get_setting at 1.
    rewrite !select_other by (intros E; vm_compute in E; discriminate E).
    apply Hread.
  - unfold set_rated_mode, get_setting.
    rewrite select_other by (intros E; vm_compute in E; discriminate E).
    now rewrite select_written.
  - unfold get_setting. cbn [select empty find option_map].
    now rewrite lower_false.
  - reflexivity.
Qed.

End Lower.
End SettingsFacts.

Section EngineOptionsFacts.
Import EngineOptionsTable.
Variable _normalize_path : Py.str -> Py.str.
Context {Value : Type}.
Variable str : Value -> Py.str.

Lemma filter_filter_swap {A} (p q : A -> bool) (l : list A) :
  filter (fun x => p x) (filter (fun x => q x) l)
  = filter (fun x => q x) (filter (fun x => p x) l).
Proof.
  induction l as [|y l IH]; [reflexivity|].
  rewrite !filter_step.
  destruct (p y) eqn:Ep, (q y) eqn:Eq; rewrite ?filter_step, ?Ep, ?Eq;
    now rewrite IH.
Qed.

Lemma filter_same {A} (p : A -> bool) (l : list A) :
  Forall (fun y => p y = true) l -> filter (fun x => p x) l = l.
Proof.
  intros Hl. induction Hl as [|y l Hy _ IH]; [reflexivity|].
  now rewrite filter_step, Hy, IH.
Qed.

(** The options of the engine at [path] among the rows. *)
Lemma rows_of_replace path path' name value (rows : t) :
  filter (fun r => Py.eqb (engine_path r) path') (replace path name value rows)
  = if Py.eqb path path'
    then replace path name value
           (filter (fun r => Py.eqb (engine_path r) path') rows)
    else filter (fun r => Py.eqb (engine_path r) path') rows.
Proof.
  unfold replace, t.
  rewrite (filter_app (fun r => Py.eqb (engine_path r) path')).
  rewrite (filter_step (fun r => Py.eqb (engine_path r) path')).
  cbn [engine_path].
  rewrite (filter_filter_swap (fun r => Py.eqb (engine_path r) path')
             (fun r => negb (same_key path name r))).
  destruct (Py.eqb path path') eqn:E.
  - reflexivity.
  - rewrite filter_nil, app_nil_r.
    apply filter_same. apply List.Forall_forall. intros r Hr.
    apply filter_keeps in Hr as [Hr _]. apply eqb_eq in Hr.
    unfold same_key. rewrite Hr, (eqb_sym path' path), E. reflexivity.
Qed.

Lemma find_rev_replace path name name' value (rows : t) :
  Forall (fun r => engine_path r = path) rows ->
  option_map option_value
    (find (fun r => Py.eqb (option_name r) name')
       (rev (replace path name value rows)))
  = if Py.eqb name name' then Some value
    else option_map option_value
           (find (fun r => Py.eqb (option_name r) name') (rev rows)).
Proof.
  intros Hrows. unfold replace. rewrite rev_app_distr. cbn [rev app find].
  cbn [option_name].
  destruct (Py.eqb name name') eqn:E; [reflexivity|].
  f_equal. induction Hrows as [|r rows Hr _ IH]; [reflexivity|].
  unfold t. rewrite (filter_step (fun r => negb (same_key path name r))).
  cbn [rev].
  destruct (same_key path name r) eqn:Ek; cbn [negb rev].
  - rewrite (find_app_none _ (rev rows) [r]); [exact IH|].
    constructor; [|constructor].
    unfold same_key in Ek. apply andb_true_iff in Ek as [_ Ek].
    apply eqb_eq in Ek. now rewrite Ek.
  - assert (Hfind : forall l1 l2 : list row,
              find (fun r => Py.eqb (option_name r) name') l1
              = find (fun r => Py.eqb (option_name r) name') l2 ->
              find (fun r => Py.eqb (option_name r) name') (l1 ++ [r])
              = find (fun r => Py.eqb (option_name r) name') (l2 ++ [r])).
    { intros l1 l2 Heq. rewrite !find_append. now rewrite Heq. }
    apply Hfind, IH.
Qed.

Lemma rows_of_engine path (rows : t) :
  Forall (fun r => engine_path r = path)
    (filter (fun r => Py.eqb (engine_path r) path) rows).
Proof.
  apply List.Forall_forall. intros r Hr.
  apply filter_keeps in Hr as [Hr _]. now apply eqb_eq.
Qed.

Lemma get_after_replace path other name name' value (rows : t) :
  get_engine_options _normalize_path other
    (replace (_normalize_path path) name value rows) name'
  = if Py.eqb (_normalize_path path) (_normalize_path other)
       && Py.eqb name name'
    then Some value
    else get_engine_options _normalize_path other rows name'.
Proof.
  unfold get_engine_options. cbn zeta. rewrite rows_of_replace.
  destruct (Py.eqb (_normalize_path path) (_normalize_path other)) eqn:E;
    [|reflexivity].
  apply eqb_eq in E. rewrite E. cbn [andb].
  apply find_rev_replace, rows_of_engine.
Qed.

(** X17 ([DatabaseManager.set_engine_options], [get_engine_options],
    [_normalize_path], db_manager.py 13-20 and 294-345).  After the options
    of an engine are stored, reading the options of a path with the same
    normalized form gives, for each name of the dictionary, the text of
    its value, and for every other name what was stored before; the
    options of an engine with another normalized path are not changed. *)
Theorem engine_options_read_back (path other : Py.str)
    (options : list (Py.str * Value)) (rows : t) (name : Py.str) :
  get_engine_options _normalize_path other
    (set_engine_options _normalize_path str path options rows) name
  = if Py.eqb (_normalize_path path) (_normalize_path other)
    then match item options name with
         | Some value => Some (str value)
         | None => get_engine_options _normalize_path other rows name
         end
    else get_engine_options _normalize_path other rows name.
Proof.
  unfold set_engine_options, item. cbn zeta.
  revert rows. induction options as [|[k v] options IH]; intros rows.
  - cbn. now destruct (Py.eqb _ _).
  - cbn [fold_left rev]. rewrite IH. clear IH.
    rewrite get_after_replace.
    destruct (Py.eqb (_normalize_path path) (_normalize_path other));
      [|reflexivity].
    cbn [andb]. rewrite find_append.
    destruct (find (fun kv => Py.eqb (fst kv) name) (rev options))
      as [[k' v']|]; [reflexivity|].
    cbn [find fst option_map]. now destruct (Py.eqb k name).
Qed.

(** X18 ([DatabaseManager.delete_engine_options], db_manager.py 347-352).
    Deleting the options of an engine leaves none for any path with the
    same normalized form, and leaves the options of every other engine as
    they were. *)
Theorem deleted_engine_options_are_gone (path other : Py.str) (rows : t)
    (name : Py.str) :
  get_engine_options _normalize_path other
    (delete_engine_options _normalize_path path rows) name
  = if Py.eqb (_normalize_path path) (_normalize_path other) then None
    else get_engine_options _normalize_path other rows name.
Proof.
  unfold get_engine_options, delete_engine_options. cbn zeta. unfold t.
  rewrite (filter_filter_swap
             (fun r => Py.eqb (engine_path r) (_normalize_path other))
             (fun r => negb (Py.eqb (engine_path r) (_normalize_path path)))).
  destruct (Py.eqb (_normalize_path path) (_normalize_path other)) eqn:E.
  - apply eqb_eq in E. rewrite E.
    assert (Hnone : filter
                      (fun r => negb (Py.eqb (engine_path r)
                                        (_normalize_path other)))
                      (filter (fun r => Py.eqb (engine_path r)
                                          (_normalize_path other)) rows)
                    = []).
    { induction rows as [|r rows IH]; [reflexivity|].
      rewrite (filter_step (fun r => Py.eqb (engine_path r)
                                       (_normalize_path other))).
      destruct (Py.eqb (engine_path r) (_normalize_path other)) eqn:Er;
        [|exact IH].
      rewrite (filter_step (fun r => negb (Py.eqb (engine_path r)
                                             (_normalize_path other)))).
      now rewrite Er. }
    unfold t in Hnone. now rewrite Hnone.
  - rewrite filter_same; [reflexivity|].
    apply List.Forall_forall. intros r Hr.
    apply filter_keeps in Hr as [Hr _]. apply eqb_eq in Hr.
    now rewrite Hr, (eqb_sym (_normalize_path other)), E.
Qed.

End EngineOptionsFacts.

Section LedgerFacts.
Import DatabaseManager Calls.

Lemma tally_cons calls p c :
  tally (c :: calls) p = (if p c then 1 else 0) + tally calls p.
Proof.
  unfold tally. rewrite filter_step. destruct (p c); cbn [length]; lia.
Qed.

Lemma run_statistics calls : forall db db',
  run calls db = inl db' ->
  games_played db' = games_played db + tally calls is_update
  /\ games_won db' = games_won db + tally calls (is_result win)
  /\ games_lost db' = games_lost db + tally calls (is_result loss)
  /\ games_drawn db' = games_drawn db + tally calls (is_result draw).
Proof.
  induction calls as [|c calls IH]; intros db db' Hrun.
  - cbn in Hrun. injection Hrun as <-. unfold tally. cbn. lia.
  - cbn [run] in Hrun. rewrite !tally_cons.
    destruct (execute c db) as [db1|e] eqn:E; [|discriminate].
    apply IH in Hrun as (Hp & Hw & Hl & Hd).
    rewrite Hp, Hw, Hl, Hd. clear Hp Hw Hl Hd IH.
    destruct c as [severity message|result|[game_id|] ? ? ? ? ?];
      cbn in E; try discriminate; injection E as <-;
      cbn [games_played games_won games_lost games_drawn is_update is_result].
    + lia.
    + destruct result; cbn; lia.
    + lia.
Qed.

(** X19 ([DatabaseManager.update_statistics], [get_statistics],
    db_manager.py 165-204).  In a new database, after any calls that did
    not raise, the number of games played is the number of calls of
    [update_statistics], each of the three counters is the number of those
    calls with its result, and the three add up to the games played. *)
Theorem statistics_add_up (calls : list call) (db : t) :
  run calls empty = inl db ->
  games_played db = tally calls is_update
  /\ games_won db = tally calls (is_result win)
  /\ games_lost db = tally calls (is_result loss)
  /\ games_drawn db = tally calls (is_result draw)
  /\ games_played db = games_won db + games_lost db + games_drawn db.
Proof.
  intros Hrun. apply run_statistics in Hrun as (Hp & Hw & Hl & Hd).
  cbn [empty games_played games_won games_lost games_drawn] in *.
  rewrite Hp, Hw, Hl, Hd. repeat (split; [lia|]).
  clear. induction calls as [|c calls IH]; [reflexivity|].
  rewrite !tally_cons.
  destruct c as [| [] |]; cbn [is_update is_result]; lia.
Qed.

Lemma replace_row_ids row rows :
  NoDup (map row_game_id rows) ->
  NoDup (map row_game_id (replace_row row rows))
  /\ forall g, In g (map row_game_id (replace_row row rows))
               <-> In g (map row_game_id rows) \/ g = row_game_id row.
Proof.
  intros Hrows. unfold replace_row. rewrite map_app. cbn [map].
  assert (Hkept : forall g,
            In g (map row_game_id
                    (filter (fun r => negb (Py.eqb (row_game_id r)
                                              (row_game_id row))) rows))
            <-> In g (map row_game_id rows) /\ g <> row_game_id row).
  { intros g. rewrite !in_map_iff. split.
    - intros (r & Hr & Hin). apply filter_keeps in Hin as [Hne Hin].
      split; [now exists r|]. intros ->. rewrite <- Hr in Hne.
      now rewrite eqb_refl in Hne.
    - intros [(r & Hr & Hin) Hne]. exists r. split; [exact Hr|].
      apply filter_keeps. split; [|exact Hin].
      apply negb_true_iff, eqb_neq. congruence. }
  split.
  - apply NoDup_app. split; [|split].
    + clear Hkept. induction rows as [|r rows IH]; [constructor|].
      cbn [map] in Hrows. inversion Hrows as [|? ? Hnotin Hrest]; subst.
      rewrite (filter_step (fun r => negb (Py.eqb (row_game_id r)
                                             (row_game_id row)))).
      destruct (negb _); cbn [map]; [|now apply IH].
      constructor; [|now apply IH].
      intros Hin. apply Hnotin. apply list_elem_of_In.
      apply list_elem_of_In, in_map_iff in Hin as (r' & Hr' & Hin).
      apply filter_keeps in Hin as [_ Hin]. apply in_map_iff. now exists r'.
    + intros g Hin Hg. apply list_elem_of_In, Hkept in Hin as [_ Hne].
      now apply list_elem_of_singleton in Hg.
    + apply NoDup_singleton.
  - intros g. rewrite in_app_iff, Hkept. cbn [In]. split.
    + intros [[Hin _]|[<-|[]]]; [now left|now right].
    + intros [Hin| ->]; [|now right; left].
      destruct (Py.eqb g (row_game_id row)) eqn:E.
      * apply eqb_eq in E. subst. now right; left.
      * left. split; [exact Hin|]. intros ->. now rewrite eqb_refl in E.
Qed.

Lemma run_history calls : forall db db',
  run calls db = inl db' ->
  NoDup (map row_game_id (game_history db)) ->
  NoDup (map row_game_id (game_history db'))
  /\ forall g, In g (map row_game_id (game_history db'))
               <-> In g (map row_game_id (game_history db))
                   \/ existsb (added g) calls = true.
Proof.
  induction calls as [|c calls IH]; intros db db' Hrun Hdb.
  - cbn in Hrun. injection Hrun as <-. split; [exact Hdb|].
    intros g. cbn. intuition discriminate.
  - cbn [run] in Hrun.
    destruct (execute c db) as [db1|e] eqn:E; [|discriminate].
    assert (H1 : NoDup (map row_game_id (game_history db1))
                 /\ forall g, In g (map row_game_id (game_history db1))
                              <-> In g (map row_game_id (game_history db))
                                  \/ added g c = true).
    { destruct c as [severity message|result|[game_id|] ? ? ? ? ?];
        cbn in E; try discriminate; injection E as <-; cbn [game_history].
      - split; [exact Hdb|]. intros g. cbn. intuition discriminate.
      - split; [exact Hdb|]. intros g. cbn. intuition discriminate.
      - match goal with
        | |- context [replace_row ?r _] =>
            destruct (replace_row_ids r _ Hdb) as [Hnd Hin]
        end.
        split; [exact Hnd|]. intros g. rewrite Hin. cbn [row_game_id added].
        split; (intros [Hg|Hg]; [now left|right]).
        + subst. apply eqb_refl.
        + symmetry. now apply eqb_eq. }
    destruct H1 as [Hnd1 Hin1].
    destruct (IH db1 db' Hrun Hnd1) as [Hnd Hin].
    split; [exact Hnd|]. intros g. rewrite Hin, Hin1. cbn [existsb].
    rewrite orb_true_iff. tauto.
Qed.

(** X20 ([DatabaseManager.add_game], db_manager.py 222-231).  In a new
    database, after any calls that did not raise, the history holds each
    game id once, however often the game was added, and holds exactly the
    ids that were added. *)
Theorem history_has_one_row_per_game (calls : list call) (db : t) :
  run calls empty = inl db ->
  NoDup (map row_game_id (game_history db))
  /\ forall game_id,
       In game_id (map row_game_id (game_history db))
       <-> existsb (added game_id) calls = true.
Proof.
  intros Hrun.
  destruct (run_history calls empty db Hrun) as [Hnd Hin]; [constructor|].
  split; [exact Hnd|]. intros g. rewrite Hin. cbn. tauto.
Qed.

End LedgerFacts.

(** ** The life of a [UCIEngine] *)

Section EngineFacts.
Import UCIEngineObject.
Context {Value Board PlayResult Info : Type}.
Variable str_of : exn -> Py.str.

Lemma perform_orderly (self : t) (c : call Value Board PlayResult Info) :
  engine self = _is_running self ->
  let '(self', requests) := perform str_of self c in
  engine self' = _is_running self'
  /\ orderly (engine self) requests = true
  /\ fold_left holds requests (engine self) = engine self'.
Proof.
  intros Hself.
  destruct c as [popen|quit_answer|options configured|name value configured
                |board time_limit depth nodes wtime btime winc binc played
                |board time_limit analysed];
    unfold perform, start, stop, set_options, set_option, get_best_move,
      analyze_position, is_running;
    rewrite Hself; destruct (_is_running self) eqn:Hrun;
    try destruct popen as [[]|e]; try destruct (is_Exception e);
    cbn [andb negb map orderly fits holds fold_left engine _is_running orb];
    rewrite ?Hself, ?Hrun; repeat split; reflexivity.
Qed.

Lemma orderly_app held (requests more : list (request Value Board * bool)) :
  orderly held (requests ++ more)
  = orderly held requests && orderly (fold_left holds requests held) more.
Proof.
  revert held. induction requests as [|r requests IH]; intros held;
    [reflexivity|].
  cbn [app orderly fold_left]. now rewrite IH, andb_assoc.
Qed.

Lemma run_orderly (calls : list (call Value Board PlayResult Info)) : forall self : t,
  engine self = _is_running self ->
  engine (fst (run str_of calls self)) = _is_running (fst (run str_of calls self))
  /\ orderly (engine self) (snd (run str_of calls self)) = true
  /\ fold_left holds (snd (run str_of calls self)) (engine self)
     = engine (fst (run str_of calls self)).
Proof.
  induction calls as [|c calls IH]; intros self Hself.
  - cbn. repeat split. exact Hself.
  - cbn [run]. pose proof (perform_orderly self c Hself) as Hc.
    destruct (perform str_of self c) as [self1 requests].
    destruct Hc as (H1 & Hfits & Hheld).
    specialize (IH self1 H1).
    destruct (run str_of calls self1) as [self2 more].
    cbn [fst snd] in *. destruct IH as (H2 & Hmore & Hheld2).
    rewrite orderly_app, fold_left_app, Hfits, Hheld, Hmore, Hheld2.
    repeat split. exact H2.
Qed.

(** X21 ([UCIEngine.start], [stop], [is_running], [set_options],
    [set_option], [get_best_move], [analyze_position], uci_engine.py
    123-126, 143-162, 224-313, 343-370).  Whatever is called on a new
    [UCIEngine], in whatever order and whatever python-chess answers, the
    object never opens an engine while it holds one, and configures,
    plays, analyses and quits only an engine it holds; in the end it is
    running exactly when it holds one. *)
Theorem engine_is_used_only_while_it_runs (engine_path : Py.str)
    (calls : list (call Value Board PlayResult Info)) :
  let self := fst (run str_of calls (init engine_path)) in
  let requests := snd (run str_of calls (init engine_path)) in
  orderly false requests = true
  /\ is_running self = fold_left holds requests false
  /\ engine self = _is_running self.
Proof.
  cbn zeta.
  destruct (run_orderly calls (init engine_path) eq_refl)
    as (Hsame & Horderly & Hheld).
  cbn [init engine] in *. split; [exact Horderly|].
  split; [|exact Hsame].
  unfold is_running. rewrite Hheld, <- Hsame. apply andb_diag.
Qed.

(** X22 ([UCIEngine.stop] and the guards of [set_options], [set_option],
    [get_best_move] and [analyze_position], uci_engine.py 249-259, 234-235,
    285-286, 355-356, 367-368).  After [stop], whatever the state before
    and whatever [quit] answered, the object asks nothing more of the
    engine: setting options and asking for a move raise "Engine is not
    running", and [analyze_position] returns [None]. *)
Theorem stopped_engine_refuses (self : t) (quit_answer : answer unit)
    (options : list (Py.str * Value)) (name : Py.str) (value : Value)
    (configured : answer unit) (board : Board) (time_limit : option float)
    (depth nodes wtime btime winc binc : option Z)
    (played : answer PlayResult) (seconds : float) (analysed : answer Info) :
  let stopped :=
    fst (fst (stop (Value := Value) (Board := Board) quit_answer self)) in
  let nothing : list (request Value Board) := [] in
  is_running stopped = false
  /\ set_options str_of options configured stopped
     = (stopped, nothing, Some not_running)
  /\ set_option name value configured stopped
     = (stopped, nothing, Some not_running)
  /\ get_best_move board time_limit depth nodes wtime btime winc binc played
       stopped
     = (stopped, nothing, inr not_running)
  /\ analyze_position board seconds analysed stopped
     = (stopped, nothing, inl None).
Proof.
  cbn zeta.
  assert (Hstopped : is_running
                       (fst (fst (stop (Value := Value) (Board := Board)
                                    quit_answer self))) = false).
  { unfold stop, is_running.
    destruct (engine self) eqn:He, (_is_running self) eqn:Hr;
      cbn [andb fst engine _is_running]; rewrite ?He, ?Hr; reflexivity. }
  unfold set_options, set_option, get_best_move, analyze_position.
  rewrite Hstopped. cbn [negb]. repeat split.
Qed.

(** X23 ([UCIEngine.set_options] with [MANAGED_OPTIONS], and
    [get_best_move], uci_engine.py 221-247 and 261-313).  A running engine
    is configured with the options of the dictionary that python-chess
    does not manage, in their order and with their values, and never with
    one of MultiPV, Ponder, UCI_AnalyseMode and UCI_Chess960; and it is
    never asked for a move without a limit: with no limit given, the search
    is limited to one second. *)
Theorem running_engine_requests (self : t)
    (options : list (Py.str * Value)) (configured : answer unit)
    (board : Board) (time_limit : option float)
    (depth nodes wtime btime winc binc : option Z)
    (played : answer PlayResult) :
  is_running self = true ->
  (exists sent,
     snd (fst (set_options (Board := Board) str_of options configured self))
     = [configure sent]
     /\ (forall name value,
           In (name, value) sent
           <-> In (name, value) options
               /\ Py.member name MANAGED_OPTIONS = false)
     /\ exists dropped, Permutation (sent ++ dropped) options)
  /\ (exists limit,
        snd (fst (get_best_move (Value := Value) board time_limit depth nodes
                    wtime btime winc binc played self))
        = [play board limit]
        /\ unbounded limit = false
        /\ snd (fst (get_best_move (Value := Value) board None None None None
                       None None None played self))
           = [play board
                {| UCIEngine.time := Some 1%float; UCIEngine.depth := None;
                   UCIEngine.nodes := None; UCIEngine.white_clock := None;
                   UCIEngine.black_clock := None;
                   UCIEngine.white_inc := None;
                   UCIEngine.black_inc := None |}]).
Proof.
  intros Hrun. unfold set_options, get_best_move. rewrite Hrun. cbn [negb].
  split.
  - eexists. split; [reflexivity|]. split.
    + intros name value.
      rewrite (filter_keeps
                 (fun item => negb (Py.member (fst item) MANAGED_OPTIONS))).
      cbn [fst]. rewrite negb_true_iff. tauto.
    + exists (filter (fun item => Py.member (fst item) MANAGED_OPTIONS)
                options).
      clear. induction options as [|item options IH]; [constructor|].
      rewrite (filter_step
                 (fun item => negb (Py.member (fst item) MANAGED_OPTIONS))),
        (filter_step (fun item => Py.member (fst item) MANAGED_OPTIONS)).
      destruct (Py.member (fst item) MANAGED_OPTIONS); cbn [negb app].
      * rewrite <- Permutation_middle. now constructor.
      * now constructor.
  - eexists. split; [reflexivity|]. split; [|reflexivity].
    destruct time_limit, depth, nodes, wtime, btime, winc, binc; reflexivity.
Qed.

End EngineFacts.

(** ** The result of a game, shown and recorded *)

Section ResultFacts.
Context `{ChessRules}.
Import MainWindow Observe GameFinished.

Ltac ends_in_a_call :=
  try match goal with
      | |- context [trace (snd (_seek_game ?w ?c))] =>
          let added := fresh "added" in
          let Hadded := fresh "Hadded" in
          destruct (seek_game_keeps_ledger w c) as (added & -> & Hadded)
      | |- context [trace (snd (_on_stop_bot ?w ?c))] =>
          let added := fresh "added" in
          let Hadded := fresh "Hadded" in
          destruct (on_stop_bot_keeps_ledger w c) as (added & -> & Hadded)
      end;
  cbn [trace].

(** X24 ([_handle_game_finished], main_window.py 1775-1791, with
    [_on_game_finish], 1277-1321).  When a game that was not aborted
    finishes while the bot plays white or black, the handler first emits
    [game_finished] and then updates the statistics; the notation that the
    slot of the signal adds to the move list is 1-0 when white won, 0-1
    when black won and the draw sign when there is no winner, and the
    statistics are updated with a win exactly when the winner is the bot's
    colour, with a draw exactly when there is no winner. *)
Theorem shown_and_recorded_results_agree (w : world) (s : t)
    (game : game_event) (colour : Py.str) :
  our_color s = Some colour ->
  colour = py "white" \/ colour = py "black" ->
  winner game = None \/ winner game = Some (py "white")
  \/ winner game = Some (py "black") ->
  Py.member (default (py "unknown") (status game)) abort_statuses = false ->
  exists logged result rest,
    effects (_on_game_finish game) w s
    = Db logged :: Emit (game_finished game)
        :: Db (DatabaseManager.update_statistics result) :: rest
    /\ snd (_handle_game_finished (our_color s) game)
       = match winner game with
         | None => drawn
         | Some side =>
             if Py.eqb side (py "white") then white_wins else black_wins
         end
    /\ result
       = match winner game with
         | None => DatabaseManager.draw
         | Some side =>
             if Py.eqb side colour then DatabaseManager.win
             else DatabaseManager.loss
         end.
Proof.
  intros Hcolour Hside Hwinner Hstatus.
  unfold _on_game_finish. rewrite Hstatus.
  cbn [DatabaseManager.execute]. monad_cbv. rewrite Hcolour.
  unfold _handle_game_finished.
  assert (Hww : Py.eqb (py "white") (py "white") = true) by reflexivity.
  assert (Hwb : Py.eqb (py "white") (py "black") = false) by reflexivity.
  assert (Hbw : Py.eqb (py "black") (py "white") = false) by reflexivity.
  assert (Hbb : Py.eqb (py "black") (py "black") = true) by reflexivity.
  destruct Hside as [-> | ->];
    destruct Hwinner as [-> | [-> | ->]];
    cbn [Py.opt_eqb]; rewrite ?Hww, ?Hwb, ?Hbw, ?Hbb;
    repeat (split_run; monad_cbv); ends_in_a_call;
    (do 3 eexists; split; [reflexivity|split; reflexivity]).
Qed.

End ResultFacts.

(** ** The notation widget and the player panels *)

Section NotationFacts.
Context `{ChessRules}.
Variable san : Board -> Move -> Py.str.
Import NotationWidget.

Lemma add_to_last_app (text last : Py.str) (lines : list Py.str) :
  add_to_last text (lines ++ [last]) = inl (lines ++ [last ++ text]).
Proof.
  unfold add_to_last. rewrite rev_app_distr. cbn [rev app].
  now rewrite rev_involutive.
Qed.

(** The loop at an even and at an odd index: at an odd index the last
    line is that of White's move. *)
Lemma set_moves_loop_pairs (move_stack : list Move) :
  forall (i : nat) (temp_board : Board) (lines : list Py.str) (number : Z)
         (moves : list Py.str),
    (Nat.even i = true ->
     set_moves_loop san move_stack i temp_board lines number moves
     = inl (lines
            ++ numbered number
                 (MoveListWidget.san_moves san temp_board move_stack),
            moves ++ MoveListWidget.san_moves san temp_board move_stack))
    /\ (Nat.even i = false ->
        forall white,
          set_moves_loop san move_stack i temp_board
            (lines ++ [PyText.str_int number ++ py ". " ++ white]) number
            moves
          = inl (lines
                 ++ numbered number
                      (white :: MoveListWidget.san_moves san temp_board
                                  move_stack),
                 moves ++ MoveListWidget.san_moves san temp_board move_stack)).
Proof.
  induction move_stack as [|move rest IH];
    intros i temp_board lines number moves.
  - cbn [set_moves_loop MoveListWidget.san_moves numbered].
    split; [intros _|intros _ white]; now rewrite ?app_nil_r.
  - cbn [set_moves_loop MoveListWidget.san_moves]. cbn zeta.
    assert (Hnext : Nat.even (S i) = negb (Nat.even i))
      by (rewrite Nat.even_succ, <- Nat.negb_even; reflexivity).
    split.
    + intros Heven. rewrite Heven.
      destruct (IH (S i) (push temp_board move) lines number
                  (moves ++ [san temp_board move])) as [_ Hodd].
      rewrite Hodd by (rewrite Hnext, Heven; reflexivity).
      now rewrite <- app_assoc.
    + intros Hodd white. rewrite Hodd, add_to_last_app.
      destruct (IH (S i) (push temp_board move)
                  (lines ++ [(PyText.str_int number ++ py ". " ++ white)
                             ++ py " " ++ san temp_board move])
                  (number + 1) (moves ++ [san temp_board move]))
        as [Heven _].
      rewrite Heven by (rewrite Hnext, Hodd; reflexivity).
      cbn [numbered]. f_equal. f_equal.
      * rewrite <- (app_assoc lines). cbn [app]. do 2 f_equal.
        now rewrite <- !app_assoc.
      * now rewrite <- app_assoc.
Qed.

Lemma numbered_length (sans : list Py.str) (number : Z) :
  length (numbered number sans) = Nat.div2 (S (length sans)).
Proof.
  assert (Hbound : forall n sans number,
            (length sans <= n)%nat ->
            length (numbered number sans) = Nat.div2 (S (length sans))).
  { clear. induction n as [|n IH]; intros [|white [|black rest]] number Hn;
      try reflexivity; cbn [length] in Hn; try lia.
    cbn [numbered length]. rewrite IH by lia. reflexivity. }
  now apply (Hbound (length sans)).
Qed.

(** X25 ([NotationWidget.set_moves], chess_board.py 457-481).  For every
    move stack, [set_moves] raises nothing: [notation_lines[-1]] is only
    read when a line exists.  The widget then holds the moves in SAN, and
    its text has one line for every pair of moves, made of the move number
    counted from 1, a dot, White's move and, when it is there, Black's. *)
Theorem notation_pairs_the_moves (move_stack : list Move) (w : t) :
  let sans := MoveListWidget.san_moves san new_board move_stack in
  set_moves san move_stack w
  = inl {| moves := sans; notation_text := join newline (numbered 1 sans) |}
  /\ length (numbered 1 sans) = Nat.div2 (S (length move_stack))
  /\ length sans = length move_stack.
Proof.
  cbn zeta. unfold set_moves.
  rewrite (proj1 (set_moves_loop_pairs move_stack 0 new_board [] 1 [])
             eq_refl).
  cbn [app]. split; [reflexivity|].
  assert (Hlen : forall b, length (MoveListWidget.san_moves san b move_stack)
                           = length move_stack).
  { induction move_stack as [|m rest IH]; intros b; [reflexivity|].
    cbn [MoveListWidget.san_moves length]. now rewrite IH. }
  split; [|apply Hlen]. now rewrite numbered_length, Hlen.
Qed.

End NotationFacts.

Section PanelFacts.
Import PlayerInfoWidget PlayerLabels.

Lemma truthy_eqb (a b : Py.str) :
  Py.eqb a b = true -> Py.truthy a = Py.truthy b.
Proof. intros Heq. apply eqb_eq in Heq. now subst. Qed.

Lemma set_player_info_shows (name : Py.str) (rating : Z) (title : Py.str)
    (w : t) :
  shows_its_player w ->
  shows_its_player (set_player_info name rating title w)
  /\ player_name (set_player_info name rating title w) = name
  /\ player_rating (set_player_info name rating title w) = rating
  /\ player_title (set_player_info name rating title w) = title
  /\ clock (set_player_info name rating title w) = clock w.
Proof.
  intros (Hname & Hrating & Hvisible & Htitle).
  unfold set_player_info, shows_its_player.
  destruct (Py.eqb name (player_name w)) eqn:En;
    destruct (rating =? player_rating w) eqn:Er;
    destruct (Py.eqb title (player_title w)) eqn:Et;
    do 3 (cbn [andb negb with_name with_title with_rating player_name
               player_rating player_title name_label rating_label
               title_label title_label_visible clock];
          rewrite ?En, ?Er, ?Et);
    try (apply eqb_eq in En; subst name);
    try (apply Z.eqb_eq in Er; subst rating);
    try (apply eqb_eq in Et; subst title);
    (split; [split; [first [exact Hname|now left]
                    |split; [first [exact Hrating|reflexivity]
                            |split; [first [exact Hvisible|reflexivity]|]]]
            |repeat split]);
    try exact Htitle;
    intros Hshown; now rewrite Hshown.
Qed.

Lemma perform_keeps_panel (w : t) (c : call) :
  shows_its_player w /\ ClockWidget.shows_its_state (clock w) ->
  shows_its_player (perform w c)
  /\ ClockWidget.shows_its_state (clock (perform w c)).
Proof.
  intros [Hplayer Hclock]. destruct c as [name rating title|time_ms|active
                                         |is_white|captured advantage|];
    cbn [perform].
  - destruct (set_player_info_shows name rating title w Hplayer)
      as (Hshows & _ & _ & _ & Hsame).
    split; [exact Hshows|now rewrite Hsame].
  - split; [exact Hplayer|].
    exact (perform_keeps_clock (clock w) (ClockWidget.Set_time time_ms) Hclock).
  - split; [exact Hplayer|].
    exact (perform_keeps_clock (clock w) (ClockWidget.Set_active active) Hclock).
  - split; [exact Hplayer|exact Hclock].
  - split; [exact Hplayer|exact Hclock].
  - split.
    + unfold shows_its_player, reset.
      cbn [player_name player_rating player_title name_label rating_label
           title_label title_label_visible].
      split; [now right|]. split; [reflexivity|]. split; [reflexivity|].
      discriminate.
    + exact (perform_keeps_clock (clock w) ClockWidget.Reset Hclock).
Qed.

(** X26 ([PlayerInfoWidget.set_player_info], [set_time], [set_active] and
    [reset], player_info_widget.py 273-304 and 342-354).  After any
    sequence of calls on a new panel, although [set_player_info] writes
    only the labels whose value has changed: the name label shows the name
    of the player, or [Waiting...] while there is none; the rating label
    shows the rating in brackets when it is positive and is empty
    otherwise; the title label is visible exactly when there is a title,
    and then shows it; and the clock of the panel shows its state.  After
    [set_player_info] the panel holds the name, the rating and the title
    that were passed, and the name label shows a name that is not empty. *)
Theorem panel_shows_its_player (top : bool) (calls : list call)
    (name : Py.str) (rating : Z) (title : Py.str) :
  let w := fold_left perform calls (init top) in
  let w' := set_player_info name rating title w in
  shows_its_player w
  /\ ClockWidget.shows_its_state (clock w)
  /\ player_name w' = name /\ player_rating w' = rating
  /\ player_title w' = title
  /\ (Py.truthy name = true -> name_label w' = name).
Proof.
  cbn zeta.
  assert (Hinit : shows_its_player (init top)
                  /\ ClockWidget.shows_its_state (clock (init top))).
  { split; [|apply init_shows_its_state].
    unfold shows_its_player, init.
    cbn [player_name player_rating player_title name_label rating_label
         title_label title_label_visible].
    split; [now right|]. split; [reflexivity|]. split; [reflexivity|].
    discriminate. }
  revert Hinit. generalize (init top) as w.
  induction calls as [|c rest IH]; intros w Hw.
  - cbn [fold_left]. destruct Hw as [Hplayer Hclock].
    split; [exact Hplayer|]. split; [exact Hclock|].
    destruct (set_player_info_shows name rating title w Hplayer)
      as ((Hlabel & _) & Hn & Hr & Ht & _).
    split; [exact Hn|]. split; [exact Hr|]. split; [exact Ht|].
    rewrite Hn in Hlabel. intros Hsome.
    destruct Hlabel as [Hlabel|[Hempty _]]; [exact Hlabel|].
    rewrite Hempty in Hsome. discriminate.
  - cbn [fold_left]. apply IH. now apply perform_keeps_panel.
Qed.

End PanelFacts.

(** ** The theorems on examples *)

Section ExamplesOfTheRest.
Import Examples.
#[local] Existing Instance StandardChess.rules.
#[local] Existing Instance StandardPieces.pieces.

(** X2 on the square e4 after 1. e4 e5, drawn after an empty board: the
    widget at row 4, column 4 shows the white pawn and is highlighted. *)
Lemma every_square_is_drawn_in_its_cell_witness :
  0 <= 28 <= 63
  /\ map Drawing.key
       (ChessBoardDisplay.squares
          (Drawing.drawn [ChessBoardWidget.init] after_e4_e5))
     = Drawing.grid
  /\ exists sq,
       In sq (ChessBoardDisplay.squares
                (Drawing.drawn [ChessBoardWidget.init] after_e4_e5))
       /\ Drawing.key sq
          = Drawing.cell (ChessBoardWidget.flipped after_e4_e5) 28
       /\ SquareWidget.piece sq
          = piece_symbol_at (ChessBoardWidget.board after_e4_e5) 28
       /\ SquareWidget.is_highlighted sq = Drawing.marked after_e4_e5 28.
Proof.
  split; [lia|].
  apply (@every_square_is_drawn_in_its_cell StandardChess.rules
           StandardPieces.pieces [ChessBoardWidget.init] after_e4_e5 28).
  lia.
Defined.

(** X3 on the same square. *)
Lemma colours_and_labels_follow_the_squares_witness :
  0 <= 28 <= 63
  /\ exists sq,
       In sq (ChessBoardDisplay.squares
                (Drawing.drawn [ChessBoardWidget.init] after_e4_e5))
       /\ Drawing.key sq
          = Drawing.cell (ChessBoardWidget.flipped after_e4_e5) 28
       /\ SquareWidget.is_light sq = Drawing.light 28
       /\ SquareWidget.background_color sq
          = Some (Drawing.colour (Drawing.light 28)
                    (Drawing.marked after_e4_e5 28))
       /\ ChessBoardDisplay.file_labels
            (Drawing.drawn [ChessBoardWidget.init] after_e4_e5)
            !! Z.to_nat (SquareWidget.col sq)
          = Some (ChessBoardDisplay.chr (97 + StandardChess.square_file 28))
       /\ ChessBoardDisplay.rank_labels
            (Drawing.drawn [ChessBoardWidget.init] after_e4_e5)
            !! Z.to_nat (SquareWidget.row sq)
          = Some (PyText.str_int (StandardChess.square_rank 28 + 1)).
Proof.
  split; [lia|].
  apply (@colours_and_labels_follow_the_squares StandardChess.rules
           StandardPieces.pieces [ChessBoardWidget.init] after_e4_e5 28).
  lia.
Defined.

(** X6: the user looks at the position after 1. e4 when 2. Nf3 arrives. *)
Lemma new_moves_do_not_move_the_viewer_witness :
  let w :=
    ChessBoardWidget.navigate_to_ply 1
      (ChessBoardWidget.set_position_from_moves (py "e2e4 e7e5")
         ChessBoardWidget.init) in
  let w' :=
    ChessBoardWidget.set_position_from_moves (py "e2e4 e7e5 g1f3") w in
  Py.split (py "e2e4 e7e5") `prefix_of` Py.split (py "e2e4 e7e5 g1f3")
  /\ 0 <= 1 < Z.of_nat (length (Spec.accepted (py "e2e4 e7e5")))
  /\ ChessBoardWidget.board w' = ChessBoardWidget.board w
  /\ ChessBoardWidget.last_move w' = ChessBoardWidget.last_move w
  /\ ChessBoardWidget.current_ply w' = ChessBoardWidget.current_ply w
  /\ ChessBoardWidget.is_viewing_live w' = false
  /\ ChessBoardWidget.get_live_board w' = Spec.replay (py "e2e4 e7e5 g1f3").
Proof.
  cbn zeta.
  assert (Hprefix : Py.split (py "e2e4 e7e5")
                    `prefix_of` Py.split (py "e2e4 e7e5 g1f3"))
    by (exists [py "g1f3"]; vm_compute; reflexivity).
  assert (Hply : 0 <= 1 < Z.of_nat (length (Spec.accepted (py "e2e4 e7e5"))))
    by (vm_compute; split; [discriminate|reflexivity]).
  split; [exact Hprefix|]. split; [exact Hply|].
  exact (@new_moves_do_not_move_the_viewer StandardChess.rules
           ChessBoardWidget.init (py "e2e4 e7e5") (py "e2e4 e7e5 g1f3") 1
           Hprefix Hply).
Defined.

(** X7: the user looks at the third ply when the list d2d4 arrives. *)
Lemma shorter_history_leaves_the_view_beyond_it_witness :
  let w' := ChessBoardWidget.set_position_from_moves (py "d2d4") looking_back in
  ChessBoardWidget.is_viewing_live looking_back = false
  /\ (length (Spec.accepted (py "d2d4"))
      < ChessBoardWidget.current_ply looking_back)%nat
  /\ ChessBoardWidget.current_ply w' = ChessBoardWidget.current_ply looking_back
  /\ (length (ChessBoardWidget.move_history w')
      < ChessBoardWidget.current_ply w')%nat
  /\ ChessBoardWidget.board w' = ChessBoardWidget.get_live_board w'
  /\ ChessBoardWidget.last_move w' = None
  /\ ChessBoardWidget.is_viewing_live w' = false.
Proof.
  cbn zeta.
  assert (Hlive : ChessBoardWidget.is_viewing_live looking_back = false)
    by (vm_compute; reflexivity).
  assert (Hshort : (length (Spec.accepted (py "d2d4"))
                    < ChessBoardWidget.current_ply looking_back)%nat)
    by (vm_compute; lia).
  split; [exact Hlive|]. split; [exact Hshort|].
  exact (@shorter_history_leaves_the_view_beyond_it StandardChess.rules
           looking_back (py "d2d4") Hlive Hshort).
Defined.

(** X9: a clock with 250 ms left expires at the third tick, once. *)
Lemma clock_counts_down_and_expires_once_witness :
  ClockWidget.is_active running_out = true
  /\ 0 < ClockWidget.time_ms running_out
  /\ ClockWidget.time_ms (fst (ClockWidget.ticks 5 running_out))
     = Z.max 0 (ClockWidget.time_ms running_out - 100 * Z.of_nat 5)
  /\ snd (ClockWidget.ticks 5 running_out)
     = (if ClockWidget.time_ms running_out <=? 100 * Z.of_nat 5
        then 1%nat else 0%nat)
  /\ ClockWidget.is_active (fst (ClockWidget.ticks 5 running_out)) = true.
Proof.
  assert (Hactive : ClockWidget.is_active running_out = true)
    by (vm_compute; reflexivity).
  assert (Htime : 0 < ClockWidget.time_ms running_out)
    by (vm_compute; reflexivity).
  split; [exact Hactive|]. split; [exact Htime|].
  exact (clock_counts_down_and_expires_once 5 running_out Hactive Htime).
Defined.



(** X15 on the token and the engine in a new database. *)
Lemma a_setting_reads_back_what_was_written_witness :
  py "last_engine" <> py "bearer_token"
  /\ SettingsTable.get_setting (py "bearer_token") []
       (SettingsTable.set_setting (py "bearer_token") (py "lip_abc")
          SettingsTable.empty)
     = py "lip_abc"
  /\ SettingsTable.get_setting (py "last_engine") []
       (SettingsTable.set_setting (py "bearer_token") (py "lip_abc")
          SettingsTable.empty)
     = SettingsTable.get_setting (py "last_engine") [] SettingsTable.empty
  /\ (NoDup (map fst SettingsTable.empty) ->
      NoDup (map fst
               (SettingsTable.set_setting (py "bearer_token") (py "lip_abc")
                  SettingsTable.empty))).
Proof.
  assert (Hne : py "last_engine" <> py "bearer_token")
    by (vm_compute; discriminate).
  split; [exact Hne|].
  exact (a_setting_reads_back_what_was_written SettingsTable.empty
           (py "bearer_token") (py "lip_abc") (py "last_engine") [] Hne).
Defined.

(** X16 with the lower case of ASCII text. *)
Lemma rated_mode_reads_back_witness :
  ascii_lower (py "true") = py "true"
  /\ ascii_lower (py "false") = py "false"
  /\ SettingsTable.get_rated_mode ascii_lower
       (SettingsTable.set_rated_mode true SettingsTable.empty) = true
  /\ SettingsTable.get_rated_mode ascii_lower
       (SettingsTable.set_bearer_token (py "lip_abc")
          (SettingsTable.set_last_engine (py "stockfish")
             (SettingsTable.set_last_time_control (py "10+0")
                (SettingsTable.set_rated_mode true SettingsTable.empty))))
     = true
  /\ SettingsTable.get_last_time_control
       (SettingsTable.set_rated_mode true
          (SettingsTable.set_last_time_control (py "10+0")
             SettingsTable.empty))
     = py "10+0"
  /\ SettingsTable.get_rated_mode ascii_lower SettingsTable.empty = false
  /\ SettingsTable.get_last_time_control SettingsTable.empty = py "15+10".
Proof.
  split; [reflexivity|]. split; [reflexivity|].
  exact (rated_mode_reads_back ascii_lower eq_refl eq_refl
           SettingsTable.empty true (py "lip_abc") (py "stockfish")
           (py "10+0")).
Defined.

(** X19 on a won game. *)
Lemma statistics_add_up_witness :
  Calls.run won_and_recorded_twice DatabaseManager.empty
  = inl tables_afterwards
  /\ DatabaseManager.games_played tables_afterwards
     = Calls.tally won_and_recorded_twice Calls.is_update
  /\ DatabaseManager.games_won tables_afterwards
     = Calls.tally won_and_recorded_twice
         (Calls.is_result DatabaseManager.win)
  /\ DatabaseManager.games_lost tables_afterwards
     = Calls.tally won_and_recorded_twice
         (Calls.is_result DatabaseManager.loss)
  /\ DatabaseManager.games_drawn tables_afterwards
     = Calls.tally won_and_recorded_twice
         (Calls.is_result DatabaseManager.draw)
  /\ DatabaseManager.games_played tables_afterwards
     = DatabaseManager.games_won tables_afterwards
       + DatabaseManager.games_lost tables_afterwards
       + DatabaseManager.games_drawn tables_afterwards.
Proof.
  assert (Hrun : Calls.run won_and_recorded_twice DatabaseManager.empty
                 = inl tables_afterwards) by (vm_compute; reflexivity).
  split; [exact Hrun|].
  exact (statistics_add_up won_and_recorded_twice tables_afterwards Hrun).
Defined.

(** X20 on the same calls: the game that was added twice has one row. *)
Lemma history_has_one_row_per_game_witness :
  Calls.run won_and_recorded_twice DatabaseManager.empty
  = inl tables_afterwards
  /\ NoDup (map DatabaseManager.row_game_id
              (DatabaseManager.game_history tables_afterwards))
  /\ forall game_id,
       In game_id (map DatabaseManager.row_game_id
                     (DatabaseManager.game_history tables_afterwards))
       <-> existsb (Calls.added game_id) won_and_recorded_twice = true.
Proof.
  assert (Hrun : Calls.run won_and_recorded_twice DatabaseManager.empty
                 = inl tables_afterwards) by (vm_compute; reflexivity).
  split; [exact Hrun|].
  exact (history_has_one_row_per_game won_and_recorded_twice
           tables_afterwards Hrun).
Defined.

(** X23 on the options of the dialog: only the hash size is configured. *)
Lemma running_engine_requests_witness :
  UCIEngineObject.is_running running_engine = true
  /\ snd (fst (UCIEngineObject.set_options (Board := unit)
                 (fun _ => []) dialog_options
                 (UCIEngineObject.Returns tt) running_engine))
     = [UCIEngineObject.configure [(py "Hash", 128)]]
  /\ exists limit,
       snd (fst (UCIEngineObject.get_best_move (Value := Z) (PlayResult := unit)
                   tt None (Some 12) None None None None None
                   (UCIEngineObject.Returns tt) running_engine))
       = [UCIEngineObject.play tt limit]
       /\ UCIEngineObject.unbounded limit = false.
Proof.
  assert (Hrun : UCIEngineObject.is_running running_engine = true)
    by reflexivity.
  split; [exact Hrun|].
  destruct (running_engine_requests (Value := Z) (Board := unit)
              (PlayResult := unit) (fun _ => []) running_engine
              dialog_options (UCIEngineObject.Returns tt) tt None (Some 12)
              None None None None None (UCIEngineObject.Returns tt) Hrun)
    as [_ (limit & Hplay & Hbounded & _)].
  split; [vm_compute; reflexivity|].
  exists limit. split; [exact Hplay|exact Hbounded].
Defined.

(** X24 on a game that white, the bot, lost by checkmate. *)
Lemma shown_and_recorded_results_agree_witness :
  MainWindow.our_color (Scenario.playing "white") = Some (py "white")
  /\ (py "white" = py "white" \/ py "white" = py "black")
  /\ (MainWindow.winner (Scenario.game_over "mate") = None
      \/ MainWindow.winner (Scenario.game_over "mate") = Some (py "white")
      \/ MainWindow.winner (Scenario.game_over "mate") = Some (py "black"))
  /\ Py.member (default (py "unknown")
                  (MainWindow.status (Scenario.game_over "mate")))
       MainWindow.abort_statuses = false
  /\ exists logged result rest,
       Observe.effects (MainWindow._on_game_finish (Scenario.game_over "mate"))
         Scenario.quiet (Scenario.playing "white")
       = MainWindow.Db logged
           :: MainWindow.Emit
                (MainWindow.game_finished (Scenario.game_over "mate"))
           :: MainWindow.Db (DatabaseManager.update_statistics result) :: rest
       /\ snd (GameFinished._handle_game_finished
                 (MainWindow.our_color (Scenario.playing "white"))
                 (Scenario.game_over "mate"))
          = GameFinished.black_wins
       /\ result = DatabaseManager.loss.
Proof.
  assert (Hside : py "white" = py "white" \/ py "white" = py "black")
    by (left; reflexivity).
  assert (Hwinner :
            MainWindow.winner (Scenario.game_over "mate") = None
            \/ MainWindow.winner (Scenario.game_over "mate")
               = Some (py "white")
            \/ MainWindow.winner (Scenario.game_over "mate")
               = Some (py "black"))
    by (right; right; reflexivity).
  assert (Hstatus : Py.member
                      (default (py "unknown")
                         (MainWindow.status (Scenario.game_over "mate")))
                      MainWindow.abort_statuses = false)
    by (vm_compute; reflexivity).
  split; [reflexivity|]. split; [exact Hside|]. split; [exact Hwinner|].
  split; [exact Hstatus|].
  exact (shown_and_recorded_results_agree (H := StandardChess.rules)
           Scenario.quiet (Scenario.playing "white")
           (Scenario.game_over "mate") (py "white")
           eq_refl Hside Hwinner Hstatus).
Defined.

End ExamplesOfTheRest.
